(** * Malaria AI Detective: inference orchestration and session state

    A shallow embedding of the session-state logic of [src/app.py] (a
    Streamlit script) together with the properties of its specification.

    - [Py]        the Python values the script computes with: floats (the
                  Standard Library's IEEE 754 specification, in binary64
                  and, for NumPy scalars, in binary32 as well), [int(x)],
                  [max], [repr], truthiness, exceptions as results;
    - [MD5]       [hashlib.md5(..).hexdigest()] after RFC 1321;
    - [App]       the script itself: session state, the detection page and
                  the forecast page, one script run being one step;
    - [Spec]      the words of the specification: post-processing over
                  exact rationals, session status, the session invariant;
    - [Samples]   concrete images, requests and predictors.

    The two predictors (the Keras classifier and the XGBoost regressor)
    are loaded from files and are parameters of a run. Their outputs are
    NumPy [float32] scalars, and the format in which the script computes
    with them (lines 96 and 902) is binary64 or binary32 according to the
    version of NumPy; the pages are modelled with binary64, and the two
    expressions are also given for either format ([confidence_in],
    [adjusted_in]). The properties follow in the order of the components:
    fingerprint, detection session, confidence (with the rounding facts
    it needs, first in binary64, then in any format), feature encoding,
    post-processing, and further properties of the pages. *)

From Stdlib Require Import ZArith QArith Qround Qpower Lia Lqa Bool List.
From Stdlib Require Import Strings.Ascii Strings.String Init.Byte.
From Stdlib Require Import Floats.SpecFloat.
From stdpp Require Import gmap strings list.

Local Open Scope Z_scope.

(* ===================================================================== *)
(** * Python values *)
(* ===================================================================== *)

Module Py.

(** A computation that either returns or raises; the script only ever
    looks at [str(e)] of a caught exception, so an exception is its
    message. *)
Inductive result (A : Type) : Type :=
| Ok (a : A)
| Raise (msg : string).
Arguments Ok {A} a.
Arguments Raise {A} msg.

Definition bind {A B} (r : result A) (k : A -> result B) : result B :=
  match r with
  | Ok a => k a
  | Raise msg => Raise msg
  end.

(** [repr(k)] of a [str], a string being its UTF-8 bytes and its
    characters beyond ASCII printable ones: in single quotes, or in
    double quotes when [k] holds a single quote and no double quote; the
    quote in use and the backslash are escaped, tab, newline and carriage
    return are written with their letter, the other control characters as
    [\xhh]. *)
Definition lower_hex (n : N) : ascii :=
  ascii_of_N (if (n <? 10)%N then 48 + n else 87 + n).

Definition repr_char (quote c : ascii) : string :=
  let n := N_of_ascii c in
  if Ascii.eqb c quote || Ascii.eqb c "092" then String "092" (String c EmptyString)
  else if (n =? 9)%N then String "092" "t"
  else if (n =? 10)%N then String "092" "n"
  else if (n =? 13)%N then String "092" "r"
  else if (n <? 32)%N || (n =? 127)%N then
    String "092" (String "x" (String (lower_hex (n / 16))
                                (String (lower_hex (n mod 16)) EmptyString)))
  else String c EmptyString.

Fixpoint repr_chars (quote : ascii) (k : string) : string :=
  match k with
  | EmptyString => EmptyString
  | String c k' => (repr_char quote c ++ repr_chars quote k')%string
  end.

Definition repr (k : string) : string :=
  let chars := list_ascii_of_string k in
  let quote :=
    if existsb (Ascii.eqb "'") chars && negb (existsb (Ascii.eqb "034") chars)
    then "034"%char else "'"%char in
  String quote (repr_chars quote k ++ String quote EmptyString).

(** [d[k]] on a dict: [KeyError(k)], whose [str] is the [repr] of the key. *)
Definition getitem {V} (d : gmap string V) (k : string) : result V :=
  match d !! k with
  | Some v => Ok v
  | None => Raise (repr k)
  end.

(** ** Floats: IEEE 754 binary64 *)

Definition prec : Z := 53.
Definition emax : Z := 1024.

Definition fadd := SFadd prec emax.
Definition fsub := SFsub prec emax.
Definition fmul := SFmul prec emax.
Definition fdiv := SFdiv prec emax.
Definition fltb := SFltb.
Definition fleb := SFleb.
Definition feqb := SFeqb.

(** A well-formed binary64 value: a finite one has a canonical mantissa
    and an exponent in range. *)
Definition is_float (x : spec_float) : bool := valid_binary prec emax x.

Definition is_finite (x : spec_float) : bool :=
  match x with
  | S754_zero _ | S754_finite _ _ _ => true
  | S754_infinity _ | S754_nan => false
  end.

(** [float(z)] for an integer [z], rounded to nearest even (exact below
    [2^53]). *)
Definition float_of_int (z : Z) : spec_float :=
  binary_normalize prec emax z 0 false.

(** [a / b] on two ints (true division), [b] not zero. *)
Definition int_truediv (a b : Z) : spec_float :=
  fdiv (float_of_int a) (float_of_int b).

(** The float literals of the script, as the nearest binary64 values. *)
Definition f0_5 : spec_float := S754_finite false 4503599627370496 (-53).
Definition f0_7 : spec_float := S754_finite false 6305039478318694 (-53).
Definition f1_0 : spec_float := S754_finite false 4503599627370496 (-52).
Definition f1_2 : spec_float := S754_finite false 5404319552844595 (-52).
Definition f1_5 : spec_float := S754_finite false 6755399441055744 (-52).


Definition fabs := SFabs.


(** [int(x)]: truncation toward zero; [ValueError] on NaN and
    [OverflowError] on an infinity. *)
Definition int_of_float (x : spec_float) : result Z :=
  match x with
  | S754_zero _ => Ok 0
  | S754_finite s m e =>
      Ok (cond_Zopp s (if 0 <=? e then Z.pos m * 2 ^ e
                       else Z.pos m / 2 ^ (- e)))
  | S754_infinity _ => Raise "cannot convert float infinity to integer"
  | S754_nan => Raise "cannot convert float NaN to integer"
  end.

(** [max(a, b)] on two floats: the first argument unless the second is
    strictly greater. *)
Definition fmax (a b : spec_float) : spec_float :=
  if fltb a b then b else a.

(** Truthiness of a value that is [None] or a [str]. *)
Definition truthy (o : option string) : bool :=
  match o with
  | None => false
  | Some EmptyString => false
  | Some (String _ _) => true
  end.

(** The number a float denotes, as the integer below it: [floor]. Used
    on the specification side only. *)
Definition floor (x : spec_float) : Z :=
  match x with
  | S754_finite s m e =>
      if 0 <=? e then cond_Zopp s (Z.pos m * 2 ^ e)
      else cond_Zopp s (Z.pos m) / 2 ^ (- e)
  | _ => 0
  end.

(** ** The format of an operation on a predictor's output

    Keras and XGBoost return NumPy [float32] scalars. An operation of
    such a scalar with a Python number is computed in binary64 under the
    promotion rules of NumPy 1 (the scalar is widened, which is exact)
    and in binary32 under those of NumPy 2 (the Python number is rounded
    to [float32] first); a [float64] scalar is always computed with in
    binary64. The script pins neither, so the two expressions that
    compute with a predictor's output (lines 96 and 902) are given for
    both formats. *)
Inductive format := Binary32 | Binary64.

Definition precision (f : format) : Z :=
  match f with Binary32 => 24 | Binary64 => 53 end.

Definition exponent_max (f : format) : Z :=
  match f with Binary32 => 128 | Binary64 => 1024 end.

Definition valid_in (f : format) (x : spec_float) : bool :=
  valid_binary (precision f) (exponent_max f) x.

Definition sub_in (f : format) := SFsub (precision f) (exponent_max f).
Definition mul_in (f : format) := SFmul (precision f) (exponent_max f).

(** An integer as a number of the format. *)
Definition of_int_in (f : format) (z : Z) : spec_float :=
  binary_normalize (precision f) (exponent_max f) z 0 false.

(** [2^k] as a normal number of the format. *)
Definition pow2_in (f : format) (k : Z) : spec_float :=
  S754_finite false (Z.to_pos (2 ^ (precision f - 1))) (k - precision f + 1).

(** A Python float (a binary64) as a number of the format: itself, or
    rounded to nearest even. *)
Definition cast (f : format) (x : spec_float) : spec_float :=
  match f, x with
  | Binary32, S754_finite s m e => binary_round 24 128 s m e
  | _, _ => x
  end.

(** The rational a finite float denotes, [(-1)^s * m * 2^e]. *)
Definition to_Q (x : spec_float) : Q :=
  match x with
  | S754_finite s m e => (inject_Z (cond_Zopp s (Z.pos m)) * Qpower 2 e)%Q
  | _ => 0%Q
  end.

End Py.

(* ===================================================================== *)
(** * hashlib.md5 (RFC 1321) *)
(* ===================================================================== *)

Module MD5.

Definition add32 (x y : Z) : Z := (x + y) mod 2 ^ 32.
Definition not32 (x : Z) : Z := Z.lxor x 4294967295.
Definition rotl32 (x n : Z) : Z :=
  Z.lor (Z.shiftl x n mod 2 ^ 32) (Z.shiftr x (32 - n)).

Definition shifts : list Z :=
  [7; 12; 17; 22; 7; 12; 17; 22; 7; 12; 17; 22; 7; 12; 17; 22;
   5; 9; 14; 20; 5; 9; 14; 20; 5; 9; 14; 20; 5; 9; 14; 20;
   4; 11; 16; 23; 4; 11; 16; 23; 4; 11; 16; 23; 4; 11; 16; 23;
   6; 10; 15; 21; 6; 10; 15; 21; 6; 10; 15; 21; 6; 10; 15; 21].

Definition K : list Z :=
  [3614090360; 3905402710; 606105819; 3250441966; 4118548399; 1200080426; 2821735955; 4249261313;
   1770035416; 2336552879; 4294925233; 2304563134; 1804603682; 4254626195; 2792965006; 1236535329;
   4129170786; 3225465664; 643717713; 3921069994; 3593408605; 38016083; 3634488961; 3889429448;
   568446438; 3275163606; 4107603335; 1163531501; 2850285829; 4243563512; 1735328473; 2368359562;
   4294588738; 2272392833; 1839030562; 4259657740; 2763975236; 1272893353; 4139469664; 3200236656;
   681279174; 3936430074; 3572445317; 76029189; 3654602809; 3873151461; 530742520; 3299628645;
   4096336452; 1126891415; 2878612391; 4237533241; 1700485571; 2399980690; 4293915773; 2240044497;
   1873313359; 4264355552; 2734768916; 1309151649; 4149444226; 3174756917; 718787259; 3951481745].

(** The four chaining words A, B, C, D. *)
Definition state : Type := Z * Z * Z * Z.

Definition init : state := (1732584193, 4023233417, 2562383102, 271733878).

(** [n] bytes of [z], least significant first. *)
Fixpoint le_bytes (n : nat) (z : Z) : list Z :=
  match n with
  | O => []
  | S n' => z mod 256 :: le_bytes n' (z / 256)
  end.

Fixpoint le_word (bs : list Z) : Z :=
  match bs with
  | [] => 0
  | b :: bs' => b + 256 * le_word bs'
  end.

(** Padding: a 1 bit, zeros up to 56 modulo 64, the bit length on 64
    bits. *)
Definition pad (msg : list Z) : list Z :=
  let len := Z.of_nat (length msg) in
  msg ++ [128] ++ repeat 0 (Z.to_nat ((55 - len) mod 64))
      ++ le_bytes 8 ((8 * len) mod 2 ^ 64).

(** The 16 little-endian words of a 64-byte block. *)
Fixpoint words (n : nat) (bs : list Z) : list Z :=
  match n with
  | O => []
  | S n' => le_word (firstn 4 bs) :: words n' (skipn 4 bs)
  end.

Definition round (M : list Z) (st : state) (i : nat) : state :=
  let '(a, b, c, d) := st in
  let iz := Z.of_nat i in
  let '(f, g) :=
    if iz <? 16 then (Z.lor (Z.land b c) (Z.land (not32 b) d), iz)
    else if iz <? 32 then
      (Z.lor (Z.land d b) (Z.land (not32 d) c), (5 * iz + 1) mod 16)
    else if iz <? 48 then (Z.lxor (Z.lxor b c) d, (3 * iz + 5) mod 16)
    else (Z.lxor c (Z.lor b (not32 d)), (7 * iz) mod 16) in
  let f' := add32 (add32 (add32 f a) (nth i K 0)) (nth (Z.to_nat g) M 0) in
  (d, add32 b (rotl32 f' (nth i shifts 0)), b, c).

Definition compress (st : state) (block : list Z) : state :=
  let '(a0, b0, c0, d0) := st in
  let '(a, b, c, d) := fold_left (round (words 16 block)) (seq 0 64) st in
  (add32 a0 a, add32 b0 b, add32 c0 c, add32 d0 d).

(** All 64-byte blocks of the padded message, in order. *)
Fixpoint blocks (n : nat) (st : state) (bs : list Z) : state :=
  match n with
  | O => st
  | S n' => blocks n' (compress st (firstn 64 bs)) (skipn 64 bs)
  end.

Definition digest_words (msg : list Z) : state :=
  let p := pad msg in
  blocks (length p / 64) init p.

(** The 16 bytes of the digest. *)
Definition digest (msg : list Z) : list Z :=
  let '(a, b, c, d) := digest_words msg in
  le_bytes 4 a ++ le_bytes 4 b ++ le_bytes 4 c ++ le_bytes 4 d.

Definition hex_digit (n : Z) : ascii :=
  match n with
  | 0 => "0" | 1 => "1" | 2 => "2" | 3 => "3" | 4 => "4" | 5 => "5"
  | 6 => "6" | 7 => "7" | 8 => "8" | 9 => "9" | 10 => "a" | 11 => "b"
  | 12 => "c" | 13 => "d" | 14 => "e" | _ => "f"
  end%char.

Fixpoint hex (bs : list Z) : string :=
  match bs with
  | [] => EmptyString
  | b :: bs' => String (hex_digit (b / 16)) (String (hex_digit (b mod 16)) (hex bs'))
  end.

Definition is_hex_digit (c : ascii) : bool :=
  existsb (Ascii.eqb c) (list_ascii_of_string "0123456789abcdef").

(** [hashlib.md5(data).hexdigest()]. *)
Definition hexdigest (data : list byte) : string :=
  hex (digest (map (fun b => Z.of_N (Byte.to_N b)) data)).

End MD5.

(* ===================================================================== *)
(** * The application: session state and script runs *)
(* ===================================================================== *)

Module App.
Import Py.

(** ** Data *)

(** A PIL image in mode RGB: its size and its raw pixel bytes. *)
Record Image := { size : nat * nat; pixels : list byte }.

Definition tobytes (image : Image) : list byte := pixels image.

(** The value of [datetime.now()]. *)
Definition datetime : Type := Z.

(** The dict stored under [forecast_result]. *)
Record forecast_record := {
  result_prediction : Z;
  result_city : string;
  result_country : string;
  result_month : string;
  result_timestamp : datetime }.

(** The values the forecast page reads from its widgets, under the
    names of the script's variables. *)
Record request := {
  temperature : spec_float;
  rainfall : spec_float;
  humidity : spec_float;
  previous_cases : Z;
  population : string;
  healthcare_index : Z;
  country : string;
  city : string;
  month : string }.

(** [st.session_state], with the keys of [initialize_session_state]. *)
Record session_state := {
  analysis_done : bool;
  prediction_result : option spec_float;
  confidence_score : option spec_float;
  analyzed_image_hash : option string;
  analysis_timestamp : option datetime;
  current_tab : string;
  forecast_done : bool;
  forecast_result : option forecast_record;
  models_loaded : bool }.

(** Lines 90-95 of [process_image_prediction] as one call: resize to
    128x128, scale to [0,1], add the batch axis, and
    [model.predict(..)[0][0]]; any of these may raise. *)
Definition Classifier : Type := Image -> result spec_float.

(** A cell of the feature row: a Python int or float. *)
Inductive num := Int (z : Z) | Float (x : spec_float).

(** [models['forecast_model'].predict(input_data)[0]]. *)
Definition Regressor : Type := list (list num) -> result spec_float.

(** The dict returned by [load_ai_models]; a model is loaded iff it is
    not [None]. *)
Record models_status := {
  detection_model : option Classifier;
  forecast_model : option Regressor;
  errors : list string }.

Definition detection_loaded (models : models_status) : bool :=
  match detection_model models with Some _ => true | None => false end.

Definition forecast_loaded (models : models_status) : bool :=
  match forecast_model models with Some _ => true | None => false end.

(** What a run shows: error boxes and the two result cards. *)
Inductive ui_event :=
| UiError (msg : string)
| UiDetection (positive : bool) (score : spec_float)
| UiGauge (confidence_value : spec_float)
| UiForecast (cases : Z) (risk : string)
| UiModelConfidence (percent : Z).

(** The state a script run works on: the session, the images the
    classifier was invoked on (oldest first), and what was shown. *)
Record world := {
  session : session_state;
  inferences : list Image;
  ui : list ui_event }.

Inductive feature := DetectionParImage | PrevisionClimatique | DashboardAnalytics.

Inductive button :=
| Analyser | NouvelleAnalyse | PartagerResultat | ExporterRapport
| GenererPrevision | NouvellePrevision.

(** The widget values of one run. The file uploader yields the result
    of [Image.open(uploaded_file).convert("RGB")]; a select box yields
    the position picked in its options. *)
Record inputs := {
  selected_feature : feature;
  uploaded_file : option (result Image);
  clicked : option button;
  now : datetime;
  slider_temperature : spec_float;
  slider_rainfall : spec_float;
  slider_humidity : spec_float;
  slider_previous_cases : Z;
  pick_population : nat;
  slider_healthcare_index : Z;
  pick_country : nat;
  pick_city : nat;
  pick_month : nat }.

(** ** Script runs: state, exceptions and script control *)

(** How a piece of the script ends: normally, with an exception, or
    with [st.rerun()] / [st.stop()], which [except Exception] does not
    catch. *)
Inductive control (A : Type) : Type :=
| Done (a : A)
| Raised (msg : string)
| Rerun
| Stop.
Arguments Done {A} a.
Arguments Raised {A} msg.
Arguments Rerun {A}.
Arguments Stop {A}.

Definition M (A : Type) : Type := world -> control A * world.

Definition ret {A} (a : A) : M A := fun w => (Done a, w).

Definition mbind {A B} (c : M A) (k : A -> M B) : M B :=
  fun w =>
    match c w with
    | (Done a, w') => k a w'
    | (Raised msg, w') => (Raised msg, w')
    | (Rerun, w') => (Rerun, w')
    | (Stop, w') => (Stop, w')
    end.

Declare Scope run_scope.
Delimit Scope run_scope with run.
Notation "x <- c ;; k" := (mbind c (fun x => k))
  (at level 100, c at next level, right associativity) : run_scope.
Notation "c ;; k" := (mbind c (fun _ => k))
  (at level 100, right associativity) : run_scope.

(** [try: body except Exception as e: handler(str(e))]. *)
Definition try_except {A} (body : M A) (handler : string -> M A) : M A :=
  fun w =>
    match body w with
    | (Raised msg, w') => handler msg w'
    | r => r
    end.

Definition lift {A} (r : result A) : M A :=
  fun w => (match r with Ok a => Done a | Raise msg => Raised msg end, w).

Definition get_session : M session_state := fun w => (Done (session w), w).

Definition put_session (s : session_state) : M unit :=
  fun w => (Done tt, {| session := s; inferences := inferences w; ui := ui w |}).

Definition show (e : ui_event) : M unit :=
  fun w => (Done tt, {| session := session w; inferences := inferences w;
                        ui := ui w ++ [e] |}).

Definition st_error (msg : string) : M unit := show (UiError msg).
Definition st_rerun {A} : M A := fun w => (Rerun, w).
Definition st_stop {A} : M A := fun w => (Stop, w).

(** One invocation of the classifier, recorded in the world. *)
Definition invoke (model : Classifier) (image : Image) : M (result spec_float) :=
  fun w => (Done (model image),
            {| session := session w; inferences := inferences w ++ [image];
               ui := ui w |}).

Definition st_button (inp : inputs) (b : button) : bool :=
  match clicked inp with
  | Some b' => match b, b' with
               | Analyser, Analyser | NouvelleAnalyse, NouvelleAnalyse
               | PartagerResultat, PartagerResultat
               | ExporterRapport, ExporterRapport
               | GenererPrevision, GenererPrevision
               | NouvellePrevision, NouvellePrevision => true
               | _, _ => false
               end
  | None => false
  end.

(** The value of a select box is one of its options, the first one by
    default. *)
Definition st_selectbox (options : list string) (pick : nat) : option string :=
  match options !! pick with
  | Some o => Some o
  | None => head options
  end.

(** ** Session state *)

Definition default_values : session_state :=
  {| analysis_done := false;
     prediction_result := None;
     confidence_score := None;
     analyzed_image_hash := None;
     analysis_timestamp := None;
     current_tab := "detection";
     forecast_done := false;
     forecast_result := None;
     models_loaded := false |}.

(** Every key gets its default unless it is already there: a new
    session gets all of them, a running one keeps its values. *)
Definition initialize_session_state (s : option session_state) : session_state :=
  match s with
  | None => default_values
  | Some st => st
  end.

Definition set_analysis_done (v : bool) (s : session_state) : session_state :=
  {| analysis_done := v;
     prediction_result := prediction_result s;
     confidence_score := confidence_score s;
     analyzed_image_hash := analyzed_image_hash s;
     analysis_timestamp := analysis_timestamp s;
     current_tab := current_tab s;
     forecast_done := forecast_done s;
     forecast_result := forecast_result s;
     models_loaded := models_loaded s |}.

Definition set_prediction_result (v : option spec_float) (s : session_state) : session_state :=
  {| analysis_done := analysis_done s;
     prediction_result := v;
     confidence_score := confidence_score s;
     analyzed_image_hash := analyzed_image_hash s;
     analysis_timestamp := analysis_timestamp s;
     current_tab := current_tab s;
     forecast_done := forecast_done s;
     forecast_result := forecast_result s;
     models_loaded := models_loaded s |}.

Definition set_confidence_score (v : option spec_float) (s : session_state) : session_state :=
  {| analysis_done := analysis_done s;
     prediction_result := prediction_result s;
     confidence_score := v;
     analyzed_image_hash := analyzed_image_hash s;
     analysis_timestamp := analysis_timestamp s;
     current_tab := current_tab s;
     forecast_done := forecast_done s;
     forecast_result := forecast_result s;
     models_loaded := models_loaded s |}.

Definition set_analyzed_image_hash (v : option string) (s : session_state) : session_state :=
  {| analysis_done := analysis_done s;
     prediction_result := prediction_result s;
     confidence_score := confidence_score s;
     analyzed_image_hash := v;
     analysis_timestamp := analysis_timestamp s;
     current_tab := current_tab s;
     forecast_done := forecast_done s;
     forecast_result := forecast_result s;
     models_loaded := models_loaded s |}.

Definition set_analysis_timestamp (v : option datetime) (s : session_state) : session_state :=
  {| analysis_done := analysis_done s;
     prediction_result := prediction_result s;
     confidence_score := confidence_score s;
     analyzed_image_hash := analyzed_image_hash s;
     analysis_timestamp := v;
     current_tab := current_tab s;
     forecast_done := forecast_done s;
     forecast_result := forecast_result s;
     models_loaded := models_loaded s |}.

Definition set_forecast_done (v : bool) (s : session_state) : session_state :=
  {| analysis_done := analysis_done s;
     prediction_result := prediction_result s;
     confidence_score := confidence_score s;
     analyzed_image_hash := analyzed_image_hash s;
     analysis_timestamp := analysis_timestamp s;
     current_tab := current_tab s;
     forecast_done := v;
     forecast_result := forecast_result s;
     models_loaded := models_loaded s |}.

Definition set_forecast_result (v : option forecast_record) (s : session_state) : session_state :=
  {| analysis_done := analysis_done s;
     prediction_result := prediction_result s;
     confidence_score := confidence_score s;
     analyzed_image_hash := analyzed_image_hash s;
     analysis_timestamp := analysis_timestamp s;
     current_tab := current_tab s;
     forecast_done := forecast_done s;
     forecast_result := v;
     models_loaded := models_loaded s |}.

(** [st.session_state.key = v]. *)
Definition assign (f : session_state -> session_state) : M unit :=
  fun w => put_session (f (session w)) w.

Local Open Scope run_scope.

Definition reset_analysis_state : M unit :=
  assign (set_analysis_done false) ;;
  assign (set_prediction_result None) ;;
  assign (set_confidence_score None) ;;
  assign (set_analyzed_image_hash None) ;;
  assign (set_analysis_timestamp None).

Definition reset_forecast_state : M unit :=
  assign (set_forecast_done false) ;;
  assign (set_forecast_result None).

(** ** Detection by image *)

Definition get_image_hash (image : Image) : string :=
  MD5.hexdigest (tobytes image).

(** Line 96, [max(prediction, 1 - prediction)], where the difference is
    computed in binary64; [confidence_in] below gives it in either
    format. *)
Definition confidence (prediction : spec_float) : spec_float :=
  fmax prediction (fsub (float_of_int 1) prediction).

(** The triple [(prediction, confidence, error)]. *)
Definition process_image_prediction (image : Image) (model : Classifier)
  : M (option spec_float * option spec_float * option string) :=
  r <- invoke model image ;;
  match r with
  | Ok prediction => ret (Some prediction, Some (confidence prediction), None)
  | Raise e => ret (None, None, Some e)
  end.

(** Lines 638-643: fingerprint the image and drop the stored analysis
    unless it is the analysis of this very fingerprint. *)
Definition submit_image (image : Image) : M string :=
  let current_image_hash := get_image_hash image in
  s <- get_session ;;
  (if negb (analysis_done s)
      || bool_decide (analyzed_image_hash s ≠ Some current_image_hash)
   then reset_analysis_state
   else ret tt) ;;
  ret current_image_hash.

(** Lines 710-728: the handler of the analysis button. *)
Definition run_analysis (image : Image) (current_image_hash : string)
    (model : Classifier) (inp : inputs) : M unit :=
  r <- process_image_prediction image model ;;
  let '(prediction, confidence, error) := r in
  if truthy error then
    st_error ("❌ Erreur lors de l'analyse: " ++ default "" error)
  else
    assign (set_prediction_result prediction) ;;
    assign (set_confidence_score confidence) ;;
    assign (set_analyzed_image_hash (Some current_image_hash)) ;;
    assign (set_analysis_done true) ;;
    assign (set_analysis_timestamp (Some (now inp))) ;;
    st_rerun.

(** What Python raises when a stored value that is used is [None]. *)
Definition not_none {A} (o : option A) (msg : string) : M A :=
  match o with
  | Some a => ret a
  | None => fun w => (Raised msg, w)
  end.

(** Lines 732-808: the result card, the gauge and the buttons (the
    share and export buttons only show a notice). *)
Definition show_results (inp : inputs) : M unit :=
  s <- get_session ;;
  prediction <- not_none (prediction_result s)
    "'>=' not supported between instances of 'NoneType' and 'float'" ;;
  _ <- not_none (analysis_timestamp s)
    "'NoneType' object has no attribute 'strftime'" ;;
  show (UiDetection (fleb f0_5 prediction) prediction) ;;
  confidence <- not_none (confidence_score s)
    "unsupported operand type(s) for *: 'NoneType' and 'int'" ;;
  show (UiGauge confidence) ;;
  if st_button inp NouvelleAnalyse then
    reset_analysis_state ;; st_rerun
  else ret tt.

(** Lines 598-811. *)
Definition detection_page (models : models_status) (inp : inputs) : M unit :=
  match detection_model models with
  | None =>
      st_error "🚨 Le modèle de détection n'est pas disponible. Vérifiez l'installation des fichiers." ;;
      st_stop
  | Some model =>
      match uploaded_file inp with
      | None => ret tt
      | Some file =>
          try_except
            (image <- lift file ;;
             current_image_hash <- submit_image image ;;
             s <- get_session ;;
             if negb (analysis_done s) then
               if st_button inp Analyser then
                 run_analysis image current_image_hash model inp
               else ret tt
             else show_results inp)
            (fun e => st_error ("❌ Erreur lors du traitement de l'image: " ++ e))
      end
  end.

(** ** Climate forecast *)

(** A dict display [{k1: v1, ...}] or comprehension: a later item
    replaces an earlier one with the same key. *)
Definition dict {V} (items : list (string * V)) : gmap string V :=
  fold_left (fun d kv => <[kv.1 := kv.2]> d) items ∅.

Definition populations : list string :=
  ["Petite (<50k)"; "Moyenne (50k-200k)"; "Grande (>200k)"].

Definition countries : list string :=
  ["Senegal"; "Mali"; "Guinea"; "Ivory Coast"; "Burkina Faso"].

Definition city_options : gmap string (list string) :=
  dict [("Senegal", ["Dakar"; "Thies"; "Saint-Louis"; "Ziguinchor"]);
        ("Mali", ["Bamako"; "Sikasso"; "Kayes"; "Mopti"]);
        ("Guinea", ["Conakry"; "Nzerekore"; "Kindia"; "Labe"]);
        ("Ivory Coast", ["Abidjan"; "Yamoussoukro"; "Bouake"; "Daloa"]);
        ("Burkina Faso", ["Ouagadougou"; "Bobo-Dioulasso"; "Koudougou"; "Banfora"])].

Definition months : list string :=
  ["Mai"; "Juin"; "Juillet"; "Août"; "Septembre"; "Octobre"].

Definition month_map : gmap string Z :=
  dict [("Mai", 0); ("Juin", 1); ("Juillet", 2); ("Août", 3);
        ("Septembre", 4); ("Octobre", 5)].

Definition all_cities : list string :=
  ["Dakar"; "Thies"; "Saint-Louis"; "Ziguinchor"; "Bamako"; "Sikasso"; "Kayes"; "Mopti";
   "Conakry"; "Nzerekore"; "Kindia"; "Labe"; "Abidjan"; "Yamoussoukro"; "Bouake"; "Daloa";
   "Ouagadougou"; "Bobo-Dioulasso"; "Koudougou"; "Banfora"].

(** [{c: i for i, c in enumerate(all_cities)}]. *)
Definition city_map : gmap string Z :=
  dict (imap (fun i c => (c, Z.of_nat i)) all_cities).

Definition country_map : gmap string Z :=
  dict [("Senegal", 0); ("Mali", 1); ("Guinea", 2); ("Ivory Coast", 3);
        ("Burkina Faso", 4)].

Definition population_factors : gmap string spec_float :=
  dict [("Petite (<50k)", f0_7); ("Moyenne (50k-200k)", f1_0);
        ("Grande (>200k)", f1_5)].

(** Lines 892-895: [input_data], one row of seven cells. *)
Definition encode (r : request) : result (list (list num)) :=
  bind (getitem country_map (country r)) (fun country_idx =>
  bind (getitem city_map (city r)) (fun city_idx =>
  bind (getitem month_map (month r)) (fun month_idx =>
  Ok [[Int country_idx; Int city_idx; Int month_idx;
       Float (temperature r); Float (humidity r); Float (rainfall r);
       Int (previous_cases r)]]))).

(** [1.2 - (healthcare_index / 10)]. *)
Definition healthcare_factor (healthcare_index : Z) : spec_float :=
  fsub f1_2 (int_truediv healthcare_index 10).

(** [base_prediction * population_factor * healthcare_factor], where the
    products are computed in binary64; [adjusted_in] below gives them in
    either format. *)
Definition adjusted (base_prediction population_factor : spec_float)
    (healthcare_index : Z) : spec_float :=
  fmul (fmul base_prediction population_factor)
       (healthcare_factor healthcare_index).

(** Lines 899-902: [max(0, int(..))]. *)
Definition final_prediction (base_prediction : spec_float)
    (population : string) (healthcare_index : Z) : result Z :=
  bind (getitem population_factors population) (fun population_factor =>
  bind (int_of_float (adjusted base_prediction population_factor healthcare_index))
    (fun n => Ok (Z.max 0 n))).

(** Line 96 in the format [f]: [1] becomes a number of the format, the
    difference is rounded in it. *)
Definition confidence_in (f : format) (prediction : spec_float) : spec_float :=
  fmax prediction (sub_in f (of_int_in f 1) prediction).

(** Line 902 in the format [f]: each Python float becomes a number of
    the format, each product is rounded in it. *)
Definition adjusted_in (f : format) (base_prediction population_factor : spec_float)
    (healthcare_index : Z) : spec_float :=
  mul_in f (mul_in f base_prediction (cast f population_factor))
           (cast f (healthcare_factor healthcare_index)).

Definition final_prediction_in (f : format) (base_prediction : spec_float)
    (population : string) (healthcare_index : Z) : result Z :=
  bind (getitem population_factors population) (fun population_factor =>
  bind (int_of_float (adjusted_in f base_prediction population_factor healthcare_index))
    (fun n => Ok (Z.max 0 n))).

(** Line 928. *)
Definition risk_level (prediction : Z) : string :=
  if prediction <? 20 then "Faible"
  else if prediction <? 50 then "Modéré"
  else "Élevé".

(** Lines 879-914: the body of the [try] of the forecast button. *)
Definition generate_forecast (model : Regressor) (r : request)
    (now : datetime) : M unit :=
  input_data <- lift (encode r) ;;
  base_prediction <- lift (model input_data) ;;
  prediction <- lift (final_prediction base_prediction (population r)
                                       (healthcare_index r)) ;;
  assign (set_forecast_result
            (Some {| result_prediction := prediction;
                     result_city := city r;
                     result_country := country r;
                     result_month := month r;
                     result_timestamp := now |})) ;;
  assign (set_forecast_done true) ;;
  st_rerun.

(** The handler with its [except Exception] clause. *)
Definition forecast_button (model : Regressor) (r : request)
    (now : datetime) : M unit :=
  try_except (generate_forecast model r now)
    (fun e => st_error ("❌ Erreur lors de la prévision: " ++ e)).

(** Lines 920-1005: the forecast card and the button below it. *)
Definition show_forecast (inp : inputs) (r : request) : M unit :=
  s <- get_session ;;
  match forecast_done s, forecast_result s with
  | true, Some result =>
      show (UiForecast (result_prediction result)
                       (risk_level (result_prediction result))) ;;
      (if st_button inp NouvellePrevision then
         reset_forecast_state ;; st_rerun
       else ret tt) ;;
      show (UiModelConfidence (Z.min 95 (75 + healthcare_index r * 2)))
  | _, _ => ret tt
  end.

(** Lines 841-873: the widgets of the forecast page. The city select
    box offers [city_options[country]]. *)
Definition read_request (inp : inputs) : M request :=
  population <- not_none (st_selectbox populations (pick_population inp)) "None" ;;
  country <- not_none (st_selectbox countries (pick_country inp)) "None" ;;
  cities <- lift (getitem city_options country) ;;
  city <- not_none (st_selectbox cities (pick_city inp)) "None" ;;
  month <- not_none (st_selectbox months (pick_month inp)) "None" ;;
  ret {| temperature := slider_temperature inp;
         rainfall := slider_rainfall inp;
         humidity := slider_humidity inp;
         previous_cases := slider_previous_cases inp;
         population := population;
         healthcare_index := slider_healthcare_index inp;
         country := country;
         city := city;
         month := month |}.

(** Lines 815-1005. *)
Definition forecast_page (models : models_status) (inp : inputs) : M unit :=
  match forecast_model models with
  | None =>
      st_error "🚨 Le modèle de prévision n'est pas disponible. Vérifiez l'installation des fichiers." ;;
      st_stop
  | Some model =>
      r <- read_request inp ;;
      (if st_button inp GenererPrevision then forecast_button model r (now inp)
       else ret tt) ;;
      show_forecast inp r
  end.

(** One run of the script on the session left by the previous run. *)
Definition run_script (models : models_status) (inp : inputs) : M unit :=
  match selected_feature inp with
  | DetectionParImage => detection_page models inp
  | PrevisionClimatique => forecast_page models inp
  | DashboardAnalytics => ret tt
  end.

Definition run (models : models_status) (inp : inputs)
    (previous : option session_state) (log : list Image) : control unit * world :=
  run_script models inp
    {| session := initialize_session_state previous; inferences := log; ui := [] |}.

End App.

(* ===================================================================== *)
(** * The specification's vocabulary *)
(* ===================================================================== *)

Module Spec.
Import Py App.

(** The forecast post-processor as the specification words it, over
    exact rationals: [populationFactor], [healthcareFactor = 1.2 -
    healthcareIndex/10], [predictedCases = max(0, floor(..))]. *)
Inductive populationTier := Small | Medium | Large.

Definition populationFactor (t : populationTier) : Q :=
  match t with
  | Small => 7 # 10
  | Medium => 1
  | Large => 3 # 2
  end.

Definition healthcareFactor (healthcareIndex : Z) : Q :=
  (12 # 10) - (healthcareIndex # 10).

Definition predictedCases (basePrediction : Q) (t : populationTier)
    (healthcareIndex : Z) : Z :=
  Z.max 0 (Qfloor (basePrediction * populationFactor t
                   * healthcareFactor healthcareIndex)).

(** The option of the population select box that stands for a tier. *)
Definition tier_option (t : populationTier) : string :=
  match t with
  | Small => "Petite (<50k)"
  | Medium => "Moyenne (50k-200k)"
  | Large => "Grande (>200k)"
  end.

(** The status of the detection session as the script stores it:
    [Complete] is [analysis_done]; before that the session is [Ready]
    when an image is uploaded and [Empty] otherwise. The script has no
    stored [Analyzing] status. *)
Inductive status := Empty | Ready | Complete.

Definition status_of (uploaded : bool) (s : session_state) : status :=
  if analysis_done s then Complete
  else if uploaded then Ready else Empty.

(** [rawScore] and [confidence] are non-null iff the status is
    [Complete]. *)
Definition results_iff_complete (s : session_state) : Prop :=
  (is_Some (prediction_result s) /\ is_Some (confidence_score s))
  <-> analysis_done s = true.

(** The stored results are those of the last image the classifier was
    invoked on, and the stored fingerprint is that image's. *)
Definition results_of_fingerprint (model : Classifier) (w : world) : Prop :=
  analysis_done (session w) = true ->
  exists image p,
    last (inferences w) = Some image
    /\ model image = Ok p
    /\ prediction_result (session w) = Some p
    /\ confidence_score (session w) = Some (confidence p)
    /\ analyzed_image_hash (session w) = Some (get_image_hash image).

Definition invariant (model : Classifier) (w : world) : Prop :=
  results_iff_complete (session w) /\ results_of_fingerprint model w.

(** The session after [reset_analysis_state]. *)
Definition cleared (s : session_state) : session_state :=
  {| analysis_done := false;
     prediction_result := None;
     confidence_score := None;
     analyzed_image_hash := None;
     analysis_timestamp := None;
     current_tab := current_tab s;
     forecast_done := forecast_done s;
     forecast_result := forecast_result s;
     models_loaded := models_loaded s |}.

(** The models of a session whose classifier is [model]. *)
Definition with_classifier (model : Classifier) : models_status :=
  {| detection_model := Some model; forecast_model := None; errors := [] |}.

Definition with_regressor (model : Regressor) : models_status :=
  {| detection_model := None; forecast_model := Some model; errors := [] |}.

End Spec.

(* ===================================================================== *)
(** * Sample inputs *)
(* ===================================================================== *)

Module Samples.
Import Py App.

(** Two images of different sizes with the same pixel bytes. *)
Definition two_by_one : Image :=
  {| size := (2, 1)%nat; pixels := [xff; x00; x00; x00; xff; x00]%byte |}.

Definition one_by_two : Image :=
  {| size := (1, 2)%nat; pixels := [xff; x00; x00; x00; xff; x00]%byte |}.

Definition red_pixel : Image :=
  {| size := (1, 1)%nat; pixels := [xff; x00; x00]%byte |}.

Definition kayes_in_august : request :=
  {| temperature := float_of_int 30;
     rainfall := float_of_int 120;
     humidity := float_of_int 70;
     previous_cases := 20;
     population := "Grande (>200k)";
     healthcare_index := 10;
     country := "Mali";
     city := "Kayes";
     month := "Août" |}.

(** The float [-30.0]. *)
Definition minus_thirty : spec_float := S754_finite true 8444249301319680 (-48).

(** A regressor that predicts 30 cases whatever the row. *)
Definition thirty_cases : Regressor := fun _ => Ok (float_of_int 30).

(** Classifiers: one that answers 0.5, one that raises with a message,
    one that raises an exception whose [str] is empty (as
    [MemoryError()] or a bare [assert] does). *)
Definition answers_half : Classifier := fun _ => Ok f0_5.
Definition fails_loudly : Classifier := fun _ => Raise "out of memory".
Definition fails_silently : Classifier := fun _ => Raise "".

Definition fresh : world :=
  {| session := default_values; inferences := []; ui := [] |}.

(** The detection page with an uploaded image and an optional click. *)
Definition upload (image : Image) (click : option button) : inputs :=
  {| selected_feature := DetectionParImage;
     uploaded_file := Some (Ok image);
     clicked := click;
     now := 1730678400;
     slider_temperature := float_of_int 30;
     slider_rainfall := float_of_int 120;
     slider_humidity := float_of_int 70;
     slider_previous_cases := 20;
     pick_population := 1;
     slider_healthcare_index := 5;
     pick_country := 0;
     pick_city := 0;
     pick_month := 0 |}.

(** The session once [red_pixel] has been analysed by [answers_half]. *)
Definition analysed : world :=
  (detection_page (Spec.with_classifier answers_half)
     (upload red_pixel (Some Analyser)) fresh).2.

(** A score of [2^-60]. *)
Definition tiny_score : spec_float := S754_finite false 4503599627370496 (-112).

(** The same score as a binary32. *)
Definition tiny_score32 : spec_float := S754_finite false 8388608 (-83).

(** The binary32 just below 30, [30 - 2^-19]. *)
Definition just_below_30 : spec_float := S754_finite false 15728639 (-19).

End Samples.

(* ===================================================================== *)
(** * Start-up and the progress animation *)
(* ===================================================================== *)

Module Startup.
Import Py App.

(** Lines 63-85: the two loads, each in a [try] of its own; the
    arguments are the outcomes of [load_model(..)] and [joblib.load(..)].
    The flags [detection_loaded] and [forecast_loaded] of the dict are set
    with the models, and are read back from them. *)
Definition load_ai_models (load_model : result Classifier)
    (joblib_load : result Regressor) : models_status :=
  let errors : list string := [] in
  let '(detection_model, errors) :=
    match load_model with
    | Ok model => (Some model, errors)
    | Raise e => (None, errors ++ [("Détection: " ++ e)%string])
    end in
  let '(forecast_model, errors) :=
    match joblib_load with
    | Ok model => (Some model, errors)
    | Raise e => (None, errors ++ [("Prévision: " ++ e)%string])
    end in
  {| detection_model := detection_model;
     forecast_model := forecast_model;
     errors := errors |}.

(** Lines 691-697. *)
Definition processing_steps : list string :=
  ["🔍 Préprocessing de l'image...";
   "🧬 Segmentation des cellules...";
   "🤖 Analyse par CNN profond...";
   "📊 Calcul des probabilités...";
   "✨ Finalisation des résultats..."].

(** Line 702: [min(i // 20, len(processing_steps) - 1)]. *)
Definition step_idx (i : Z) : Z :=
  Z.min (i / 20) (Z.of_nat (length processing_steps) - 1).

(** Lines 700-707, one tick of the loop: the value given to
    [progress_bar.progress] and the message shown, [processing_steps[step_idx]]
    (an [IndexError] when there is none). *)
Definition tick (i : Z) : Z * result string :=
  (i + 1,
   match processing_steps !! Z.to_nat (step_idx i) with
   | Some msg => Ok msg
   | None => Raise "list index out of range"
   end).

(** [range(100)]. *)
Definition ticks : list (Z * result string) :=
  map (fun i => tick (Z.of_nat i)) (seq 0 100).

End Startup.

(* ===================================================================== *)
(** * More vocabulary and sample states *)
(* ===================================================================== *)

Module Facts.
Import Py App.

(** The forecast session is complete exactly when it holds a result. *)
Definition forecast_invariant (s : session_state) : Prop :=
  forecast_done s = true <-> is_Some (forecast_result s).

(** The fields of the detection session. *)
Definition same_detection (s s' : session_state) : Prop :=
  analysis_done s' = analysis_done s
  /\ prediction_result s' = prediction_result s
  /\ confidence_score s' = confidence_score s
  /\ analyzed_image_hash s' = analyzed_image_hash s
  /\ analysis_timestamp s' = analysis_timestamp s.

(** The fields the detection page has no business with. *)
Definition same_forecast (s s' : session_state) : Prop :=
  forecast_done s' = forecast_done s
  /\ forecast_result s' = forecast_result s
  /\ current_tab s' = current_tab s
  /\ models_loaded s' = models_loaded s.


(** What [prediction >= 0.5] raises on a stored [None]. *)
Definition none_comparison : string :=
  "'>=' not supported between instances of 'NoneType' and 'float'".

(** The session left by a classifier failure with an empty message. *)
Definition broken : world :=
  (detection_page (Spec.with_classifier Samples.fails_silently)
     (Samples.upload Samples.red_pixel (Some Analyser)) Samples.fresh).2.

(** The session once [two_by_one] has been analysed. *)
Definition analysed_two_by_one : world :=
  (detection_page (Spec.with_classifier Samples.answers_half)
     (Samples.upload Samples.two_by_one (Some Analyser)) Samples.fresh).2.

(** The forecast page with the widgets of [Samples.upload] and a click. *)
Definition forecast_inputs (click : option button) : inputs :=
  {| selected_feature := PrevisionClimatique;
     uploaded_file := None;
     clicked := click;
     now := 1730678400;
     slider_temperature := float_of_int 30;
     slider_rainfall := float_of_int 120;
     slider_humidity := float_of_int 70;
     slider_previous_cases := 20;
     pick_population := 2;
     slider_healthcare_index := 10;
     pick_country := 1;
     pick_city := 2;
     pick_month := 3 |}.

(** The detection page with an upload that PIL cannot open. *)
Definition undecodable (click : option button) : inputs :=
  {| selected_feature := DetectionParImage;
     uploaded_file := Some (Raise "cannot identify image file");
     clicked := click;
     now := 1730678400;
     slider_temperature := float_of_int 30;
     slider_rainfall := float_of_int 120;
     slider_humidity := float_of_int 70;
     slider_previous_cases := 20;
     pick_population := 1;
     slider_healthcare_index := 5;
     pick_country := 0;
     pick_city := 0;
     pick_month := 0 |}.


(** A stored forecast, and a session that holds it. *)
Definition stored_record : forecast_record :=
  {| result_prediction := 8;
     result_city := "Kayes";
     result_country := "Mali";
     result_month := "Août";
     result_timestamp := 1730678400 |}.

Definition forecast_stored : world :=
  {| session := set_forecast_done true
                  (set_forecast_result (Some stored_record) default_values);
     inferences := [];
     ui := [] |}.

End Facts.

(* ===================================================================== *)
(** * Content fingerprint *)
(* ===================================================================== *)

Section Fingerprint.
Import MD5.

(** The RFC 1321 test suite and a two-block message. *)
Example md5_empty : hexdigest [] = "d41d8cd98f00b204e9800998ecf8427e"%string.
Proof. vm_compute. reflexivity. Qed.

Example md5_abc :
  hexdigest [x61; x62; x63]%byte = "900150983cd24fb0d6963f7d28e17f72"%string.
Proof. vm_compute. reflexivity. Qed.

Example md5_two_blocks :
  hexdigest (map (fun n => default x00%byte (Byte.of_N (N.of_nat n))) (seq 0 70))
  = "5f1f5f64b84400fb9ad6d8ecd9c142a0"%string.
Proof. vm_compute. reflexivity. Qed.

Lemma length_le_bytes n z : length (le_bytes n z) = n.
Proof. revert z. induction n as [|n IH]; intros z; cbn [le_bytes length]; [|rewrite IH]; reflexivity. Qed.

Lemma length_digest msg : length (digest msg) = 16%nat.
Proof.
  unfold digest. destruct (digest_words msg) as [[[a b] c] d].
  rewrite !length_app, !length_le_bytes. reflexivity.
Qed.

Lemma length_hex bs : String.length (hex bs) = (2 * length bs)%nat.
Proof.
  induction bs as [|b bs IH]; [reflexivity|].
  cbn [hex String.length length]. rewrite IH. lia.
Qed.

Lemma hex_digit_ok n : is_hex_digit (hex_digit n) = true.
Proof.
  destruct n as [|p|p]; try reflexivity.
  do 4 (destruct p as [p|p|]; try reflexivity).
Qed.

Lemma hex_digits_ok bs :
  forallb is_hex_digit (list_ascii_of_string (hex bs)) = true.
Proof.
  induction bs as [|b bs IH]; [reflexivity|].
  cbn [hex list_ascii_of_string forallb].
  rewrite !hex_digit_ok, IH. reflexivity.
Qed.

Lemma length_hexdigest data : String.length (hexdigest data) = 32%nat.
Proof. unfold hexdigest. rewrite length_hex, length_digest. reflexivity. Qed.

End Fingerprint.

(** C10. The fingerprint is a function of the image's bytes alone: two
    images with the same bytes get the same fingerprint, and on every
    byte sequence the fingerprint is returned (the function is total) as
    32 lower-case hexadecimal digits. *)
Theorem get_image_hash_deterministic (a b : App.Image) :
  App.tobytes a = App.tobytes b ->
  App.get_image_hash a = App.get_image_hash b
  /\ String.length (App.get_image_hash a) = 32%nat
  /\ forallb MD5.is_hex_digit (list_ascii_of_string (App.get_image_hash a)) = true.
Proof.
  intros Hbytes. unfold App.get_image_hash. rewrite Hbytes.
  split; [reflexivity|]. split; [apply length_hexdigest|].
  unfold MD5.hexdigest. apply hex_digits_ok.
Qed.

Lemma get_image_hash_deterministic_witness :
  let a := {| App.size := (1, 2)%nat; App.pixels := [xff; x00; x00; x00; xff; x00]%byte |} in
  let b := {| App.size := (2, 1)%nat; App.pixels := [xff; x00; x00; x00; xff; x00]%byte |} in
  App.get_image_hash a = App.get_image_hash b
  /\ String.length (App.get_image_hash a) = 32%nat
  /\ forallb MD5.is_hex_digit (list_ascii_of_string (App.get_image_hash a)) = true.
Proof.
  intros a b. apply (get_image_hash_deterministic a b). reflexivity.
Defined.

(* ===================================================================== *)
(** * Detection session *)
(* ===================================================================== *)

Section Detection.
Import Py App.

Lemma reset_analysis_state_spec (w : world) :
  reset_analysis_state w
  = (Done tt, {| session := Spec.cleared (session w); inferences := inferences w; ui := ui w |}).
Proof. reflexivity. Qed.

(** Submitting the analysed fingerprint again changes nothing. *)
Lemma submit_image_same (image : Image) (w : world) :
  analysis_done (session w) = true ->
  analyzed_image_hash (session w) = Some (get_image_hash image) ->
  submit_image image w = (Done (get_image_hash image), w).
Proof.
  intros Hdone Hhash. unfold submit_image, mbind, get_session.
  rewrite Hdone, Hhash. cbn [negb orb].
  rewrite bool_decide_eq_false_2 by (intros H; apply H; reflexivity).
  reflexivity.
Qed.

(** Submitting anything else clears the stored analysis. *)
Lemma submit_image_other (image : Image) (w : world) :
  analysis_done (session w) = false
  \/ analyzed_image_hash (session w) <> Some (get_image_hash image) ->
  submit_image image w
  = (Done (get_image_hash image),
     {| session := Spec.cleared (session w); inferences := inferences w; ui := ui w |}).
Proof.
  intros Hother. unfold submit_image, mbind, get_session.
  destruct Hother as [Hdone|Hhash].
  - rewrite Hdone. reflexivity.
  - rewrite (bool_decide_eq_true_2 _ Hhash), orb_true_r. reflexivity.
Qed.

(** Showing the results leaves the session alone unless a new analysis
    is asked for. *)
Lemma show_results_session (inp : inputs) (w : world) :
  st_button inp NouvelleAnalyse = false ->
  session (show_results inp w).2 = session w
  /\ inferences (show_results inp w).2 = inferences w.
Proof.
  intros Hbtn. unfold show_results, mbind, get_session, not_none, show, ret.
  rewrite Hbtn.
  destruct (prediction_result (session w)); [|split; reflexivity].
  destruct (analysis_timestamp (session w)); [|split; reflexivity].
  cbn [session inferences ui].
  destruct (confidence_score (session w)); split; reflexivity.
Qed.

(** A failure with a message is reported and nothing is stored. *)
Lemma run_analysis_reported (image : Image) (h : string) (model : Classifier)
    (inp : inputs) (w : world) (msg : string) :
  model image = Raise msg -> msg <> ""%string ->
  run_analysis image h model inp w
  = (Done tt, {| session := session w;
                 inferences := inferences w ++ [image];
                 ui := ui w ++ [UiError ("❌ Erreur lors de l'analyse: " ++ msg)] |}).
Proof.
  intros Hmodel Hmsg. unfold run_analysis, process_image_prediction, mbind, invoke.
  rewrite Hmodel. destruct msg as [|c msg]; [congruence|]. reflexivity.
Qed.

(** A success stores the score, its confidence and the fingerprint. *)
Lemma run_analysis_success (image : Image) (h : string) (model : Classifier)
    (inp : inputs) (w : world) (p : spec_float) :
  model image = Ok p ->
  run_analysis image h model inp w
  = (Rerun, {| session :=
                 {| analysis_done := true;
                    prediction_result := Some p;
                    confidence_score := Some (confidence p);
                    analyzed_image_hash := Some h;
                    analysis_timestamp := Some (now inp);
                    current_tab := current_tab (session w);
                    forecast_done := forecast_done (session w);
                    forecast_result := forecast_result (session w);
                    models_loaded := models_loaded (session w) |};
               inferences := inferences w ++ [image];
               ui := ui w |}).
Proof.
  intros Hmodel. unfold run_analysis, process_image_prediction, mbind, invoke.
  rewrite Hmodel. reflexivity.
Qed.

Lemma invariant_cleared (model : Classifier) (s : session_state) log u :
  Spec.invariant model {| session := Spec.cleared s; inferences := log; ui := u |}.
Proof.
  split.
  - unfold Spec.results_iff_complete. cbn. split.
    + intros [[x Hx] _]. discriminate.
    + discriminate.
  - unfold Spec.results_of_fingerprint. cbn. discriminate.
Qed.




(** A fresh session satisfies the invariant. *)
Lemma invariant_fresh (model : Classifier) : Spec.invariant model Samples.fresh.
Proof. apply (invariant_cleared model default_values). Qed.

End Detection.

Section DetectionPage.
Import Py App.

(** With the analysed image still uploaded and no new analysis asked
    for, a run of the page changes neither the session nor the list of
    classifier invocations. *)
Lemma detection_page_same (model : Classifier) (inp : inputs) (image : Image) (w : world) :
  uploaded_file inp = Some (Ok image) ->
  st_button inp NouvelleAnalyse = false ->
  analysis_done (session w) = true ->
  analyzed_image_hash (session w) = Some (get_image_hash image) ->
  session (detection_page (Spec.with_classifier model) inp w).2 = session w
  /\ inferences (detection_page (Spec.with_classifier model) inp w).2 = inferences w.
Proof.
  intros Hup Hbtn Hdone Hhash.
  remember (detection_page (Spec.with_classifier model) inp w) as r eqn:Hr.
  unfold detection_page, Spec.with_classifier in Hr. cbn [detection_model] in Hr.
  rewrite Hup in Hr.
  unfold try_except, mbind at 1 in Hr. cbn [lift] in Hr. unfold mbind at 1 in Hr.
  rewrite (submit_image_same image w Hdone Hhash) in Hr.
  unfold mbind, get_session in Hr. rewrite Hdone in Hr. cbn [negb] in Hr.
  destruct (show_results_session inp w Hbtn) as [Hs Hl].
  destruct (show_results inp w) as [[a|m| |] w2]; subst r; cbn [snd] in *; auto.
Qed.

(** A new fingerprint drops the stored analysis, and the session is
    complete again only through the analysis button. *)
Lemma new_fingerprint_invalidates (model : Classifier) (inp : inputs) (image : Image) (w : world) :
  uploaded_file inp = Some (Ok image) ->
  analyzed_image_hash (session w) <> Some (get_image_hash image) ->
  st_button inp Analyser = false ->
  session (detection_page (Spec.with_classifier model) inp w).2 = Spec.cleared (session w)
  /\ inferences (detection_page (Spec.with_classifier model) inp w).2 = inferences w.
Proof.
  intros Hup Hhash Hbtn.
  remember (detection_page (Spec.with_classifier model) inp w) as r eqn:Hr.
  unfold detection_page, Spec.with_classifier in Hr. cbn [detection_model] in Hr.
  rewrite Hup in Hr.
  unfold try_except, mbind at 1 in Hr. cbn [lift] in Hr. unfold mbind at 1 in Hr.
  rewrite (submit_image_other image w (or_intror Hhash)) in Hr.
  unfold mbind, get_session in Hr.
  cbn [session Spec.cleared analysis_done negb] in Hr.
  rewrite Hbtn in Hr. subst r. split; reflexivity.
Qed.

End DetectionPage.

(** C3. In a complete session, submitting an image whose fingerprint is
    the stored one leaves the session record as it is, and the run of the
    page that follows neither changes it nor invokes the classifier. *)
Theorem resubmit_is_idempotent (model : App.Classifier) (inp : App.inputs)
    (image : App.Image) (w : App.world) :
  App.uploaded_file inp = Some (Py.Ok image) ->
  App.st_button inp App.NouvelleAnalyse = false ->
  App.analysis_done (App.session w) = true ->
  App.analyzed_image_hash (App.session w) = Some (App.get_image_hash image) ->
  App.submit_image image w = (App.Done (App.get_image_hash image), w)
  /\ App.session (App.detection_page (Spec.with_classifier model) inp w).2 = App.session w
  /\ App.inferences (App.detection_page (Spec.with_classifier model) inp w).2
     = App.inferences w.
Proof.
  intros Hup Hbtn Hdone Hhash.
  split; [apply submit_image_same; assumption|].
  apply detection_page_same with (image := image); assumption.
Qed.

Lemma resubmit_is_idempotent_witness :
  App.submit_image Samples.red_pixel Samples.analysed
  = (App.Done (App.get_image_hash Samples.red_pixel), Samples.analysed)
  /\ App.session (App.detection_page (Spec.with_classifier Samples.answers_half)
                    (Samples.upload Samples.red_pixel None) Samples.analysed).2
     = App.session Samples.analysed
  /\ App.inferences (App.detection_page (Spec.with_classifier Samples.answers_half)
                       (Samples.upload Samples.red_pixel None) Samples.analysed).2
     = App.inferences Samples.analysed.
Proof.
  apply (resubmit_is_idempotent Samples.answers_half
           (Samples.upload Samples.red_pixel None) Samples.red_pixel Samples.analysed);
    vm_compute; reflexivity.
Defined.

(** C4. The invariant holds of a fresh session and is lost by one run of
    the page: when the classifier fails with an exception whose message
    is empty, the session is marked complete with no score and no
    confidence. *)
Theorem silent_failure_breaks_invariant :
  Spec.invariant Samples.fails_silently Samples.fresh
  /\ App.analysis_done
       (App.session (App.run (Spec.with_classifier Samples.fails_silently)
                       (Samples.upload Samples.red_pixel (Some App.Analyser)) None []).2)
     = true
  /\ App.prediction_result
       (App.session (App.run (Spec.with_classifier Samples.fails_silently)
                       (Samples.upload Samples.red_pixel (Some App.Analyser)) None []).2)
     = None
  /\ ~ Spec.results_iff_complete
       (App.session (App.run (Spec.with_classifier Samples.fails_silently)
                       (Samples.upload Samples.red_pixel (Some App.Analyser)) None []).2).
Proof.
  split; [apply invariant_fresh|].
  split; [vm_compute; reflexivity|].
  split; [vm_compute; reflexivity|].
  intros [_ H]. destruct (H eq_refl) as [[x Hx] _]. vm_compute in Hx. discriminate.
Qed.

(** C8. A classifier failure whose message is empty is not reported and
    is stored: the handler shows no error, marks the session complete and
    records the fingerprint, with [None] as score and confidence. *)
Theorem silent_failure_is_stored :
  Samples.fails_silently Samples.red_pixel = Py.Raise ""
  /\ App.run_analysis Samples.red_pixel (App.get_image_hash Samples.red_pixel)
       Samples.fails_silently (Samples.upload Samples.red_pixel (Some App.Analyser))
       Samples.fresh
     = (App.Rerun,
        {| App.session :=
             {| App.analysis_done := true;
                App.prediction_result := None;
                App.confidence_score := None;
                App.analyzed_image_hash := Some (App.get_image_hash Samples.red_pixel);
                App.analysis_timestamp := Some 1730678400;
                App.current_tab := "detection";
                App.forecast_done := false;
                App.forecast_result := None;
                App.models_loaded := false |};
           App.inferences := [Samples.red_pixel];
           App.ui := [] |}).
Proof. split; reflexivity. Qed.

(* ===================================================================== *)
(** * Binary64 rounding *)
(* ===================================================================== *)

(** Powers of two as atoms of linear arithmetic. *)
Ltac pow_atoms :=
  repeat match goal with
    | |- context [Z.pow 2 ?x] =>
        let v := fresh "pw" in set (v := Z.pow 2 x) in *; clearbody v
    | H : context [Z.pow 2 ?x] |- _ =>
        let v := fresh "pw" in set (v := Z.pow 2 x) in *; clearbody v
    end.

Ltac pow_lia := pow_atoms; lia.

Section Binary64.
Import Py.

(** ** Digits and shifts *)

Lemma digits2_pos_bounds (p : positive) :
  2 ^ (Z.pos (digits2_pos p) - 1) <= Z.pos p < 2 ^ Z.pos (digits2_pos p).
Proof.
  induction p as [p IH|p IH|]; cbn [digits2_pos];
    try pose proof (Pos2Z.is_pos (digits2_pos p)) as Hpos.
  - rewrite Pos2Z.inj_succ, (Pos2Z.inj_xI p).
    replace (Z.succ (Z.pos (digits2_pos p)) - 1) with (Z.succ (Z.pos (digits2_pos p) - 1)) by lia.
    rewrite !Z.pow_succ_r by lia. pow_lia.
  - rewrite Pos2Z.inj_succ, (Pos2Z.inj_xO p).
    replace (Z.succ (Z.pos (digits2_pos p)) - 1) with (Z.succ (Z.pos (digits2_pos p) - 1)) by lia.
    rewrite !Z.pow_succ_r by lia. pow_lia.
  - cbn. lia.
Qed.

Lemma digits2_pos_unique (p : positive) (k : Z) :
  2 ^ (k - 1) <= Z.pos p < 2 ^ k -> Z.pos (digits2_pos p) = k.
Proof.
  intros [Hlo Hhi]. pose proof (digits2_pos_bounds p) as [Dlo Dhi].
  set (d := Z.pos (digits2_pos p)) in *.
  assert (0 < k).
  { destruct (Z_lt_le_dec 0 k) as [|Hk]; [assumption|].
    assert (2 ^ k <= 2 ^ 0) by (destruct (Z_lt_le_dec k 0);
      [rewrite Z.pow_neg_r by assumption; cbn; lia|apply Z.pow_le_mono_r; lia]).
    cbn in *. lia. }
  destruct (Z.lt_trichotomy d k) as [Hlt|[Heq|Hgt]]; [|assumption|].
  - assert (2 ^ d <= 2 ^ (k - 1)) by (apply Z.pow_le_mono_r; lia). lia.
  - assert (2 ^ k <= 2 ^ (d - 1)) by (apply Z.pow_le_mono_r; lia). lia.
Qed.

Lemma digits2_pos_le (p : positive) (k : Z) :
  Z.pos p < 2 ^ k -> Z.pos (digits2_pos p) <= k.
Proof.
  intros Hhi. pose proof (digits2_pos_bounds p) as [Dlo _].
  set (d := Z.pos (digits2_pos p)) in *.
  destruct (Z_lt_le_dec k d) as [Hlt|]; [|assumption].
  assert (0 <= k).
  { destruct (Z_lt_le_dec k 0); [|assumption].
    rewrite Z.pow_neg_r in Hhi by assumption. lia. }
  assert (2 ^ k <= 2 ^ (d - 1)) by (apply Z.pow_le_mono_r; lia). lia.
Qed.

Lemma iter_xO (m d : positive) :
  Z.pos (Pos.iter xO m d) = Z.pos m * 2 ^ Z.pos d.
Proof.
  induction d as [|d IH] using Pos.peano_ind.
  - cbn. lia.
  - rewrite Pos.iter_succ, (Pos2Z.inj_xO (Pos.iter xO m d)), IH, Pos2Z.inj_succ, Z.pow_succ_r by lia. pow_lia.
Qed.

Lemma shr_1_m (r : shr_record) : shr_m (shr_1 r) = Z.div2 (shr_m r) \/ shr_m r < 0.
Proof.
  destruct r as [m r s]. destruct m as [|[p|p|]|p]; cbn; auto; right; lia.
Qed.

Lemma shr_m_shr_1 (r : shr_record) :
  0 <= shr_m r -> shr_m (shr_1 r) = shr_m r / 2.
Proof.
  intros Hm. destruct (shr_1_m r) as [->|]; [apply Z.div2_div|lia].
Qed.

Lemma shr_m_iter (n : positive) (r : shr_record) :
  0 <= shr_m r -> shr_m (SpecFloat.iter_pos shr_1 n r) = shr_m r / 2 ^ Z.pos n.
Proof.
  revert r. induction n as [n IH|n IH|]; intros r Hm; cbn [SpecFloat.iter_pos].
  - assert (0 <= shr_m (shr_1 r)).
    { rewrite shr_m_shr_1 by assumption. apply Z.div_pos; lia. }
    assert (0 <= shr_m (SpecFloat.iter_pos shr_1 n (shr_1 r))).
    { rewrite IH by assumption. apply Z.div_pos; [assumption|]. apply Z.pow_pos_nonneg; lia. }
    rewrite IH, IH, shr_m_shr_1 by assumption.
    rewrite !Z.div_div by (try apply Z.pow_pos_nonneg; lia).
    f_equal. rewrite (Pos2Z.inj_xI n).
    replace (2 * Z.pos n + 1) with (1 + Z.pos n + Z.pos n) by lia.
    rewrite !Z.pow_add_r by lia. change (2 ^ 1) with 2. pow_lia.
  - assert (0 <= shr_m (SpecFloat.iter_pos shr_1 n r)).
    { rewrite IH by assumption. apply Z.div_pos; [assumption|]. apply Z.pow_pos_nonneg; lia. }
    rewrite IH, IH by assumption.
    rewrite !Z.div_div by (try apply Z.pow_pos_nonneg; lia).
    f_equal. rewrite (Pos2Z.inj_xO n).
    replace (2 * Z.pos n) with (Z.pos n + Z.pos n) by lia.
    rewrite !Z.pow_add_r by lia. change (2 ^ 1) with 2. pow_lia.
  - rewrite shr_m_shr_1 by assumption. reflexivity.
Qed.

Lemma round_nearest_even_bounds (m : Z) (l : location) :
  m <= round_nearest_even m l <= m + 1.
Proof.
  destruct l as [|[| |]]; cbn [round_nearest_even]; try lia.
  destruct (Z.even m); lia.
Qed.

(** ** Rounding a positive integer mantissa *)

Lemma fexp_normal (x : Z) : -1074 <= x - 53 -> fexp prec emax x = x - 53.
Proof. intros Hx. unfold fexp, emin, prec, emax. lia. Qed.

(** The second normalisation of [binary_round_aux]: a mantissa of 53
    digits is kept, [2^53] becomes [2^52] one exponent higher. *)
Lemma renormalize (m2 e' : Z) :
  4503599627370496 <= m2 <= 9007199254740992 -> -1074 <= e' ->
  exists mq eq,
    shr_fexp prec emax m2 e' loc_Exact
    = ({| shr_m := Z.pos mq; shr_r := false; shr_s := false |}, eq)
    /\ ((eq = e' /\ Z.pos mq = m2 /\ m2 < 9007199254740992)
        \/ (eq = e' + 1 /\ Z.pos mq = 4503599627370496 /\ m2 = 9007199254740992)).
Proof.
  intros Hm He. destruct m2 as [|mp|mp]; [lia| |lia].
  unfold shr_fexp. cbn [Zdigits2 shr_record_of_loc].
  destruct (Z.eq_dec (Z.pos mp) 9007199254740992) as [Heq|Hne].
  - injection Heq as ->.
    change (Z.pos (digits2_pos 9007199254740992)) with 54.
    rewrite fexp_normal by lia.
    replace (54 + e' - 53 - e') with 1 by lia.
    exists 4503599627370496%positive, (e' + 1). split; [reflexivity|]. right. lia.
  - assert (Hd : Z.pos (digits2_pos mp) = 53).
    { apply digits2_pos_unique.
      change (2 ^ (53 - 1)) with 4503599627370496.
      change (2 ^ 53) with 9007199254740992. lia. }
    rewrite Hd, fexp_normal by lia.
    replace (53 + e' - 53 - e') with 0 by lia.
    exists mp, e'. split; [reflexivity|]. left. lia.
Qed.

(** Rounding a mantissa of at least 53 digits in the normal range: the
    result has 53 digits at the expected exponent, or is the power of two
    just above. *)
Lemma binary_round_aux_normal (s : bool) (M : positive) (e : Z) :
  53 <= Z.pos (digits2_pos M) ->
  -1074 <= Z.pos (digits2_pos M) + e - 53 ->
  exists mq eq,
    binary_round_aux prec emax s (Z.pos M) e loc_Exact
    = (if eq <=? 971 then S754_finite s mq eq else S754_infinity s)
    /\ ((eq = Z.pos (digits2_pos M) + e - 53
         /\ 4503599627370496 <= Z.pos mq < 9007199254740992)
        \/ (eq = Z.pos (digits2_pos M) + e - 52 /\ Z.pos mq = 4503599627370496
            /\ 9007199254740991 * 2 ^ (Z.pos (digits2_pos M) - 53) <= Z.pos M)).
Proof.
  intros Hd He. pose proof (digits2_pos_bounds M) as HM.
  set (d := Z.pos (digits2_pos M)) in *.
  unfold binary_round_aux. unfold shr_fexp at 1. cbn [Zdigits2 shr_record_of_loc].
  fold d. rewrite fexp_normal by lia.
  replace (d + e - 53 - e) with (d - 53) by lia.
  destruct (d - 53) as [|np|np] eqn:Hn; [| |lia].
  - (* no shift *)
    cbn [shr shr_m loc_of_shr_record round_nearest_even].
    assert (Hb : 4503599627370496 <= Z.pos M <= 9007199254740992).
    { replace d with 53 in HM by lia.
      change (2 ^ (53 - 1)) with 4503599627370496 in HM.
      change (2 ^ 53) with 9007199254740992 in HM. lia. }
    destruct (renormalize (Z.pos M) e Hb) as (mq & eq & -> & Hshape); [lia|].
    cbn [shr_m]. exists mq, eq. split; [reflexivity|].
    replace d with 53 in HM by lia. change (2 ^ 53) with 9007199254740992 in HM. lia.
  - (* a shift by [np] digits *)
    cbn [shr].
    set (mrs := SpecFloat.iter_pos shr_1 np _).
    assert (Hm1 : shr_m mrs = Z.pos M / 2 ^ Z.pos np)
      by (apply shr_m_iter; cbn; lia).
    assert (Hb1 : 4503599627370496 <= shr_m mrs < 9007199254740992).
    { rewrite Hm1. replace d with (Z.pos np + 53) in HM by lia.
      replace (Z.pos np + 53 - 1) with (Z.pos np + 52) in HM by lia.
      rewrite !Z.pow_add_r in HM by lia.
      change (2 ^ 52) with 4503599627370496 in HM.
      change (2 ^ 53) with 9007199254740992 in HM.
      assert (0 < 2 ^ Z.pos np) by (apply Z.pow_pos_nonneg; lia).
      split; [apply Z.div_le_lower_bound|apply Z.div_lt_upper_bound]; lia. }
    pose proof (round_nearest_even_bounds (shr_m mrs) (loc_of_shr_record mrs)) as Hr.
    set (m2 := round_nearest_even _ _) in *.
    destruct (renormalize m2 (e + Z.pos np)) as (mq & eq & -> & Hshape); [lia|lia|].
    cbn [shr_m]. exists mq, eq. split; [reflexivity|].
    destruct Hshape as [Hshape|Hshape]; [left; lia|right].
    repeat split; try lia.
    assert (0 < 2 ^ Z.pos np) by (apply Z.pow_pos_nonneg; lia).
    pose proof (Z.mul_div_le (Z.pos M) (2 ^ Z.pos np) ltac:(assumption)) as Hle.
    rewrite <- Hm1 in Hle.
    assert (9007199254740991 * 2 ^ Z.pos np <= 2 ^ Z.pos np * shr_m mrs)
      by (rewrite (Z.mul_comm (2 ^ Z.pos np)); apply Z.mul_le_mono_nonneg_r; lia).
    lia.
Qed.

(** The same for [binary_round], which first aligns a short mantissa. *)
Lemma binary_round_normal (s : bool) (M : positive) (e : Z) :
  -1074 <= Z.pos (digits2_pos M) + e - 53 ->
  exists mq eq,
    binary_round prec emax s M e
    = (if eq <=? 971 then S754_finite s mq eq else S754_infinity s)
    /\ ((eq = Z.pos (digits2_pos M) + e - 53
         /\ 4503599627370496 <= Z.pos mq < 9007199254740992)
        \/ (eq = Z.pos (digits2_pos M) + e - 52 /\ Z.pos mq = 4503599627370496
            /\ 53 <= Z.pos (digits2_pos M)
            /\ 9007199254740991 * 2 ^ (Z.pos (digits2_pos M) - 53) <= Z.pos M)).
Proof.
  intros He. pose proof (digits2_pos_bounds M) as HM.
  unfold binary_round. rewrite fexp_normal by lia.
  set (d := Z.pos (digits2_pos M)) in *.
  unfold shl_align. replace (d + e - 53 - e) with (d - 53) by lia.
  destruct (d - 53) as [|np|k] eqn:Hn.
  - destruct (binary_round_aux_normal s M e) as (mq & eq & Hr & Hshape); fold d; try lia.
    exists mq, eq. split; [exact Hr|]. fold d in Hshape. rewrite Hn in Hshape. pow_lia.
  - destruct (binary_round_aux_normal s M e) as (mq & eq & Hr & Hshape); fold d; try lia.
    exists mq, eq. split; [exact Hr|]. fold d in Hshape. rewrite Hn in Hshape. pow_lia.
  - assert (Hdz : Z.pos (digits2_pos (Pos.iter xO M k)) = 53).
    { apply digits2_pos_unique. rewrite iter_xO.
      assert (Hk : Z.pos k = 53 - d) by lia.
      assert (E1 : 2 ^ (53 - 1) = 2 ^ (d - 1) * 2 ^ Z.pos k)
        by (rewrite <- Z.pow_add_r by lia; f_equal; lia).
      assert (E2 : 2 ^ 53 = 2 ^ d * 2 ^ Z.pos k)
        by (rewrite <- Z.pow_add_r by lia; f_equal; lia).
      rewrite E1, E2.
      assert (0 < 2 ^ Z.pos k) by (apply Z.pow_pos_nonneg; lia).
      destruct HM as [HMlo HMhi].
      split; [apply Z.mul_le_mono_nonneg_r|apply Z.mul_lt_mono_pos_r];
        assumption || lia. }
    destruct (binary_round_aux_normal s (Pos.iter xO M k) (d + e - 53))
      as (mq & eq & Hr & Hshape); rewrite ?Hdz; try lia.
    exists mq, eq. split; [exact Hr|]. rewrite Hdz in Hshape.
    destruct Hshape as [Hshape|(_ & _ & Hup)]; [left; lia|exfalso].
    pose proof (digits2_pos_bounds (Pos.iter xO M k)) as [_ Hhi].
    rewrite Hdz in Hhi. change (2 ^ 53) with 9007199254740992 in Hhi.
    change (2 ^ (53 - 53)) with 1 in Hup.
    rewrite iter_xO in Hup, Hhi.
    replace (Z.pos k) with (1 + (Z.pos k - 1)) in Hup, Hhi by lia.
    rewrite Z.pow_add_r in Hup, Hhi by lia. change (2 ^ 1) with 2 in Hup, Hhi.
    set (P := 2 ^ (Z.pos k - 1)) in *. clearbody P.
    set (t := Z.pos M * P). assert (Z.pos M * (2 * P) = 2 * t) as Ht by (unfold t; lia).
    rewrite Ht in Hup, Hhi. lia.
Qed.

End Binary64.

Section Confidence.
Import Py App.

(** ** Comparison of positive finite floats *)

Lemma fleb_finite (ma : positive) (ea : Z) (mb : positive) (eb : Z) :
  fleb (S754_finite false ma ea) (S754_finite false mb eb) = true
  <-> ea < eb \/ (ea = eb /\ Z.pos ma <= Z.pos mb).
Proof.
  unfold fleb, SFleb, SFcompare.
  change (Pos.compare_cont Eq ma mb) with (ma ?= mb)%positive.
  destruct (Z.compare_spec ea eb); [destruct (Pos.compare_spec ma mb)| |];
    split; intros; try reflexivity; try discriminate; lia.
Qed.

Lemma fltb_finite (ma : positive) (ea : Z) (mb : positive) (eb : Z) :
  fltb (S754_finite false ma ea) (S754_finite false mb eb) = true
  <-> ea < eb \/ (ea = eb /\ Z.pos ma < Z.pos mb).
Proof.
  unfold fltb, SFltb, SFcompare.
  change (Pos.compare_cont Eq ma mb) with (ma ?= mb)%positive.
  destruct (Z.compare_spec ea eb); [destruct (Pos.compare_spec ma mb)| |];
    split; intros; try reflexivity; try discriminate; lia.
Qed.

Lemma feqb_finite (ma : positive) (ea : Z) (mb : positive) (eb : Z) :
  feqb (S754_finite false ma ea) (S754_finite false mb eb) = true
  <-> ea = eb /\ ma = mb.
Proof.
  unfold feqb, SFeqb, SFcompare.
  change (Pos.compare_cont Eq ma mb) with (ma ?= mb)%positive.
  destruct (Z.compare_spec ea eb); [destruct (Pos.compare_spec ma mb)| |];
    split; intros; try reflexivity; try discriminate; try lia; auto.
Qed.

(** A float between 0 and 1 is a zero, or positive with a mantissa below
    [2^53] and an exponent of at most -52. *)
Lemma unit_interval (p : spec_float) :
  is_float p = true ->
  fleb (float_of_int 0) p = true ->
  fleb p f1_0 = true ->
  (exists s, p = S754_zero s)
  \/ p = f1_0
  \/ exists m e,
       p = S754_finite false m e /\ e <= -53 /\ Z.pos m < 9007199254740992
       /\ (-1074 < e -> 4503599627370496 <= Z.pos m).
Proof.
  intros Hvalid Hlo Hhi.
  destruct p as [s|s| |s m e]; [left; eauto|destruct s; discriminate|discriminate|].
  destruct s; [discriminate|]. right.
  apply fleb_finite in Hhi.
  unfold is_float, valid_binary, bounded, canonical_mantissa in Hvalid.
  apply andb_prop in Hvalid as [Hcanon _]. apply Z.eqb_eq in Hcanon.
  unfold fexp, emin, prec, emax in Hcanon.
  pose proof (digits2_pos_bounds m) as [Dlo Dhi].
  set (d := Z.pos (digits2_pos m)) in *.
  assert (Hd : d <= 53) by lia.
  assert (Hm : Z.pos m < 9007199254740992).
  { change 9007199254740992 with (2 ^ 53).
    apply Z.lt_le_trans with (1 := Dhi). apply Z.pow_le_mono_r; lia. }
  assert (Hnormal : -1074 < e -> 4503599627370496 <= Z.pos m).
  { intros He. replace d with 53 in Dlo by lia. exact Dlo. }
  destruct (Z.eq_dec e (-52)) as [->|Hne].
  - left. f_equal. specialize (Hnormal ltac:(lia)). lia.
  - right. exists m, e. split; [reflexivity|]. repeat split; lia.
Qed.

(** [1 - p] for a positive [p] below 1: one rounding of the exact
    difference. *)
Lemma one_minus (m : positive) (e : Z) :
  e <= -53 -> Z.pos m < 9007199254740992 ->
  exists M,
    Z.pos M = 2 ^ (- e) - Z.pos m
    /\ fsub f1_0 (S754_finite false m e) = binary_round prec emax false M e.
Proof.
  intros He Hm. unfold fsub, f1_0, SFsub. cbn [cond_Zopp].
  rewrite Z.min_r by lia. unfold shl_align. rewrite Z.sub_diag.
  destruct (e - -52) as [|k|k] eqn:Hk; [lia|lia|]. cbn [fst].
  rewrite iter_xO.
  assert (Hpow : 4503599627370496 * 2 ^ Z.pos k = 2 ^ (- e)).
  { change 4503599627370496 with (2 ^ 52). rewrite <- Z.pow_add_r by lia.
    f_equal. lia. }
  rewrite Hpow.
  assert (Hbig : 9007199254740992 <= 2 ^ (- e)).
  { change 9007199254740992 with (2 ^ 53). apply Z.pow_le_mono_r; lia. }
  destruct (2 ^ (- e) - Z.pos m) as [|M|M] eqn:HM; [lia| |lia].
  exists M. split; reflexivity.
Qed.

(** The shape of [1 - p]: at most 1, and equal to 1 only when [p] is at
    most [2^-53]; at least 1/2 when [p] is below 1/2. *)
Lemma one_minus_shape (m : positive) (e : Z) :
  e <= -53 -> Z.pos m < 9007199254740992 ->
  (-1074 < e -> 4503599627370496 <= Z.pos m) ->
  exists mq eq,
    fsub f1_0 (S754_finite false m e) = S754_finite false mq eq
    /\ ((eq <= -53 /\ 4503599627370496 <= Z.pos mq < 9007199254740992
         /\ (e < -53 -> eq = -53))
        \/ (eq = -52 /\ Z.pos mq = 4503599627370496 /\ e < -53
            /\ Z.pos m <= 2 ^ (-53 - e))).
Proof.
  intros He Hm Hnormal.
  destruct (one_minus m e He Hm) as (M & HM & ->).
  assert (Hbig : 2 ^ (- e) = 9007199254740992 * 2 ^ (-53 - e)).
  { change 9007199254740992 with (2 ^ 53). rewrite <- Z.pow_add_r by lia.
    f_equal. lia. }
  assert (Hpos : 0 < 2 ^ (-53 - e)) by (apply Z.pow_pos_nonneg; lia).
  destruct (Z.eq_dec e (-53)) as [->|Hne].
  - (* 1/2 <= p < 1: the difference is exact *)
    change (2 ^ (- -53)) with 9007199254740992 in HM.
    assert (Hd : Z.pos (digits2_pos M) <= 53).
    { apply digits2_pos_le. change (2 ^ 53) with 9007199254740992. lia. }
    pose proof (Pos2Z.is_pos (digits2_pos M)) as Hd1.
    destruct (binary_round_normal false M (-53)) as (mq & eq & -> & Hshape); [lia|].
    exists mq, eq.
    destruct Hshape as [(Heq & Hmq)|(Heq & Hmq & Hd53 & Hup)].
    + destruct (Z.leb_spec eq 971); [|lia]. split; [reflexivity|]. left. lia.
    + exfalso. replace (Z.pos (digits2_pos M)) with 53 in Hup by lia.
      change (2 ^ (53 - 53)) with 1 in Hup. specialize (Hnormal ltac:(lia)). lia.
  - (* p < 1/2 *)
    assert (Hd : Z.pos (digits2_pos M) = - e).
    { apply digits2_pos_unique. rewrite HM.
      assert (Hhalf : 2 ^ (- e) = 2 * 2 ^ (- e - 1)).
      { rewrite <- Z.pow_succ_r by lia. f_equal. lia. }
      assert (9007199254740992 <= 2 ^ (- e - 1)).
      { change 9007199254740992 with (2 ^ 53). apply Z.pow_le_mono_r; lia. }
      pow_lia. }
    destruct (binary_round_normal false M e) as (mq & eq & -> & Hshape); [lia|].
    rewrite Hd in Hshape. exists mq, eq.
    assert (Hfin : (eq <=? 971) = true) by (apply Z.leb_le; lia).
    rewrite Hfin. split; [reflexivity|].
    destruct Hshape as [(Heq & Hmq)|(Heq & Hmq & _ & Hup)]; [left; lia|right].
    replace (- e - 53) with (-53 - e) in Hup by lia.
    repeat split; try lia; rewrite HM, Hbig in Hup; pow_lia.
Qed.

Lemma confidence_zero (s : bool) : confidence (S754_zero s) = f1_0.
Proof. destruct s; reflexivity. Qed.

Lemma confidence_one : confidence f1_0 = f1_0.
Proof. vm_compute. reflexivity. Qed.

End Confidence.

(* ===================================================================== *)
(** * Rounding in any format *)
(* ===================================================================== *)

(** The facts above, for a format of precision [prec] and largest
    exponent [emax]: binary32 is 24 and 128, binary64 is 53 and 1024. *)
Section Rounding.
Variables prec emax : Z.
Hypothesis Hprec : 2 <= prec.
Hypothesis Hemax : 2 * prec < emax.

Lemma fexp_in (x : Z) : fexp prec emax x = Z.max (x - prec) (3 - emax - prec).
Proof. reflexivity. Qed.

Lemma pow2_prec : 2 ^ prec = 2 * 2 ^ (prec - 1).
Proof. rewrite <- Z.pow_succ_r by lia. f_equal. lia. Qed.

Lemma pow2_prec_pos : 2 <= 2 ^ (prec - 1).
Proof. change 2 with (2 ^ 1) at 1. apply Z.pow_le_mono_r; lia. Qed.

Lemma shr_fexp_keep_in (m : positive) (e : Z) :
  fexp prec emax (Z.pos (digits2_pos m) + e) <= e ->
  shr_fexp prec emax (Z.pos m) e loc_Exact
  = ({| shr_m := Z.pos m; shr_r := false; shr_s := false |}, e).
Proof.
  intros Hle. unfold shr_fexp. cbn [Zdigits2 shr_record_of_loc].
  destruct (fexp prec emax (Z.pos (digits2_pos m) + e) - e) eqn:Hn; [reflexivity|lia|reflexivity].
Qed.

Lemma shr_fexp_zero (e : Z) : shr_m (shr_fexp prec emax 0 e loc_Exact).1 = 0.
Proof.
  unfold shr_fexp. cbn [Zdigits2 shr_record_of_loc]. unfold shr.
  destruct (fexp prec emax (0 + e) - e) as [|n|n]; cbn [fst shr_m]; try reflexivity.
  rewrite shr_m_iter by (cbn; lia). reflexivity.
Qed.

Lemma shr_fexp_shift (M : positive) (E : Z) (n : positive) :
  fexp prec emax (Z.pos (digits2_pos M) + E) - E = Z.pos n ->
  exists mrs,
    shr_fexp prec emax (Z.pos M) E loc_Exact = (mrs, E + Z.pos n)
    /\ shr_m mrs = Z.pos M / 2 ^ Z.pos n.
Proof.
  intros Hn. unfold shr_fexp. cbn [Zdigits2 shr_record_of_loc]. rewrite Hn.
  cbn [shr]. eexists. split; [reflexivity|]. apply shr_m_iter. cbn. lia.
Qed.

(** The second normalisation of [binary_round_aux]. *)
Lemma renormalize_in (m2 : positive) (e1 : Z) :
  Z.pos m2 <= 2 ^ prec -> 3 - emax - prec <= e1 ->
  exists mrs mq eq,
    shr_fexp prec emax (Z.pos m2) e1 loc_Exact = (mrs, eq)
    /\ shr_m mrs = Z.pos mq
    /\ ((eq = e1 /\ mq = m2 /\ Z.pos m2 < 2 ^ prec)
        \/ (eq = e1 + 1 /\ Z.pos mq = 2 ^ (prec - 1) /\ Z.pos m2 = 2 ^ prec)).
Proof.
  intros Hm He. pose proof pow2_prec as Hp. pose proof pow2_prec_pos as Hp1.
  destruct (Z.eq_dec (Z.pos m2) (2 ^ prec)) as [Heq|Hne].
  - assert (Hd : Z.pos (digits2_pos m2) = prec + 1).
    { apply digits2_pos_unique. replace (prec + 1 - 1) with prec by lia.
      rewrite Heq. replace (prec + 1) with (Z.succ prec) by lia.
      rewrite Z.pow_succ_r by lia. lia. }
    unfold shr_fexp. cbn [Zdigits2 shr_record_of_loc]. rewrite Hd, fexp_in.
    replace (Z.max (prec + 1 + e1 - prec) (3 - emax - prec) - e1) with 1 by lia.
    cbn [shr SpecFloat.iter_pos].
    assert (Hm1 : shr_m (shr_1 {| shr_m := Z.pos m2; shr_r := false; shr_s := false |})
                  = 2 ^ (prec - 1)).
    { rewrite shr_m_shr_1 by (cbn; lia). cbn [shr_m]. rewrite Heq, Hp.
      rewrite Z.mul_comm, Z.div_mul by lia. reflexivity. }
    destruct (2 ^ (prec - 1)) as [|q|q] eqn:Hq; try lia.
    eexists _, q, _. split; [reflexivity|]. split; [exact Hm1|]. right. lia.
  - assert (Hd : Z.pos (digits2_pos m2) <= prec) by (apply digits2_pos_le; lia).
    rewrite shr_fexp_keep_in by (rewrite fexp_in; lia).
    eexists _, m2, _. split; [reflexivity|]. split; [reflexivity|]. left. lia.
Qed.

(** Rounding a positive mantissa [M] at exponent [E], away from
    overflow: with [e1] the exponent the format gives a number of this
    size, the mantissa is kept as it is when [e1] is [E], and is
    otherwise [M / 2^(e1 - E)] or one more, a carry to [2^prec] moving to
    the next exponent. *)
Lemma binary_round_aux_in (s : bool) (M : positive) (E : Z) :
  E <= emax - prec ->
  Z.pos (digits2_pos M) + E + 1 <= emax ->
  let e1 := Z.max E (fexp prec emax (Z.pos (digits2_pos M) + E)) in
  let lo := Z.pos M / 2 ^ (e1 - E) in
  (binary_round_aux prec emax s (Z.pos M) E loc_Exact = S754_zero s /\ lo = 0 /\ E < e1)
  \/ exists m2 e2,
       binary_round_aux prec emax s (Z.pos M) E loc_Exact = S754_finite s m2 e2
       /\ Z.pos m2 < 2 ^ prec
       /\ e1 <= e2 <= e1 + 1
       /\ (e2 = e1 + 1 -> Z.pos m2 = 2 ^ (prec - 1))
       /\ (e1 = E -> m2 = M /\ e2 = E)
       /\ lo * 2 ^ (e1 - E) <= Z.pos m2 * 2 ^ (e2 - E) <= (lo + 1) * 2 ^ (e1 - E)
       /\ (3 - emax - prec <= Z.pos (digits2_pos M) + E - prec ->
           prec <= Z.pos (digits2_pos M) -> 2 ^ (prec - 1) <= Z.pos m2).
Proof.
  intros HE Hd e1 lo. pose proof (digits2_pos_bounds M) as [HMlo HMhi].
  pose proof pow2_prec as Hp. pose proof pow2_prec_pos as Hp1.
  pose proof (Pos2Z.is_pos (digits2_pos M)) as Hdpos.
  set (d := Z.pos (digits2_pos M)) in *.
  unfold binary_round_aux.
  destruct (Z_le_gt_dec (fexp prec emax (d + E)) E) as [Hkeep|Hshift].
  - (* the mantissa is kept *)
    right. assert (He1 : e1 = E) by (unfold e1; lia).
    rewrite (shr_fexp_keep_in M E Hkeep).
    cbn [shr_m loc_of_shr_record round_nearest_even].
    rewrite (shr_fexp_keep_in M E Hkeep). cbn [shr_m].
    destruct (Z.leb_spec E (emax - prec)); [|lia].
    rewrite fexp_in in Hkeep.
    assert (HM : Z.pos M < 2 ^ prec).
    { apply Z.lt_le_trans with (1 := HMhi). apply Z.pow_le_mono_r; lia. }
    exists M, E. split; [reflexivity|]. split; [exact HM|].
    split; [lia|]. split; [lia|]. split; [auto|].
    split.
    { unfold lo. rewrite He1, Z.sub_diag. change (2 ^ 0) with 1.
      rewrite Z.div_1_r. lia. }
    intros _ Hdp. replace d with prec in HMlo by lia. exact HMlo.
  - (* the mantissa is shifted by [n] digits *)
    destruct (fexp prec emax (d + E) - E) as [|n|n] eqn:Hn; [lia| |lia].
    assert (He1 : e1 = E + Z.pos n) by (unfold e1; lia).
    destruct (shr_fexp_shift M E n Hn) as (mrs & -> & Hm1). fold d in Hm1.
    assert (Hlo : lo = shr_m mrs).
    { unfold lo. rewrite Hm1, He1. f_equal. f_equal. lia. }
    replace (e1 - E) with (Z.pos n) by lia.
    assert (Hpos : 0 < 2 ^ Z.pos n) by (apply Z.pow_pos_nonneg; lia).
    rewrite fexp_in in Hn.
    assert (Hb1 : 0 <= shr_m mrs < 2 ^ prec).
    { rewrite Hm1. split; [apply Z.div_pos; lia|].
      apply Z.div_lt_upper_bound; [assumption|].
      apply Z.lt_le_trans with (1 := HMhi).
      rewrite <- Z.pow_add_r by lia. apply Z.pow_le_mono_r; lia. }
    pose proof (round_nearest_even_bounds (shr_m mrs) (loc_of_shr_record mrs)) as Hr.
    set (m2 := round_nearest_even _ _) in *.
    destruct m2 as [|mp|mp] eqn:Hm2; [| |lia].
    + (* rounded to zero *)
      left. pose proof (shr_fexp_zero (E + Z.pos n)) as Hz.
      destruct (shr_fexp prec emax 0 (E + Z.pos n) loc_Exact) as [mrs2 e2].
      cbn [fst] in Hz. rewrite Hz. split; [reflexivity|]. lia.
    + right.
      destruct (renormalize_in mp (E + Z.pos n)) as (mrs2 & mq & eq & -> & Hq & Hshape);
        [lia|lia|].
      rewrite Hq.
      assert (Hfin : eq <= emax - prec) by lia.
      destruct (Z.leb_spec eq (emax - prec)); [|lia].
      exists mq, eq. split; [reflexivity|].
      assert (Hnormal : 3 - emax - prec <= d + E - prec -> prec <= d ->
                        2 ^ (prec - 1) <= shr_m mrs).
      { intros Hn1 Hn2. rewrite Hm1.
        apply Z.div_le_lower_bound; [assumption|].
        apply Z.le_trans with (2 := HMlo).
        rewrite Z.mul_comm, <- Z.pow_add_r by lia. apply Z.pow_le_mono_r; lia. }
      destruct Hshape as [(-> & -> & Hlt)|(-> & Hmq & Hcarry)].
      * split; [exact Hlt|]. split; [lia|]. split; [lia|]. split; [lia|].
        replace (E + Z.pos n - E) with (Z.pos n) by lia.
        split; [nia|]. intros Hn1 Hn2. specialize (Hnormal Hn1 Hn2). lia.
      * split; [lia|]. split; [lia|]. split; [auto|]. split; [lia|].
        replace (E + Z.pos n + 1 - E) with (Z.succ (Z.pos n)) by lia.
        rewrite Z.pow_succ_r by lia. split; [nia|]. intros _ _. lia.
Qed.

Lemma digits_shift (M k : positive) :
  Z.pos (digits2_pos (Pos.iter xO M k)) = Z.pos (digits2_pos M) + Z.pos k.
Proof.
  pose proof (digits2_pos_bounds M) as [HMlo HMhi].
  pose proof (Pos2Z.is_pos (digits2_pos M)) as Hdpos.
  set (d := Z.pos (digits2_pos M)) in *.
  apply digits2_pos_unique. rewrite iter_xO.
  replace (d + Z.pos k - 1) with (d - 1 + Z.pos k) by lia.
  rewrite !Z.pow_add_r by lia.
  assert (0 < 2 ^ Z.pos k) by (apply Z.pow_pos_nonneg; lia).
  split; [apply Z.mul_le_mono_nonneg_r|apply Z.mul_lt_mono_pos_r]; assumption || lia.
Qed.

(** The same for [binary_round], which first aligns a short mantissa to
    the exponent of the format; that step is exact. *)
Lemma binary_round_in (s : bool) (M : positive) (e : Z) :
  Z.pos (digits2_pos M) + e + 1 <= emax ->
  let e1 := fexp prec emax (Z.pos (digits2_pos M) + e) in
  let lo := Z.pos M / 2 ^ (e1 - e) in
  (binary_round prec emax s M e = S754_zero s /\ lo = 0 /\ e < e1)
  \/ exists m2 e2,
       binary_round prec emax s M e = S754_finite s m2 e2
       /\ Z.pos m2 < 2 ^ prec
       /\ e1 <= e2 <= e1 + 1
       /\ (e2 = e1 + 1 -> Z.pos m2 = 2 ^ (prec - 1))
       /\ (3 - emax - prec <= Z.pos (digits2_pos M) + e - prec ->
           2 ^ (prec - 1) <= Z.pos m2)
       /\ ((e1 <= e /\ e2 = e1 /\ Z.pos m2 = Z.pos M * 2 ^ (e - e1))
           \/ (e < e1
               /\ lo * 2 ^ (e1 - e) <= Z.pos m2 * 2 ^ (e2 - e) <= (lo + 1) * 2 ^ (e1 - e))).
Proof.
  intros Hd. cbv zeta. pose proof (digits2_pos_bounds M) as [HMlo HMhi].
  pose proof pow2_prec as Hp. pose proof pow2_prec_pos as Hp1.
  pose proof (Pos2Z.is_pos (digits2_pos M)) as Hdpos.
  unfold binary_round, shl_align.
  set (d := Z.pos (digits2_pos M)) in *.
  remember (fexp prec emax (d + e)) as e1 eqn:He1.
  assert (He1' : e1 = Z.max (d + e - prec) (3 - emax - prec)) by (subst e1; reflexivity).
  destruct (e1 - e) as [|n|k] eqn:Hn.
  - (* already at the exponent of the format *)
    pose proof (binary_round_aux_in s M e ltac:(lia) Hd) as Haux.
    cbv zeta in Haux. fold d in Haux. rewrite <- He1 in Haux.
    replace (Z.max e e1) with e1 in Haux by lia.
    destruct Haux as [(_ & _ & Hlt)|(m2 & e2 & Hr & Hm2 & He2 & Hcarry & Hkeep & _ & Hnormal)];
      [lia|].
    destruct (Hkeep ltac:(lia)) as [-> ->].
    right. exists M, e. split; [exact Hr|]. split; [exact Hm2|].
    split; [lia|]. split; [lia|]. split.
    { intros Hn1. apply Hnormal; lia. }
    left. replace (e - e1) with 0 by lia. change (2 ^ 0) with 1. lia.
  - (* a longer mantissa *)
    pose proof (binary_round_aux_in s M e ltac:(lia) Hd) as Haux.
    cbv zeta in Haux. fold d in Haux. rewrite <- He1 in Haux.
    replace (Z.max e e1) with e1 in Haux by lia. rewrite Hn in Haux.
    destruct Haux
      as [(Hr & Hlo & Hlt)|(m2 & e2 & Hr & Hm2 & He2 & Hcarry & _ & Hval & Hnormal)].
    { left. split; [exact Hr|]. split; [exact Hlo|lia]. }
    right. exists m2, e2. split; [exact Hr|]. split; [exact Hm2|].
    split; [lia|]. split; [exact Hcarry|]. split.
    { intros Hn1. apply Hnormal; lia. }
    right. split; [lia|exact Hval].
  - (* a shorter mantissa, aligned by [k] digits *)
    pose proof (digits_shift M k) as Hdk. fold d in Hdk.
    assert (Hsame : Z.pos (digits2_pos (Pos.iter xO M k)) + e1 = d + e) by lia.
    pose proof (binary_round_aux_in s (Pos.iter xO M k) e1 ltac:(lia) ltac:(lia)) as Haux.
    cbv zeta in Haux. rewrite Hsame, <- He1 in Haux.
    replace (Z.max e1 e1) with e1 in Haux by lia.
    destruct Haux as [(_ & _ & Hlt)|(m2 & e2 & Hr & Hm2 & He2 & Hcarry & Hkeep & _ & Hnormal)];
      [lia|].
    destruct (Hkeep ltac:(lia)) as [-> ->].
    right. exists (Pos.iter xO M k), e1. split; [exact Hr|]. split; [exact Hm2|].
    split; [lia|]. split; [lia|]. split.
    { intros Hn1. apply Hnormal; lia. }
    left. split; [lia|]. split; [reflexivity|]. rewrite iter_xO. f_equal. f_equal. lia.
Qed.

(** ** One minus a score, in any format *)

Section UnitInterval.
Variable P : positive.
Hypothesis HP : Z.pos P = 2 ^ (prec - 1).

(** A number of the format between 0 and 1 is a zero, or 1, or positive
    with a mantissa below [2^prec] at an exponent of at most [-prec]. *)
Lemma unit_interval_in (p : spec_float) :
  valid_binary prec emax p = true ->
  SFleb (S754_zero false) p = true ->
  SFleb p (S754_finite false P (1 - prec)) = true ->
  (exists s, p = S754_zero s)
  \/ p = S754_finite false P (1 - prec)
  \/ exists m e,
       p = S754_finite false m e /\ e <= - prec /\ Z.pos m < 2 ^ prec
       /\ (3 - emax - prec < e -> 2 ^ (prec - 1) <= Z.pos m).
Proof.
  intros Hvalid Hlo Hhi. pose proof pow2_prec as Hp.
  destruct p as [s|s| |s m e]; [left; eauto|destruct s; discriminate|discriminate|].
  destruct s; [discriminate|]. right.
  apply (fleb_finite m e P (1 - prec)) in Hhi.
  unfold valid_binary, bounded, canonical_mantissa in Hvalid.
  apply andb_prop in Hvalid as [Hcanon _]. apply Z.eqb_eq in Hcanon.
  rewrite fexp_in in Hcanon.
  pose proof (digits2_pos_bounds m) as [Dlo Dhi].
  set (d := Z.pos (digits2_pos m)) in *.
  assert (Hd : d <= prec) by lia.
  assert (Hm : Z.pos m < 2 ^ prec).
  { apply Z.lt_le_trans with (1 := Dhi). apply Z.pow_le_mono_r; lia. }
  assert (Hnormal : 3 - emax - prec < e -> 2 ^ (prec - 1) <= Z.pos m).
  { intros He. replace d with prec in Dlo by lia. exact Dlo. }
  destruct (Z.eq_dec e (1 - prec)) as [->|Hne].
  - left. f_equal. specialize (Hnormal ltac:(lia)). lia.
  - right. exists m, e. split; [reflexivity|]. repeat split; lia.
Qed.

(** [1 - p] for a positive [p] below 1 is one rounding of the exact
    difference. *)
Lemma one_minus_in (m : positive) (e : Z) :
  e <= - prec -> Z.pos m < 2 ^ prec ->
  exists M,
    Z.pos M = 2 ^ (- e) - Z.pos m
    /\ SFsub prec emax (S754_finite false P (1 - prec)) (S754_finite false m e)
       = binary_round prec emax false M e.
Proof.
  intros He Hm. pose proof pow2_prec as Hp.
  unfold SFsub. cbn [cond_Zopp].
  rewrite Z.min_r by lia. unfold shl_align. rewrite Z.sub_diag.
  destruct (e - (1 - prec)) as [|k|k] eqn:Hk; [lia|lia|]. cbn [fst].
  rewrite iter_xO, HP.
  assert (Hpow : 2 ^ (prec - 1) * 2 ^ Z.pos k = 2 ^ (- e)).
  { rewrite <- Z.pow_add_r by lia. f_equal. lia. }
  rewrite Hpow.
  assert (Hbig : 2 ^ prec <= 2 ^ (- e)) by (apply Z.pow_le_mono_r; lia).
  destruct (2 ^ (- e) - Z.pos m) as [|M|M] eqn:HM; [lia| |lia].
  exists M. split; reflexivity.
Qed.

(** The shape of [1 - p]: at most 1, and equal to 1 only when [p] is at
    most [2^-prec]; at least 1/2 when [p] is below 1/2. *)
Lemma one_minus_shape_in (m : positive) (e : Z) :
  e <= - prec -> Z.pos m < 2 ^ prec ->
  (3 - emax - prec < e -> 2 ^ (prec - 1) <= Z.pos m) ->
  exists mq eq,
    SFsub prec emax (S754_finite false P (1 - prec)) (S754_finite false m e)
    = S754_finite false mq eq
    /\ ((eq <= - prec /\ 2 ^ (prec - 1) <= Z.pos mq < 2 ^ prec
         /\ (e < - prec -> eq = - prec))
        \/ (eq = 1 - prec /\ Z.pos mq = 2 ^ (prec - 1) /\ e < - prec
            /\ Z.pos m <= 2 ^ (- prec - e))).
Proof.
  intros He Hm Hnormal. pose proof pow2_prec as Hp. pose proof pow2_prec_pos as Hp1.
  destruct (one_minus_in m e He Hm) as (M & HM & ->).
  pose proof (digits2_pos_bounds M) as [HMlo HMhi].
  pose proof (Pos2Z.is_pos (digits2_pos M)) as Hdpos.
  destruct (Z.eq_dec e (- prec)) as [->|Hne].
  - (* 1/2 <= p < 1: the difference is exact *)
    rewrite Z.opp_involutive in HM. specialize (Hnormal ltac:(lia)).
    assert (Hd : Z.pos (digits2_pos M) <= prec) by (apply digits2_pos_le; lia).
    pose proof (binary_round_in false M (- prec) ltac:(lia)) as Hr.
    cbv zeta in Hr. rewrite fexp_in in Hr.
    set (d := Z.pos (digits2_pos M)) in *.
    replace (Z.max (d + - prec - prec) (3 - emax - prec)) with (d - 2 * prec) in Hr by lia.
    destruct Hr as [(_ & _ & Hlt)|(m2 & e2 & Hr & Hm2 & He2 & Hcarry & Hcanon & Hval)]; [lia|].
    exists m2, e2. split; [exact Hr|]. left.
    destruct Hval as [(_ & -> & _)|(Hlt & _)]; [|lia].
    specialize (Hcanon ltac:(lia)). lia.
  - (* p < 1/2 *)
    assert (Hhalf : 2 ^ (- e) = 2 * 2 ^ (- e - 1)).
    { rewrite <- Z.pow_succ_r by lia. f_equal. lia. }
    assert (Hbig : 2 ^ prec <= 2 ^ (- e - 1)) by (apply Z.pow_le_mono_r; lia).
    assert (Hd : Z.pos (digits2_pos M) = - e).
    { apply digits2_pos_unique. rewrite HM. lia. }
    pose proof (binary_round_in false M e ltac:(lia)) as Hr.
    cbv zeta in Hr. rewrite fexp_in, Hd in Hr.
    replace (Z.max (- e + e - prec) (3 - emax - prec)) with (- prec) in Hr by lia.
    assert (Hn : 2 ^ (- e) = 2 ^ prec * 2 ^ (- prec - e)).
    { rewrite <- Z.pow_add_r by lia. f_equal. lia. }
    assert (Hnpos : 0 < 2 ^ (- prec - e)) by (apply Z.pow_pos_nonneg; lia).
    assert (Hlo : 2 ^ (prec - 1) <= Z.pos M / 2 ^ (- prec - e)).
    { apply Z.div_le_lower_bound; [assumption|]. nia. }
    destruct Hr as [(_ & Hz & _)|(m2 & e2 & Hr & Hm2 & He2 & Hcarry & Hcanon & Hval)]; [lia|].
    exists m2, e2. split; [exact Hr|].
    specialize (Hcanon ltac:(lia)).
    destruct Hval as [(Hle & _)|(_ & Hval)]; [lia|].
    destruct (Z.eq_dec e2 (- prec)) as [->|Hne2]; [left; lia|right].
    assert (He2' : e2 = 1 - prec) by lia. subst e2.
    specialize (Hcarry ltac:(lia)).
    repeat split; try lia.
    destruct Hval as [_ Hup]. rewrite Hcarry in Hup.
    replace (1 - prec - e) with (Z.succ (- prec - e)) in Hup by lia.
    rewrite Z.pow_succ_r in Hup by lia.
    pose proof (Z.mul_div_le (Z.pos M) (2 ^ (- prec - e)) Hnpos) as Hfloor.
    nia.
Qed.

(** The confidence of a score between 0 and 1 lies between 1/2 and 1,
    and is 1 only for a score that is 1 or at most [2^-prec]. *)
Lemma confidence_in_unit_interval (p : spec_float) :
  valid_binary prec emax p = true ->
  SFleb (S754_zero false) p = true ->
  SFleb p (S754_finite false P (1 - prec)) = true ->
  let c := Py.fmax p (SFsub prec emax (S754_finite false P (1 - prec)) p) in
  SFleb (S754_finite false P (- prec)) c = true
  /\ SFleb c (S754_finite false P (1 - prec)) = true
  /\ (SFeqb c (S754_finite false P (1 - prec)) = true ->
      SFeqb p (S754_finite false P (1 - prec)) = true
      \/ SFleb p (S754_finite false P (1 - 2 * prec)) = true).
Proof.
  intros Hvalid Hlo Hhi c. pose proof pow2_prec as Hp. pose proof pow2_prec_pos as Hp1.
  destruct (unit_interval_in p Hvalid Hlo Hhi)
    as [[s ->]|[->|(m & e & -> & He & Hm & Hnormal)]].
  - assert (Hc : c = S754_finite false P (1 - prec)) by (destruct s; reflexivity).
    rewrite Hc.
    assert (Hrefl : forall e0, SFleb (S754_finite false P e0) (S754_finite false P e0) = true)
      by (intros e0; apply (fleb_finite P e0 P e0); lia).
    repeat split; [apply (fleb_finite P (- prec) P (1 - prec)); lia|apply Hrefl|].
    intros _. right. reflexivity.
  - assert (Hc : c = S754_finite false P (1 - prec)).
    { unfold c, Py.fmax, Py.fltb, SFltb, SFsub. cbn [cond_Zopp].
      rewrite Z.min_id. unfold shl_align. rewrite Z.sub_diag. cbn [fst].
      reflexivity. }
    rewrite Hc.
    assert (Hrefl : SFleb (S754_finite false P (1 - prec)) (S754_finite false P (1 - prec)) = true)
      by (apply (fleb_finite P (1 - prec) P (1 - prec)); lia).
    repeat split; [apply (fleb_finite P (- prec) P (1 - prec)); lia|exact Hrefl|].
    intros _. left. apply (feqb_finite P (1 - prec) P (1 - prec)). auto.
  - destruct (one_minus_shape_in m e He Hm Hnormal) as (mq & eq & Hq & Hshape).
    unfold c. rewrite Hq. unfold Py.fmax.
    destruct (Py.fltb (S754_finite false m e) (S754_finite false mq eq)) eqn:Hlt.
    + apply fltb_finite in Hlt.
      split; [apply (fleb_finite P (- prec) mq eq); lia|].
      split; [apply (fleb_finite mq eq P (1 - prec)); lia|].
      intros Hone. apply (feqb_finite mq eq P (1 - prec)) in Hone as [Heq Hmq]. subst eq mq.
      right. destruct Hshape as [?|(_ & _ & He' & Hup)]; [lia|].
      apply (fleb_finite m e P (1 - 2 * prec)).
      destruct (Z_lt_le_dec e (1 - 2 * prec)) as [|Hge]; [left; assumption|right].
      assert (Hpow : 2 ^ (- prec - e) <= 2 ^ (prec - 1)) by (apply Z.pow_le_mono_r; lia).
      specialize (Hnormal ltac:(lia)).
      destruct (Z.eq_dec e (1 - 2 * prec)) as [->|Hne]; [lia|exfalso].
      assert (2 ^ (- prec - e) <= 2 ^ (prec - 2)) by (apply Z.pow_le_mono_r; lia).
      assert (2 ^ (prec - 1) = 2 * 2 ^ (prec - 2)).
      { rewrite <- Z.pow_succ_r by lia. f_equal. lia. }
      assert (0 < 2 ^ (prec - 2)) by (apply Z.pow_pos_nonneg; lia).
      lia.
    + assert (He53 : e = - prec).
      { destruct (Z.eq_dec e (- prec)) as [|Hne]; [assumption|exfalso].
        assert (Htrue : Py.fltb (S754_finite false m e) (S754_finite false mq eq) = true)
          by (apply fltb_finite; lia).
        congruence. }
      subst e. specialize (Hnormal ltac:(lia)).
      split; [apply (fleb_finite P (- prec) m (- prec)); lia|].
      split; [apply (fleb_finite m (- prec) P (1 - prec)); lia|].
      intros Hone. apply (feqb_finite m (- prec) P (1 - prec)) in Hone. lia.
Qed.

End UnitInterval.

End Rounding.

(** C7, as stated, fails for a score of [2^-60], in binary64 and in
    binary32: its confidence is 1.0 although the score is neither 0 nor
    1. *)
Lemma tiny_score_full_confidence :
  (Py.valid_in Py.Binary64 Samples.tiny_score = true
   /\ Py.fleb (Py.of_int_in Py.Binary64 0) Samples.tiny_score = true
   /\ Py.fleb Samples.tiny_score (Py.of_int_in Py.Binary64 1) = true
   /\ Py.feqb (App.confidence_in Py.Binary64 Samples.tiny_score)
        (Py.of_int_in Py.Binary64 1) = true
   /\ Py.feqb Samples.tiny_score (Py.of_int_in Py.Binary64 0) = false
   /\ Py.feqb Samples.tiny_score (Py.of_int_in Py.Binary64 1) = false)
  /\ (Py.valid_in Py.Binary32 Samples.tiny_score32 = true
      /\ Py.fleb (Py.of_int_in Py.Binary32 0) Samples.tiny_score32 = true
      /\ Py.fleb Samples.tiny_score32 (Py.of_int_in Py.Binary32 1) = true
      /\ Py.feqb (App.confidence_in Py.Binary32 Samples.tiny_score32)
           (Py.of_int_in Py.Binary32 1) = true
      /\ Py.feqb Samples.tiny_score32 (Py.of_int_in Py.Binary32 0) = false
      /\ Py.feqb Samples.tiny_score32 (Py.of_int_in Py.Binary32 1) = false).
Proof. vm_compute. repeat split; reflexivity. Qed.

(** C7, amended. In either format, for every score between 0 and 1 the
    confidence [max(score, 1 - score)] lies between 0.5 and 1.0; it is
    1.0 at the scores 0 and 1, and is 1.0 only for a score that is 1 or
    at most [2^-p], [p] being the precision of the format: [2^-24] in
    binary32, [2^-53] in binary64. *)
Theorem confidence_bounds (f : Py.format) (p : spec_float) :
  Py.valid_in f p = true ->
  Py.fleb (Py.of_int_in f 0) p = true ->
  Py.fleb p (Py.of_int_in f 1) = true ->
  Py.fleb (Py.pow2_in f (-1)) (App.confidence_in f p) = true
  /\ Py.fleb (App.confidence_in f p) (Py.of_int_in f 1) = true
  /\ App.confidence_in f (Py.of_int_in f 0) = Py.of_int_in f 1
  /\ App.confidence_in f (Py.of_int_in f 1) = Py.of_int_in f 1
  /\ (Py.feqb (App.confidence_in f p) (Py.of_int_in f 1) = true ->
      Py.feqb p (Py.of_int_in f 1) = true
      \/ Py.fleb p (Py.pow2_in f (- Py.precision f)) = true).
Proof.
  intros Hvalid Hlo Hhi.
  destruct f.
  - destruct (confidence_in_unit_interval 24 128 ltac:(lia) ltac:(lia) 8388608 eq_refl
                p Hvalid Hlo Hhi) as (Hhalf & Hone & Honly).
    split; [exact Hhalf|]. split; [exact Hone|].
    split; [vm_compute; reflexivity|]. split; [vm_compute; reflexivity|exact Honly].
  - destruct (confidence_in_unit_interval 53 1024 ltac:(lia) ltac:(lia) 4503599627370496
                eq_refl p Hvalid Hlo Hhi) as (Hhalf & Hone & Honly).
    split; [exact Hhalf|]. split; [exact Hone|].
    split; [vm_compute; reflexivity|]. split; [vm_compute; reflexivity|exact Honly].
Qed.

Lemma confidence_bounds_witness :
  Py.fleb (Py.pow2_in Py.Binary32 (-1)) (App.confidence_in Py.Binary32 Samples.tiny_score32)
  = true
  /\ Py.fleb (App.confidence_in Py.Binary32 Samples.tiny_score32)
       (Py.of_int_in Py.Binary32 1) = true
  /\ App.confidence_in Py.Binary32 (Py.of_int_in Py.Binary32 0) = Py.of_int_in Py.Binary32 1
  /\ App.confidence_in Py.Binary32 (Py.of_int_in Py.Binary32 1) = Py.of_int_in Py.Binary32 1
  /\ (Py.feqb (App.confidence_in Py.Binary32 Samples.tiny_score32)
        (Py.of_int_in Py.Binary32 1) = true ->
      Py.feqb Samples.tiny_score32 (Py.of_int_in Py.Binary32 1) = true
      \/ Py.fleb Samples.tiny_score32 (Py.pow2_in Py.Binary32 (- Py.precision Py.Binary32))
         = true).
Proof.
  apply (confidence_bounds Py.Binary32 Samples.tiny_score32); vm_compute; reflexivity.
Defined.

(* ===================================================================== *)
(** * Forecast: encoding *)
(* ===================================================================== *)

Section Encoding.
Import Py App.

(** The float literals are the correctly rounded quotients. *)
Lemma literals_rounded :
  f0_5 = int_truediv 1 2 /\ f0_7 = int_truediv 7 10 /\ f1_0 = float_of_int 1
  /\ f1_2 = int_truediv 12 10 /\ f1_5 = int_truediv 3 2.
Proof. vm_compute. repeat split; reflexivity. Qed.

(** [repr] on a plain key, on a key with an apostrophe and on a key with
    a backslash. *)
Example repr_examples :
  repr "Dakar" = "'Dakar'"%string
  /\ repr "Cote d'Ivoire" = String "034" ("Cote d'Ivoire" ++ String "034" EmptyString)
  /\ repr (String "092" "n") = String "'" (String "092" (String "092" "n'")).
Proof. vm_compute. repeat split; reflexivity. Qed.

Lemma fold_insert_lookup_other {V} (items : list (string * V)) (d : gmap string V) k :
  k ∉ items.*1 ->
  fold_left (fun d kv => <[kv.1 := kv.2]> d) items d !! k = d !! k.
Proof.
  revert d. induction items as [|[k' v] items IH]; intros d Hk; [reflexivity|].
  cbn [fold_left]. rewrite fmap_cons in Hk. apply not_elem_of_cons in Hk as [Hne Hk].
  rewrite IH by assumption. cbn [fst snd] in *. apply lookup_insert_ne. congruence.
Qed.

Lemma dict_lookup_None {V} (items : list (string * V)) k :
  k ∉ items.*1 -> dict items !! k = None.
Proof.
  intros Hk. unfold dict. rewrite fold_insert_lookup_other by assumption.
  apply lookup_empty.
Qed.

Lemma city_map_unknown c : c ∉ all_cities -> city_map !! c = None.
Proof. intros Hc. apply dict_lookup_None. exact Hc. Qed.

(** A request whose country, city and month are options of the page's
    select boxes is encoded by their positions. *)
Lemma encode_indices (r : request) (ci j mi : nat) (cities : list string) :
  countries !! ci = Some (country r) ->
  city_options !! country r = Some cities ->
  cities !! j = Some (city r) ->
  months !! mi = Some (month r) ->
  encode r
  = Ok [[Int (Z.of_nat ci); Int (Z.of_nat (4 * ci + j)); Int (Z.of_nat mi);
         Float (temperature r); Float (humidity r); Float (rainfall r);
         Int (previous_cases r)]]
  /\ all_cities !! (4 * ci + j)%nat = Some (city r).
Proof.
  destruct r as [t rf h pc pop hi co cy mo];
    cbn [country city month temperature humidity rainfall previous_cases].
  intros Hco Hopts Hcy Hmo.
  do 5 (destruct ci as [|ci];
        [injection Hco as <-; vm_compute in Hopts; injection Hopts as <-;
         do 4 (destruct j as [|j];
               [injection Hcy as <-;
                do 6 (destruct mi as [|mi];
                      [injection Hmo as <-; vm_compute; split; reflexivity|]);
                discriminate Hmo|]);
         discriminate Hcy|]).
  discriminate Hco.
Qed.

Lemma st_selectbox_elem (options : list string) (pick : nat) :
  options <> [] ->
  exists o i, st_selectbox options pick = Some o /\ options !! i = Some o.
Proof.
  intros Hne. unfold st_selectbox.
  destruct (options !! pick) as [o|] eqn:Hpick.
  - exists o, pick. split; [reflexivity|assumption].
  - destruct options as [|o options]; [congruence|].
    exists o, 0%nat. split; reflexivity.
Qed.

Lemma city_options_countries ci c :
  countries !! ci = Some c ->
  exists cities, city_options !! c = Some cities /\ cities <> [].
Proof.
  intros Hc.
  do 5 (destruct ci as [|ci];
        [injection Hc as <-; eexists; split; [vm_compute; reflexivity|discriminate]|]).
  discriminate Hc.
Qed.

(** The widgets always yield a request, and its city is one of the
    selected country's. *)
Lemma read_request_valid (inp : inputs) (w : world) :
  exists r ci j mi cities,
    read_request inp w = (Done r, w)
    /\ countries !! ci = Some (country r)
    /\ city_options !! country r = Some cities
    /\ cities !! j = Some (city r)
    /\ months !! mi = Some (month r).
Proof.
  destruct (st_selectbox_elem populations (pick_population inp)) as (p & pi & Hp & _);
    [discriminate|].
  destruct (st_selectbox_elem countries (pick_country inp)) as (c & ci & Hc & Hci);
    [discriminate|].
  destruct (city_options_countries ci c Hci) as (cities & Hopts & Hne).
  destruct (st_selectbox_elem cities (pick_city inp) Hne) as (cy & j & Hcy & Hj).
  destruct (st_selectbox_elem months (pick_month inp)) as (m & mi & Hm & Hmi);
    [discriminate|].
  eexists _, ci, j, mi, cities. unfold read_request, mbind, not_none, lift, getitem, ret.
  rewrite Hp, Hc, Hopts, Hcy, Hm.
  split; [reflexivity|]. cbn [country city month]. auto.
Qed.

End Encoding.

(** C5. A request whose country, city and month are options of the page
    is encoded as the one row [countryIdx, cityIdx, monthIdx, temperature,
    humidity, rainfall, previousCases]: the country's position among the 5
    countries, the city's position among the 20 cities of all countries in
    that order, the month's position among the 6 months. *)
Theorem encode_feature_vector (r : App.request) (ci j mi : nat) (cities : list string) :
  App.countries !! ci = Some (App.country r) ->
  App.city_options !! App.country r = Some cities ->
  cities !! j = Some (App.city r) ->
  App.months !! mi = Some (App.month r) ->
  App.encode r
  = Py.Ok [[App.Int (Z.of_nat ci); App.Int (Z.of_nat (4 * ci + j)); App.Int (Z.of_nat mi);
            App.Float (App.temperature r); App.Float (App.humidity r);
            App.Float (App.rainfall r); App.Int (App.previous_cases r)]]
  /\ App.all_cities !! (4 * ci + j)%nat = Some (App.city r)
  /\ length App.countries = 5%nat
  /\ length App.all_cities = 20%nat
  /\ length App.months = 6%nat.
Proof.
  intros Hco Hopts Hcy Hmo.
  destruct (encode_indices r ci j mi cities Hco Hopts Hcy Hmo) as [Henc Hall].
  repeat split; assumption || reflexivity.
Qed.

Lemma encode_feature_vector_witness :
  App.encode Samples.kayes_in_august
  = Py.Ok [[App.Int 1; App.Int 6; App.Int 3;
            App.Float (Py.float_of_int 30); App.Float (Py.float_of_int 70);
            App.Float (Py.float_of_int 120); App.Int 20]]
  /\ App.all_cities !! 6%nat = Some "Kayes"%string
  /\ length App.countries = 5%nat
  /\ length App.all_cities = 20%nat
  /\ length App.months = 6%nat.
Proof.
  apply (encode_feature_vector Samples.kayes_in_august 1 2 3
           ["Bamako"; "Sikasso"; "Kayes"; "Mopti"]%string); reflexivity.
Defined.

(* ===================================================================== *)
(** * Forecast: post-processing *)
(* ===================================================================== *)

Section PostProcessing.
Import Py App.

Lemma healthcare_factor_10 :
  healthcare_factor 10 = S754_finite false 7205759403792792 (-55).
Proof. vm_compute. reflexivity. Qed.

(** [30 * 1.5 * (1.2 - 10/10)] is the float just below 9. *)
Lemma adjusted_30_large_10 :
  adjusted (float_of_int 30) f1_5 10 = S754_finite false 5066549580791807 (-49)
  /\ float_of_int 9 = S754_finite false 5066549580791808 (-49).
Proof. vm_compute. split; reflexivity. Qed.

Lemma population_factor_of_tier t :
  population_factors !! Spec.tier_option t
  = Some match t with Spec.Small => f0_7 | Spec.Medium => f1_0 | Spec.Large => f1_5 end.
Proof. destruct t; vm_compute; reflexivity. Qed.

(** Truncation and floor differ on negative numbers only, where the
    clamp at 0 hides the difference. *)
Lemma clamp_trunc_floor (s : bool) (m : positive) (d : Z) :
  0 < d ->
  Z.max 0 (cond_Zopp s (Z.pos m / d)) = Z.max 0 (cond_Zopp s (Z.pos m) / d).
Proof.
  intros Hd. destruct s; cbn [cond_Zopp]; [|reflexivity].
  assert (0 <= Z.pos m / d) by (apply Z.div_pos; lia).
  assert (- Z.pos m / d < 0) by (apply Z.div_lt_upper_bound; lia).
  lia.
Qed.

Lemma clamp_int_of_float (x : spec_float) :
  is_finite x = true ->
  bind (int_of_float x) (fun n => Ok (Z.max 0 n)) = Ok (Z.max 0 (floor x)).
Proof.
  destruct x as [s|s| |s m e]; cbn [is_finite]; try discriminate; intros _;
    cbn [int_of_float bind floor]; [reflexivity|].
  destruct (0 <=? e) eqn:He; [reflexivity|].
  rewrite clamp_trunc_floor; [reflexivity|].
  apply Z.pow_pos_nonneg; lia.
Qed.

Lemma int_of_float_not_finite (x : spec_float) :
  is_finite x = false -> exists msg, int_of_float x = Raise msg.
Proof.
  destruct x as [s|s| |s m e]; cbn [is_finite]; try discriminate; intros _;
    cbn [int_of_float]; eauto.
Qed.

(** ** The adjusted value is finite *)


Lemma fexp_eq (x : Z) : fexp prec emax x = Z.max (x - 53) (-1074).
Proof. reflexivity. Qed.

(** A short mantissa at an exponent that is not below its place is kept
    as it is. *)
Lemma shr_fexp_keep (m : positive) (e : Z) :
  fexp prec emax (Z.pos (digits2_pos m) + e) <= e ->
  shr_fexp prec emax (Z.pos m) e loc_Exact
  = ({| shr_m := Z.pos m; shr_r := false; shr_s := false |}, e).
Proof.
  intros Hle. unfold shr_fexp. cbn [Zdigits2 shr_record_of_loc].
  destruct (fexp prec emax (Z.pos (digits2_pos m) + e) - e) eqn:Hn; [reflexivity|lia|reflexivity].
Qed.








End PostProcessing.

(** The page model computes in binary64. *)
Lemma binary64_instance :
  App.confidence_in Py.Binary64 = App.confidence
  /\ App.adjusted_in Py.Binary64 = App.adjusted
  /\ App.final_prediction_in Py.Binary64 = App.final_prediction.
Proof. repeat split; reflexivity. Qed.

(** C2, as stated, fails where the product is computed in binary64: on
    the specification's example (a base prediction of 30, a large
    population, a healthcare index of 10) the script stores 8 predicted
    cases, and the specification's formula gives 9. *)
Lemma forecast_example_in_binary64 :
  App.final_prediction_in Py.Binary64 (Py.of_int_in Py.Binary64 30)
    (Spec.tier_option Spec.Large) 10 = Py.Ok 8
  /\ App.final_prediction (Py.float_of_int 30) (Spec.tier_option Spec.Large) 10 = Py.Ok 8
  /\ Spec.predictedCases 30 Spec.Large 10 = 9.
Proof. vm_compute. repeat split; reflexivity. Qed.

(** C2, amended. On the specification's example the healthcare factor
    [1.2 - 10/10] is the float just below 0.2. The count is 9 where the
    product is computed in binary32, in which the factor rounds to the
    binary32 nearest 0.2, and 8 where it is computed in binary64; the
    specification's formula gives 9, and the risk level is the low one
    for both counts. *)
Theorem forecast_example_30_large_10 :
  App.healthcare_factor 10 = S754_finite false 7205759403792792 (-55)
  /\ Py.fltb (App.healthcare_factor 10) (Py.int_truediv 2 10) = true
  /\ Py.cast Py.Binary32 (App.healthcare_factor 10)
     = Py.cast Py.Binary32 (Py.int_truediv 2 10)
  /\ App.final_prediction_in Py.Binary32 (Py.of_int_in Py.Binary32 30)
       (Spec.tier_option Spec.Large) 10 = Py.Ok 9
  /\ App.final_prediction_in Py.Binary64 (Py.of_int_in Py.Binary64 30)
       (Spec.tier_option Spec.Large) 10 = Py.Ok 8
  /\ Spec.predictedCases 30 Spec.Large 10 = 9
  /\ App.risk_level 9 = "Faible"%string
  /\ App.risk_level 8 = "Faible"%string.
Proof. vm_compute. repeat split; reflexivity. Qed.

(* ===================================================================== *)
(** * Forecast: the rounded product and the exact one *)
(* ===================================================================== *)

Section Powers.

Lemma two_pow_pos (k : Z) : (0 < 2 ^ k)%Q.
Proof. apply Qpower_0_lt. reflexivity. Qed.

Lemma two_pow_add (a b : Z) : (2 ^ (a + b) == 2 ^ a * 2 ^ b)%Q.
Proof. apply Qpower_plus. discriminate. Qed.

Lemma two_pow_inject (k : Z) : 0 <= k -> (inject_Z (2 ^ k) == 2 ^ k)%Q.
Proof. intros Hk. apply (Zpower_Qpower 2 k Hk). Qed.

Lemma two_pow_le (a b : Z) : a <= b -> (2 ^ a <= 2 ^ b)%Q.
Proof. intros Hab. apply Qpower_le_compat_l; [exact Hab|discriminate]. Qed.

(** An integer multiple of [2^k] at exponent [E] is the integer at
    exponent [E + k]. *)
Lemma two_pow_scale (x k E : Z) :
  0 <= k -> (inject_Z (x * 2 ^ k) * 2 ^ E == inject_Z x * 2 ^ (E + k))%Q.
Proof.
  intros Hk. rewrite inject_Z_mult, two_pow_inject, two_pow_add by exact Hk. ring.
Qed.

End Powers.

Section RoundingError.
Variables prec emax : Z.
Hypothesis Hprec : 2 <= prec.
Hypothesis Hemax : 2 * prec < emax.

(** The unit in the last place of a number with mantissa [M] at
    exponent [E] is a [2^(1-prec)]-th of it, or the least unit. *)
Lemma ulp_bound (M : positive) (E : Z) :
  (2 ^ fexp prec emax (Z.pos (digits2_pos M) + E)
   <= 2 ^ (1 - prec) * (inject_Z (Z.pos M) * 2 ^ E) + 2 ^ (3 - emax - prec))%Q.
Proof.
  pose proof (digits2_pos_bounds M) as [HMlo _].
  pose proof (Pos2Z.is_pos (digits2_pos M)) as Hdpos.
  set (d := Z.pos (digits2_pos M)) in *.
  pose proof (two_pow_pos (1 - prec)) as Hu. pose proof (two_pow_pos E) as HE.
  pose proof (two_pow_pos (3 - emax - prec)) as Heta.
  assert (HV : (0 <= 2 ^ (1 - prec) * (inject_Z (Z.pos M) * 2 ^ E))%Q).
  { apply Qmult_le_0_compat; [apply Qlt_le_weak, Hu|].
    apply Qmult_le_0_compat; [|apply Qlt_le_weak, HE].
    change 0%Q with (inject_Z 0). rewrite <- Zle_Qle. lia. }
  rewrite (fexp_in prec emax).
  destruct (Z.max_spec (d + E - prec) (3 - emax - prec)) as [[_ ->]|[_ ->]].
  - lra.
  - assert (Hle : (2 ^ (d + E - prec)
                   <= 2 ^ (1 - prec) * (inject_Z (Z.pos M) * 2 ^ E))%Q).
    { replace (d + E - prec) with ((1 - prec) + ((d - 1) + E)) by lia.
      rewrite two_pow_add, (two_pow_add (d - 1) E), <- (two_pow_inject (d - 1)) by lia.
      apply Qmult_le_l; [exact Hu|].
      apply Qmult_le_compat_r; [|apply Qlt_le_weak, HE].
      rewrite <- Zle_Qle. lia. }
    lra.
Qed.

(** Rounding a positive mantissa, away from overflow: the result is a
    zero or a finite number that differs from the exact value by at most
    one unit in the last place. *)
Lemma round_error (M : positive) (E : Z) :
  E <= emax - prec ->
  Z.pos (digits2_pos M) + E + 1 <= emax ->
  let r := binary_round_aux prec emax false (Z.pos M) E loc_Exact in
  let V := (inject_Z (Z.pos M) * 2 ^ E)%Q in
  let err := (2 ^ (1 - prec) * V + 2 ^ (3 - emax - prec))%Q in
  (r = S754_zero false
   \/ exists m2 e2,
        r = S754_finite false m2 e2 /\ Z.pos m2 < 2 ^ prec
        /\ e2 <= Z.max E (fexp prec emax (Z.pos (digits2_pos M) + E)) + 1)
  /\ (V - err <= Py.to_Q r <= V + err)%Q.
Proof.
  intros HE Hd r V err.
  pose proof (ulp_bound M E) as Hulp. fold V in Hulp. fold err in Hulp.
  pose proof (two_pow_pos E) as HEpos.
  assert (HV : (0 <= V)%Q).
  { unfold V. apply Qmult_le_0_compat; [|apply Qlt_le_weak, HEpos].
    change 0%Q with (inject_Z 0). rewrite <- Zle_Qle. lia. }
  assert (Herr : (0 <= err)%Q).
  { unfold err. pose proof (two_pow_pos (1 - prec)). pose proof (two_pow_pos (3 - emax - prec)).
    assert (0 <= 2 ^ (1 - prec) * V)%Q by (apply Qmult_le_0_compat; lra). lra. }
  pose proof (binary_round_aux_in prec emax Hprec Hemax false M E HE Hd) as Haux.
  cbv zeta in Haux. fold r in Haux.
  set (e1 := Z.max E (fexp prec emax (Z.pos (digits2_pos M) + E))) in *.
  set (lo := Z.pos M / 2 ^ (e1 - E)) in *.
  assert (Hn : 0 <= e1 - E) by (unfold e1; lia).
  assert (Hnpos : 0 < 2 ^ (e1 - E)) by (apply Z.pow_pos_nonneg; lia).
  pose proof (Z.mul_div_le (Z.pos M) (2 ^ (e1 - E)) Hnpos) as Hfloor1.
  pose proof (Z.mul_succ_div_gt (Z.pos M) (2 ^ (e1 - E)) Hnpos) as Hfloor2.
  fold lo in Hfloor1, Hfloor2.
  assert (Hstep : E < e1 -> (2 ^ e1 <= err)%Q).
  { intros Hlt. replace e1 with (fexp prec emax (Z.pos (digits2_pos M) + E))
      by (unfold e1; lia). exact Hulp. }
  assert (Hunit : (inject_Z (2 ^ (e1 - E)) * 2 ^ E == 2 ^ e1)%Q).
  { rewrite two_pow_inject by lia. rewrite <- two_pow_add.
    replace (e1 - E + E) with e1 by lia. reflexivity. }
  destruct Haux as [(Hr & Hlo & Hlt)|(m2 & e2 & Hr & Hm2 & He2 & _ & Hkeep & Hval & _)].
  - split; [left; exact Hr|]. rewrite Hr. cbn [Py.to_Q].
    specialize (Hstep Hlt).
    assert (HVlt : (V <= 2 ^ e1)%Q).
    { rewrite <- Hunit. unfold V. apply Qmult_le_compat_r; [|apply Qlt_le_weak, HEpos].
      rewrite <- Zle_Qle. rewrite Hlo in Hfloor2. lia. }
    lra.
  - split.
    { right. exists m2, e2. split; [exact Hr|]. split; [exact Hm2|]. lia. }
    rewrite Hr. cbn [Py.to_Q cond_Zopp].
    destruct (Z.eq_dec e1 E) as [Heq|Hne].
    + destruct (Hkeep Heq) as [-> ->]. fold V. lra.
    + specialize (Hstep ltac:(lia)).
      assert (Hto : (inject_Z (Z.pos m2) * 2 ^ e2
                     == inject_Z (Z.pos m2 * 2 ^ (e2 - E)) * 2 ^ E)%Q).
      { rewrite two_pow_scale by lia. replace (E + (e2 - E)) with e2 by lia. reflexivity. }
      rewrite Hto.
      assert (Hlow : (inject_Z (Z.pos M) * 2 ^ E
                      <= (inject_Z (Z.pos m2 * 2 ^ (e2 - E)) + inject_Z (2 ^ (e1 - E)))
                         * 2 ^ E)%Q).
      { apply Qmult_le_compat_r; [|apply Qlt_le_weak, HEpos].
        rewrite <- inject_Z_plus, <- Zle_Qle. lia. }
      assert (Hhigh : (inject_Z (Z.pos m2 * 2 ^ (e2 - E)) * 2 ^ E
                       <= (inject_Z (Z.pos M) + inject_Z (2 ^ (e1 - E))) * 2 ^ E)%Q).
      { apply Qmult_le_compat_r; [|apply Qlt_le_weak, HEpos].
        rewrite <- inject_Z_plus, <- Zle_Qle. lia. }
      rewrite Qmult_plus_distr_l, Hunit in Hlow, Hhigh.
      fold V in Hlow, Hhigh. lra.
Qed.

End RoundingError.

Section Products.
Variables prec emax : Z.
Hypothesis Hprec : 2 <= prec.
Hypothesis Hemax : 2 * prec < emax.

Lemma product_digits (ma mc : positive) :
  Z.pos ma < 2 ^ prec -> Z.pos mc < 2 ^ prec ->
  Z.pos (digits2_pos (ma * mc)) <= 2 * prec.
Proof.
  intros Ha Hc. apply digits2_pos_le. rewrite Pos2Z.inj_mul.
  replace (2 * prec) with (prec + prec) by lia. rewrite Z.pow_add_r by lia.
  apply Z.mul_lt_mono_nonneg; lia.
Qed.

(** The product of two positive numbers of the format, away from
    overflow: a zero or a positive number, within one unit in the last
    place of the exact product. *)
Lemma mul_error (ma : positive) (ea : Z) (mc : positive) (ec : Z) :
  Z.pos ma < 2 ^ prec -> Z.pos mc < 2 ^ prec ->
  ea + ec + 2 * prec + 1 <= emax ->
  let r := SFmul prec emax (S754_finite false ma ea) (S754_finite false mc ec) in
  let V := (Py.to_Q (S754_finite false ma ea) * Py.to_Q (S754_finite false mc ec))%Q in
  let err := (2 ^ (1 - prec) * V + 2 ^ (3 - emax - prec))%Q in
  (r = S754_zero false
   \/ exists m2 e2,
        r = S754_finite false m2 e2 /\ Z.pos m2 < 2 ^ prec
        /\ e2 <= Z.max (ea + ec + prec) (3 - emax - prec) + 1)
  /\ (V - err <= Py.to_Q r <= V + err)%Q.
Proof.
  intros Ha Hc Hb r V err.
  pose proof (product_digits ma mc Ha Hc) as Hd.
  pose proof (round_error prec emax Hprec Hemax (ma * mc) (ea + ec) ltac:(lia) ltac:(lia))
    as [Hshape Herr].
  cbv zeta in Hshape, Herr.
  assert (HV : (inject_Z (Z.pos (ma * mc)) * 2 ^ (ea + ec) == V)%Q).
  { unfold V, Py.to_Q. cbn [cond_Zopp]. rewrite Pos2Z.inj_mul, inject_Z_mult, two_pow_add.
    ring. }
  change (binary_round_aux prec emax false (Z.pos (ma * mc)) (ea + ec) loc_Exact)
    with r in Hshape, Herr.
  split.
  - destruct Hshape as [Hz|(m2 & e2 & Hr & Hm2 & He2)]; [left; exact Hz|right].
    exists m2, e2. split; [exact Hr|]. split; [exact Hm2|].
    rewrite (fexp_in prec emax) in He2. lia.
  - unfold err. rewrite <- HV. exact Herr.
Qed.

(** A product with a negative factor is a zero or negative. *)
Lemma mul_negative (ma : positive) (ea : Z) (mc : positive) (ec : Z) :
  Z.pos ma < 2 ^ prec -> Z.pos mc < 2 ^ prec ->
  ea + ec + 2 * prec + 1 <= emax ->
  let r := SFmul prec emax (S754_finite true ma ea) (S754_finite false mc ec) in
  r = S754_zero true
  \/ exists m2 e2,
       r = S754_finite true m2 e2 /\ Z.pos m2 < 2 ^ prec
       /\ e2 <= Z.max (ea + ec + prec) (3 - emax - prec) + 1.
Proof.
  intros Ha Hc Hb r.
  pose proof (product_digits ma mc Ha Hc) as Hd.
  pose proof (binary_round_aux_in prec emax Hprec Hemax true (ma * mc) (ea + ec)
                ltac:(lia) ltac:(lia)) as Haux.
  cbv zeta in Haux.
  change (binary_round_aux prec emax true (Z.pos (ma * mc)) (ea + ec) loc_Exact)
    with r in Haux.
  destruct Haux as [(Hr & _)|(m2 & e2 & Hr & Hm2 & He2 & _)]; [left; exact Hr|right].
  exists m2, e2. split; [exact Hr|]. split; [exact Hm2|].
  rewrite (fexp_in prec emax) in He2. lia.
Qed.

(** A number of the format of magnitude at most [2^20]. *)
Lemma bounded_base (P m : positive) (e : Z) (s : bool) :
  Z.pos P = 2 ^ (prec - 1) ->
  valid_binary prec emax (S754_finite s m e) = true ->
  SFleb (S754_finite false m e) (S754_finite false P (21 - prec)) = true ->
  Z.pos m < 2 ^ prec /\ e <= 21 - prec
  /\ (0 <= Py.to_Q (S754_finite false m e) <= 2 ^ 20)%Q.
Proof.
  intros HP Hvalid Hle. pose proof (pow2_prec prec Hprec) as Hp.
  apply (fleb_finite m e P (21 - prec)) in Hle.
  unfold valid_binary, bounded, canonical_mantissa in Hvalid.
  apply andb_prop in Hvalid as [Hcanon _]. apply Z.eqb_eq in Hcanon.
  rewrite (fexp_in prec emax) in Hcanon.
  pose proof (digits2_pos_bounds m) as [_ Dhi].
  assert (Hm : Z.pos m < 2 ^ prec).
  { apply Z.lt_le_trans with (1 := Dhi). apply Z.pow_le_mono_r; lia. }
  split; [exact Hm|]. split; [lia|].
  cbn [Py.to_Q cond_Zopp]. pose proof (two_pow_pos e) as He.
  split.
  { apply Qmult_le_0_compat; [|apply Qlt_le_weak, He].
    change 0%Q with (inject_Z 0). rewrite <- Zle_Qle. lia. }
  destruct Hle as [Hlt|[-> Hmp]].
  - apply Qle_trans with (inject_Z (2 ^ prec) * 2 ^ (20 - prec))%Q.
    + apply Qle_trans with (inject_Z (2 ^ prec) * 2 ^ e)%Q.
      * apply Qmult_le_compat_r; [|apply Qlt_le_weak, He]. rewrite <- Zle_Qle. lia.
      * apply Qmult_le_l; [|apply two_pow_le; lia].
        change 0%Q with (inject_Z 0). rewrite <- Zlt_Qlt. lia.
    + rewrite two_pow_inject, <- two_pow_add by lia.
      replace (prec + (20 - prec)) with 20 by lia. apply Qle_refl.
  - apply Qle_trans with (inject_Z (2 ^ (prec - 1)) * 2 ^ (21 - prec))%Q.
    + apply Qmult_le_compat_r; [|apply Qlt_le_weak, two_pow_pos]. rewrite <- Zle_Qle. lia.
    + rewrite two_pow_inject, <- two_pow_add by lia.
      replace (prec - 1 + (21 - prec)) with 20 by lia. apply Qle_refl.
Qed.

(** The two products of line 902 on a positive base prediction of
    magnitude at most [2^20] and two positive factors below 2: each is
    within one unit in the last place of the exact product. *)
Lemma adjusted_error (m : positive) (e : Z) (m1 : positive) (e1 : Z) (m2 : positive) (e2 : Z) :
  25 <= emax ->
  Z.pos m < 2 ^ prec -> e <= 21 - prec ->
  Z.pos m1 < 2 ^ prec -> e1 <= 1 - prec ->
  Z.pos m2 < 2 ^ prec -> e2 <= 1 - prec ->
  let y1 := SFmul prec emax (S754_finite false m e) (S754_finite false m1 e1) in
  let y := SFmul prec emax y1 (S754_finite false m2 e2) in
  let b := Py.to_Q (S754_finite false m e) in
  let q1 := Py.to_Q (S754_finite false m1 e1) in
  let q2 := Py.to_Q (S754_finite false m2 e2) in
  let u := (2 ^ (1 - prec))%Q in
  let eta := (2 ^ (3 - emax - prec))%Q in
  (y = S754_zero false \/ exists my ey, y = S754_finite false my ey)
  /\ (b * q1 - (u * (b * q1) + eta) <= Py.to_Q y1 <= b * q1 + (u * (b * q1) + eta))%Q
  /\ (Py.to_Q y1 * q2 - (u * (Py.to_Q y1 * q2) + eta) <= Py.to_Q y
      <= Py.to_Q y1 * q2 + (u * (Py.to_Q y1 * q2) + eta))%Q.
Proof.
  intros Hbig Hm He Hm1 He1 Hm2 He2 y1 y b q1 q2 u eta.
  pose proof (mul_error m e m1 e1 Hm Hm1 ltac:(lia)) as [Hshape1 Herr1].
  cbv zeta in Hshape1, Herr1. fold y1 in Hshape1, Herr1.
  fold b q1 u eta in Herr1.
  pose proof (two_pow_pos (3 - emax - prec)) as Heta. fold eta in Heta.
  destruct Hshape1 as [Hz|(my1 & ey1 & Hy1 & Hmy1 & Hey1)].
  - assert (Hy : y = S754_zero false) by (unfold y; rewrite Hz; reflexivity).
    split; [left; exact Hy|]. split; [exact Herr1|].
    rewrite Hy, Hz. cbn [Py.to_Q]. lra.
  - pose proof (mul_error my1 ey1 m2 e2 Hmy1 Hm2 ltac:(lia)) as [Hshape2 Herr2].
    cbv zeta in Hshape2, Herr2. rewrite <- Hy1 in Hshape2, Herr2.
    fold y in Hshape2, Herr2. fold q2 u eta in Herr2.
    split; [|split; [exact Herr1|exact Herr2]].
    destruct Hshape2 as [Hz|(my & ey & Hy & _)]; [left; exact Hz|right; eauto].
Qed.

(** On a negative base prediction the products are zero or negative. *)
Lemma adjusted_negative (m : positive) (e : Z) (m1 : positive) (e1 : Z)
    (m2 : positive) (e2 : Z) :
  25 <= emax ->
  Z.pos m < 2 ^ prec -> e <= 21 - prec ->
  Z.pos m1 < 2 ^ prec -> e1 <= 1 - prec ->
  Z.pos m2 < 2 ^ prec -> e2 <= 1 - prec ->
  let y := SFmul prec emax
             (SFmul prec emax (S754_finite true m e) (S754_finite false m1 e1))
             (S754_finite false m2 e2) in
  y = S754_zero true \/ exists my ey, y = S754_finite true my ey.
Proof.
  intros Hbig Hm He Hm1 He1 Hm2 He2 y.
  destruct (mul_negative m e m1 e1 Hm Hm1 ltac:(lia)) as [Hz|(my1 & ey1 & Hy1 & Hmy1 & Hey1)].
  - left. unfold y. rewrite Hz. reflexivity.
  - destruct (mul_negative my1 ey1 m2 e2 Hmy1 Hm2 ltac:(lia)) as [Hz|(my & ey & Hy & _)];
      rewrite <- Hy1 in *; [left; exact Hz|right; eauto].
Qed.

End Products.

Section Floors.

(** [floor] is the floor of the rational. *)
Lemma floor_to_Q (x : spec_float) : Py.floor x = Qfloor (Py.to_Q x).
Proof.
  destruct x as [s|s| |s m e]; try reflexivity.
  cbn [Py.floor Py.to_Q].
  destruct (Z.leb_spec 0 e) as [He|He].
  - assert (Heq : (inject_Z (cond_Zopp s (Z.pos m)) * 2 ^ e
                   == inject_Z (cond_Zopp s (Z.pos m * 2 ^ e)))%Q).
    { rewrite <- two_pow_inject, <- inject_Z_mult by exact He.
      destruct s; cbn [cond_Zopp]; f_equiv; lia. }
    rewrite Heq, Qfloor_Z. reflexivity.
  - destruct e as [|k|k]; try lia.
    assert (Hpos : 0 < 2 ^ Z.pos k) by (apply Z.pow_pos_nonneg; lia).
    assert (Heq : (inject_Z (cond_Zopp s (Z.pos m)) * 2 ^ Z.neg k
                   == cond_Zopp s (Z.pos m) # Z.to_pos (2 ^ Z.pos k))%Q).
    { change (Z.neg k) with (- Z.pos k). rewrite Qpower_opp, <- two_pow_inject by lia.
      destruct (2 ^ Z.pos k) as [|p|p] eqn:Hp; try lia.
      unfold Qeq, inject_Z, Qinv, Qmult. cbn. lia. }
    rewrite Heq. cbn [Qfloor]. change (- Z.neg k) with (Z.pos k).
    rewrite Z2Pos.id by exact Hpos. reflexivity.
Qed.

End Floors.

(** Two rationals less than 1 apart have floors at most 1 apart. *)
Lemma floors_near (x y : Q) :
  (x - 1 < y)%Q -> (y < x + 1)%Q ->
  Z.abs (Z.max 0 (Qfloor y) - Z.max 0 (Qfloor x)) <= 1.
Proof.
  intros Hlo Hhi.
  pose proof (Qfloor_le x) as Hx1. pose proof (Qlt_floor x) as Hx2.
  pose proof (Qfloor_le y) as Hy1. pose proof (Qlt_floor y) as Hy2.
  rewrite inject_Z_plus in Hx2, Hy2. change (inject_Z 1) with 1%Q in Hx2, Hy2.
  assert (H1 : Qfloor y < Qfloor x + 2).
  { rewrite Zlt_Qlt, inject_Z_plus. change (inject_Z 2) with 2%Q. lra. }
  assert (H2 : Qfloor x < Qfloor y + 2).
  { rewrite Zlt_Qlt, inject_Z_plus. change (inject_Z 2) with 2%Q. lra. }
  lia.
Qed.

Lemma floor_nonpositive (x : Q) : (x <= 0)%Q -> Z.max 0 (Qfloor x) = 0.
Proof.
  intros Hx. pose proof (Qfloor_le x) as Hx1.
  assert (Qfloor x <= 0) by (rewrite Zle_Qle; change (inject_Z 0) with 0%Q; lra).
  lia.
Qed.

Lemma to_Q_negative (m : positive) (e : Z) : (Py.to_Q (S754_finite true m e) < 0)%Q.
Proof.
  cbn [Py.to_Q cond_Zopp]. pose proof (two_pow_pos e) as He.
  assert (Hm : (0 < inject_Z (Z.pos m))%Q).
  { change 0%Q with (inject_Z 0). rewrite <- Zlt_Qlt. lia. }
  pose proof (Qmult_lt_0_compat _ _ Hm He) as Hpos.
  change (Z.neg m) with (- Z.pos m). rewrite inject_Z_opp. lra.
Qed.

Ltac compute_closed t :=
  let v := eval vm_compute in t in change t with v in *.

(** One case of the comparison: the format, the tier and the index are
    fixed, the base prediction is positive. *)
Ltac near_positive prec emax P m e Hvalid Hle y :=
  let Hm := fresh "Hm" in
  let He := fresh "He" in
  let Hb := fresh "Hb" in
  let Hshape := fresh "Hshape" in
  let Herr1 := fresh "Herr1" in
  let Herr2 := fresh "Herr2" in
  destruct (bounded_base prec emax ltac:(lia) ltac:(lia) P m e false eq_refl Hvalid Hle)
    as (Hm & He & Hb);
  unfold App.adjusted_in, Py.mul_in in y; cbn [Py.precision Py.exponent_max] in y;
  match goal with
  | y := SFmul _ _ (SFmul _ _ _ ?c1) ?c2 |- _ =>
      compute_closed c1; compute_closed c2
  end;
  match goal with
  | y := SFmul _ _ (SFmul _ _ _ (S754_finite false ?m1 ?e1)) (S754_finite false ?m2 ?e2) |- _ =>
      pose proof (adjusted_error prec emax ltac:(lia) ltac:(lia) m e m1 e1 m2 e2
                    ltac:(lia) Hm He
                    ltac:(vm_compute; reflexivity) ltac:(vm_compute; discriminate)
                    ltac:(vm_compute; reflexivity) ltac:(vm_compute; discriminate))
        as (Hshape & Herr1 & Herr2);
      cbv zeta in Hshape, Herr1, Herr2;
      compute_closed (Py.to_Q (S754_finite false m1 e1));
      compute_closed (Py.to_Q (S754_finite false m2 e2))
  end;
  compute_closed (2 ^ (1 - prec))%Q; compute_closed (2 ^ (3 - emax - prec))%Q;
  compute_closed (2 ^ 20)%Q;
  fold y in Hshape, Herr2;
  split;
  [ destruct Hshape as [->|(? & ? & ->)]; reflexivity
  | rewrite floor_to_Q; unfold Spec.predictedCases;
    unfold Spec.populationFactor, Spec.healthcareFactor;
    set (b := Py.to_Q (S754_finite false m e)) in *; clearbody b;
    set (ty := Py.to_Q y) in *; clearbody ty;
    match type of Herr1 with (_ <= ?t <= _)%Q => set (ty1 := t) in *; clearbody ty1 end;
    apply floors_near; lra ].

(** The same on a negative base prediction: both counts are 0. *)
Ltac near_negative prec emax P m e Hvalid Hle y :=
  let Hm := fresh "Hm" in
  let He := fresh "He" in
  let Hb := fresh "Hb" in
  let Hshape := fresh "Hshape" in
  destruct (bounded_base prec emax ltac:(lia) ltac:(lia) P m e true eq_refl Hvalid Hle)
    as (Hm & He & Hb);
  unfold App.adjusted_in, Py.mul_in in y; cbn [Py.precision Py.exponent_max] in y;
  match goal with
  | y := SFmul _ _ (SFmul _ _ _ ?c1) ?c2 |- _ =>
      compute_closed c1; compute_closed c2
  end;
  match goal with
  | y := SFmul _ _ (SFmul _ _ _ (S754_finite false ?m1 ?e1)) (S754_finite false ?m2 ?e2) |- _ =>
      pose proof (adjusted_negative prec emax ltac:(lia) ltac:(lia) m e m1 e1 m2 e2
                    ltac:(lia) Hm He
                    ltac:(vm_compute; reflexivity) ltac:(vm_compute; discriminate)
                    ltac:(vm_compute; reflexivity) ltac:(vm_compute; discriminate))
        as Hshape;
      cbv zeta in Hshape
  end;
  fold y in Hshape;
  pose proof (to_Q_negative m e);
  split;
  [ destruct Hshape as [->|(? & ? & ->)]; reflexivity
  | rewrite floor_to_Q; unfold Spec.predictedCases;
    unfold Spec.populationFactor, Spec.healthcareFactor;
    rewrite (floor_nonpositive (Py.to_Q y))
      by (destruct Hshape as [->|(my & ey & ->)];
          [cbn [Py.to_Q]; lra|apply Qlt_le_weak, to_Q_negative]);
    rewrite floor_nonpositive
      by (set (b := Py.to_Q (S754_finite true m e)) in *; clearbody b; lra);
    lia ].

Ltac near_case prec emax P base Hvalid Hle :=
  match goal with
  | |- let y := _ in _ =>
      intros y;
      destruct base as [s|s| |s m e];
      [ destruct s; (vm_compute; split; [reflexivity|discriminate])
      | destruct s; discriminate Hle
      | discriminate Hle
      | destruct s;
        [ near_negative prec emax P m e Hvalid Hle y
        | near_positive prec emax P m e Hvalid Hle y ] ]
  end.

Lemma adjusted_in_near (f : Py.format) (base : spec_float) (t : Spec.populationTier)
    (h : Z) :
  Py.valid_in f base = true ->
  Py.fleb (Py.fabs base) (Py.pow2_in f 20) = true ->
  1 <= h <= 10 ->
  let y := App.adjusted_in f base
             match t with
             | Spec.Small => Py.f0_7 | Spec.Medium => Py.f1_0 | Spec.Large => Py.f1_5
             end h in
  Py.is_finite y = true
  /\ Z.abs (Z.max 0 (Py.floor y) - Spec.predictedCases (Py.to_Q base) t h) <= 1.
Proof.
  intros Hvalid Hle Hh.
  assert (Hcases : h = 1 \/ h = 2 \/ h = 3 \/ h = 4 \/ h = 5 \/ h = 6 \/ h = 7
                   \/ h = 8 \/ h = 9 \/ h = 10) by lia.
  clear Hh.
  destruct f.
  - destruct t;
      repeat (destruct Hcases as [->|Hcases];
              [near_case 24 128 8388608%positive base Hvalid Hle|]);
      subst h; near_case 24 128 8388608%positive base Hvalid Hle.
  - destruct t;
      repeat (destruct Hcases as [->|Hcases];
              [near_case 53 1024 4503599627370496%positive base Hvalid Hle|]);
      subst h; near_case 53 1024 4503599627370496%positive base Hvalid Hle.
Qed.

(** C6, as stated, fails in both formats: the count is the floor of a
    rounded product, not of the exact one. In binary64 a base prediction
    of 30 with a large population and a healthcare index of 10 gives 8
    where the formula gives 9; in binary32 the base prediction just below
    30 with a medium population and a healthcare index of 9 gives 9 where
    the formula gives 8. *)
Lemma rounded_product_is_not_exact :
  (Py.valid_in Py.Binary64 (Py.of_int_in Py.Binary64 30) = true
   /\ App.final_prediction_in Py.Binary64 (Py.of_int_in Py.Binary64 30)
        (Spec.tier_option Spec.Large) 10 = Py.Ok 8
   /\ Spec.predictedCases (Py.to_Q (Py.of_int_in Py.Binary64 30)) Spec.Large 10 = 9)
  /\ (Py.valid_in Py.Binary32 Samples.just_below_30 = true
      /\ App.final_prediction_in Py.Binary32 Samples.just_below_30
           (Spec.tier_option Spec.Medium) 9 = Py.Ok 9
      /\ Spec.predictedCases (Py.to_Q Samples.just_below_30) Spec.Medium 9 = 8).
Proof. vm_compute. repeat split; reflexivity. Qed.

(** C6, amended. In either format, for every base prediction of
    magnitude at most [2^20] (negative ones included), population tier
    and healthcare index from 1 to 10, the post-processor returns
    [max(0, floor(x))] of the product [x] rounded in the format: a
    non-negative integer, which is the count of the specification's
    formula over exact numbers or differs from it by one. *)
Theorem final_prediction_near_formula (f : Py.format) (base_prediction : spec_float)
    (t : Spec.populationTier) (healthcare_index : Z) :
  Py.valid_in f base_prediction = true ->
  Py.fleb (Py.fabs base_prediction) (Py.pow2_in f 20) = true ->
  1 <= healthcare_index <= 10 ->
  exists population_factor n,
    App.population_factors !! Spec.tier_option t = Some population_factor
    /\ App.final_prediction_in f base_prediction (Spec.tier_option t) healthcare_index
       = Py.Ok n
    /\ n = Z.max 0 (Py.floor (App.adjusted_in f base_prediction population_factor
                                healthcare_index))
    /\ 0 <= n
    /\ Z.abs (n - Spec.predictedCases (Py.to_Q base_prediction) t healthcare_index) <= 1.
Proof.
  intros Hvalid Hle Hh.
  pose proof (adjusted_in_near f base_prediction t healthcare_index Hvalid Hle Hh)
    as [Hfin Hnear].
  eexists _, _. split; [apply population_factor_of_tier|].
  unfold App.final_prediction_in, Py.getitem. rewrite population_factor_of_tier.
  cbn [Py.bind]. rewrite (clamp_int_of_float _ Hfin).
  split; [reflexivity|]. split; [reflexivity|]. split; [lia|exact Hnear].
Qed.

Lemma final_prediction_near_formula_witness :
  exists population_factor n,
    App.population_factors !! Spec.tier_option Spec.Medium = Some population_factor
    /\ App.final_prediction_in Py.Binary32 Samples.just_below_30
         (Spec.tier_option Spec.Medium) 9 = Py.Ok n
    /\ n = Z.max 0 (Py.floor (App.adjusted_in Py.Binary32 Samples.just_below_30
                                population_factor 9))
    /\ 0 <= n
    /\ Z.abs (n - Spec.predictedCases (Py.to_Q Samples.just_below_30) Spec.Medium 9) <= 1.
Proof.
  apply (final_prediction_near_formula Py.Binary32 Samples.just_below_30 Spec.Medium 9);
    [reflexivity|reflexivity|lia].
Defined.

(** A negative base prediction is clamped to 0 cases. *)
Example negative_base_is_clamped :
  App.final_prediction Samples.minus_thirty (Spec.tier_option Spec.Large) 10 = Py.Ok 0
  /\ Py.floor (App.adjusted Samples.minus_thirty Py.f1_5 10) = -9.
Proof. vm_compute. split; reflexivity. Qed.

(* ===================================================================== *)
(** * Further properties: the detection page *)
(* ===================================================================== *)

Section DetectionRuns.
Import Py App.

Lemma detection_page_model (models : models_status) (model : Classifier) (inp : inputs) :
  detection_model models = Some model ->
  detection_page models inp = detection_page (Spec.with_classifier model) inp.
Proof. intros Hm. unfold detection_page, Spec.with_classifier. cbn. rewrite Hm. reflexivity. Qed.

(** The run of the page on a decoded upload, after the guard. *)
Lemma detection_page_uploaded (model : Classifier) (inp : inputs) (image : Image)
    (w w1 : world) :
  uploaded_file inp = Some (Ok image) ->
  submit_image image w = (Done (get_image_hash image), w1) ->
  detection_page (Spec.with_classifier model) inp w
  = try_except
      (if negb (analysis_done (session w1)) then
         if st_button inp Analyser then
           run_analysis image (get_image_hash image) model inp
         else ret tt
       else show_results inp)
      (fun e => st_error ("❌ Erreur lors du traitement de l'image: " ++ e)) w1.
Proof.
  intros Hup Hsub. unfold detection_page, Spec.with_classifier. cbn [detection_model].
  rewrite Hup. unfold try_except, mbind at 1. cbn [lift]. unfold mbind at 1.
  rewrite Hsub. unfold mbind, get_session. reflexivity.
Qed.

(** The guard always returns the fingerprint, and leaves a world that is
    the old one or the old one cleared. *)
Lemma submit_image_cases (image : Image) (w : world) :
  (analysis_done (session w) = true
   /\ analyzed_image_hash (session w) = Some (get_image_hash image)
   /\ submit_image image w = (Done (get_image_hash image), w))
  \/ submit_image image w
     = (Done (get_image_hash image),
        {| session := Spec.cleared (session w); inferences := inferences w; ui := ui w |}).
Proof.
  destruct (analysis_done (session w)) eqn:Hdone.
  - destruct (decide (analyzed_image_hash (session w) = Some (get_image_hash image))) as [Hh|Hh].
    + left. repeat split; try assumption. apply submit_image_same; assumption.
    + right. apply submit_image_other. right. exact Hh.
  - right. apply submit_image_other. left. exact Hdone.
Qed.

(** The handler of the analysis button never raises: it ends the run
    normally or asks for a rerun, and invokes the classifier once. *)
Lemma run_analysis_cases (image : Image) (h : string) (model : Classifier)
    (inp : inputs) (w : world) :
  exists c w', run_analysis image h model inp w = (c, w')
    /\ (c = Done tt \/ c = Rerun)
    /\ inferences w' = inferences w ++ [image].
Proof.
  unfold run_analysis, process_image_prediction, mbind, invoke.
  destruct (model image) as [p|msg]; [eexists _, _; split; [reflexivity|]; cbn; auto|].
  destruct msg as [|c msg]; eexists _, _; (split; [reflexivity|]); cbn; auto.
Qed.

Lemma show_results_inferences (inp : inputs) (w : world) :
  inferences (show_results inp w).2 = inferences w.
Proof.
  unfold show_results, mbind, get_session, not_none, show, ret.
  destruct (prediction_result (session w)); [|reflexivity].
  destruct (analysis_timestamp (session w)); [|reflexivity].
  cbn [session inferences ui].
  destruct (confidence_score (session w)); [|reflexivity].
  destruct (st_button inp NouvelleAnalyse); reflexivity.
Qed.

End DetectionRuns.



(** X2. Uploading an image whose fingerprint is not the stored one,
    without a click on the analysis button, clears the stored analysis
    (whatever it was) and does nothing else: no classifier call, nothing
    shown. *)
Theorem new_fingerprint_clears (models : App.models_status) (model : App.Classifier)
    (inp : App.inputs) (image : App.Image) (w : App.world) :
  App.detection_model models = Some model ->
  App.uploaded_file inp = Some (Py.Ok image) ->
  App.analyzed_image_hash (App.session w) <> Some (App.get_image_hash image) ->
  App.st_button inp App.Analyser = false ->
  App.detection_page models inp w
  = (App.Done tt, {| App.session := Spec.cleared (App.session w);
                     App.inferences := App.inferences w;
                     App.ui := App.ui w |}).
Proof.
  intros Hm Hup Hhash Hbtn. rewrite (detection_page_model models model inp Hm).
  rewrite (detection_page_uploaded model inp image w _ Hup
             (submit_image_other image w (or_intror Hhash))).
  unfold App.try_except. cbn [App.session Spec.cleared App.analysis_done negb].
  rewrite Hbtn. reflexivity.
Qed.

Lemma new_fingerprint_clears_witness :
  App.detection_page (Spec.with_classifier Samples.answers_half)
    (Samples.upload Samples.two_by_one None) Samples.analysed
  = (App.Done tt, {| App.session := Spec.cleared (App.session Samples.analysed);
                     App.inferences := App.inferences Samples.analysed;
                     App.ui := App.ui Samples.analysed |}).
Proof.
  apply (new_fingerprint_clears (Spec.with_classifier Samples.answers_half)
           Samples.answers_half (Samples.upload Samples.two_by_one None)
           Samples.two_by_one Samples.analysed);
    [reflexivity|reflexivity|vm_compute; discriminate|reflexivity].
Defined.

(** X3. A run of the detection page invokes the classifier at most once,
    and only for a click on the analysis button: the list of invocations
    is unchanged, or the button was clicked and the uploaded image was
    added to it. *)
Theorem classifier_invoked_on_click_only (models : App.models_status)
    (inp : App.inputs) (w : App.world) :
  App.inferences (App.detection_page models inp w).2 = App.inferences w
  \/ (App.st_button inp App.Analyser = true
      /\ exists image,
           App.uploaded_file inp = Some (Py.Ok image)
           /\ App.inferences (App.detection_page models inp w).2
              = App.inferences w ++ [image]).
Proof.
  destruct (App.detection_model models) as [model|] eqn:Hm;
    [|left; unfold App.detection_page; rewrite Hm; reflexivity].
  rewrite (detection_page_model models model inp Hm).
  destruct (App.uploaded_file inp) as [[image|msg]|] eqn:Hup;
    [| left; unfold App.detection_page; cbn; rewrite Hup; reflexivity
     | left; unfold App.detection_page; cbn; rewrite Hup; reflexivity].
  assert (Hsub : exists w1, App.submit_image image w = (App.Done (App.get_image_hash image), w1)
                            /\ App.inferences w1 = App.inferences w).
  { destruct (submit_image_cases image w) as [(_ & _ & H)|H]; eexists; split;
      try exact H; reflexivity. }
  destruct Hsub as (w1 & Hsub & Hlog).
  rewrite (detection_page_uploaded model inp image w w1 Hup Hsub).
  unfold App.try_except.
  destruct (App.analysis_done (App.session w1)); cbn [negb].
  - left. pose proof (show_results_inferences inp w1) as Hshow.
    destruct (App.show_results inp w1) as [[a|m| |] w2];
      unfold App.st_error, App.show; cbn [snd App.inferences] in *; congruence.
  - destruct (App.st_button inp App.Analyser) eqn:Hbtn; [right|left; exact Hlog].
    split; [reflexivity|]. exists image. split; [reflexivity|].
    destruct (run_analysis_cases image (App.get_image_hash image) model inp w1)
      as (c & w2 & -> & [->| ->] & Hinf); cbn [snd]; congruence.
Qed.

(** X4. An upload that does not decode to an image is reported and
    changes nothing: the error box carries the decoder's message, the
    session is as before, the classifier is not invoked. *)
Theorem decode_failure_is_reported (models : App.models_status) (model : App.Classifier)
    (inp : App.inputs) (msg : string) (w : App.world) :
  App.detection_model models = Some model ->
  App.uploaded_file inp = Some (Py.Raise msg) ->
  App.detection_page models inp w
  = (App.Done tt,
     {| App.session := App.session w;
        App.inferences := App.inferences w;
        App.ui := App.ui w ++ [App.UiError ("❌ Erreur lors du traitement de l'image: " ++ msg)] |}).
Proof.
  intros Hm Hup. unfold App.detection_page. rewrite Hm, Hup. reflexivity.
Qed.

Lemma decode_failure_is_reported_witness :
  App.detection_page (Spec.with_classifier Samples.answers_half)
    (Facts.undecodable (Some App.Analyser)) Samples.analysed
  = (App.Done tt,
     {| App.session := App.session Samples.analysed;
        App.inferences := App.inferences Samples.analysed;
        App.ui := App.ui Samples.analysed
                  ++ [App.UiError ("❌ Erreur lors du traitement de l'image: "
                                   ++ "cannot identify image file")] |}).
Proof.
  apply (decode_failure_is_reported (Spec.with_classifier Samples.answers_half)
           Samples.answers_half (Facts.undecodable (Some App.Analyser))
           "cannot identify image file" Samples.analysed); reflexivity.
Defined.

(** X5. Analysis, then display: on a session that is not complete, a
    click on the analysis button with a classifier that answers [p]
    stores the analysis and asks for a rerun; the next run with the same
    image shows the verdict (positive iff [p >= 0.5]) with the score and
    the gauge with the confidence, without another classifier call. *)
Theorem analyse_then_show (models : App.models_status) (model : App.Classifier)
    (inp inp' : App.inputs) (image : App.Image) (p : spec_float) (w : App.world) :
  App.detection_model models = Some model ->
  App.uploaded_file inp = Some (Py.Ok image) ->
  App.uploaded_file inp' = Some (Py.Ok image) ->
  App.analysis_done (App.session w) = false ->
  App.st_button inp App.Analyser = true ->
  App.st_button inp' App.NouvelleAnalyse = false ->
  model image = Py.Ok p ->
  exists w1,
    App.detection_page models inp w = (App.Rerun, w1)
    /\ App.inferences w1 = App.inferences w ++ [image]
    /\ App.ui w1 = App.ui w
    /\ App.detection_page models inp' w1
       = (App.Done tt,
          {| App.session := App.session w1;
             App.inferences := App.inferences w1;
             App.ui := App.ui w1 ++ [App.UiDetection (Py.fleb Py.f0_5 p) p;
                                     App.UiGauge (App.confidence p)] |}).
Proof.
  intros Hm Hup Hup' Hdone Hbtn Hbtn' Hmodel.
  rewrite !(detection_page_model models model _ Hm).
  rewrite (detection_page_uploaded model inp image w _ Hup
             (submit_image_other image w (or_introl Hdone))).
  unfold App.try_except at 1. cbn [App.session Spec.cleared App.analysis_done negb].
  rewrite Hbtn, (run_analysis_success _ _ _ _ _ _ Hmodel).
  eexists. split; [reflexivity|]. split; [reflexivity|]. split; [reflexivity|].
  erewrite detection_page_uploaded; [|exact Hup'|apply submit_image_same; reflexivity].
  unfold App.try_except, App.show_results, App.mbind, App.get_session, App.not_none,
    App.show, App.ret.
  cbn [App.session App.analysis_done App.prediction_result App.analysis_timestamp
       App.confidence_score App.inferences App.ui negb].
  rewrite Hbtn'. rewrite <- app_assoc. reflexivity.
Qed.

Lemma analyse_then_show_witness :
  exists w1,
    App.detection_page (Spec.with_classifier Samples.answers_half)
      (Samples.upload Samples.red_pixel (Some App.Analyser)) Samples.fresh
    = (App.Rerun, w1)
    /\ App.inferences w1 = App.inferences Samples.fresh ++ [Samples.red_pixel]
    /\ App.ui w1 = App.ui Samples.fresh
    /\ App.detection_page (Spec.with_classifier Samples.answers_half)
         (Samples.upload Samples.red_pixel None) w1
       = (App.Done tt,
          {| App.session := App.session w1;
             App.inferences := App.inferences w1;
             App.ui := App.ui w1 ++ [App.UiDetection (Py.fleb Py.f0_5 Py.f0_5) Py.f0_5;
                                     App.UiGauge (App.confidence Py.f0_5)] |}).
Proof.
  apply (analyse_then_show (Spec.with_classifier Samples.answers_half)
           Samples.answers_half (Samples.upload Samples.red_pixel (Some App.Analyser))
           (Samples.upload Samples.red_pixel None) Samples.red_pixel Py.f0_5
           Samples.fresh); reflexivity.
Defined.

(** X6. On a complete session whose results can be shown, a click on
    the new-analysis button shows the results once more, clears the
    stored analysis and asks for a rerun; the classifier is not invoked. *)
Theorem new_analysis_resets (models : App.models_status) (model : App.Classifier)
    (inp : App.inputs) (image : App.Image) (p c : spec_float) (t : App.datetime)
    (w : App.world) :
  App.detection_model models = Some model ->
  App.uploaded_file inp = Some (Py.Ok image) ->
  App.st_button inp App.NouvelleAnalyse = true ->
  App.analysis_done (App.session w) = true ->
  App.analyzed_image_hash (App.session w) = Some (App.get_image_hash image) ->
  App.prediction_result (App.session w) = Some p ->
  App.confidence_score (App.session w) = Some c ->
  App.analysis_timestamp (App.session w) = Some t ->
  App.detection_page models inp w
  = (App.Rerun,
     {| App.session := Spec.cleared (App.session w);
        App.inferences := App.inferences w;
        App.ui := App.ui w ++ [App.UiDetection (Py.fleb Py.f0_5 p) p; App.UiGauge c] |}).
Proof.
  intros Hm Hup Hbtn Hdone Hhash Hp Hc Ht.
  rewrite (detection_page_model models model inp Hm).
  rewrite (detection_page_uploaded model inp image w w Hup
             (submit_image_same image w Hdone Hhash)).
  rewrite Hdone. cbn [negb].
  unfold App.try_except, App.show_results, App.mbind, App.get_session, App.not_none,
    App.show, App.ret.
  rewrite Hp, Ht. cbn [App.session App.inferences App.ui]. rewrite Hc, Hbtn.
  cbn [App.session App.inferences App.ui]. rewrite <- app_assoc. reflexivity.
Qed.

Lemma new_analysis_resets_witness :
  App.detection_page (Spec.with_classifier Samples.answers_half)
    (Samples.upload Samples.red_pixel (Some App.NouvelleAnalyse)) Samples.analysed
  = (App.Rerun,
     {| App.session := Spec.cleared (App.session Samples.analysed);
        App.inferences := App.inferences Samples.analysed;
        App.ui := App.ui Samples.analysed
                  ++ [App.UiDetection (Py.fleb Py.f0_5 Py.f0_5) Py.f0_5;
                      App.UiGauge Py.f0_5] |}).
Proof.
  apply (new_analysis_resets (Spec.with_classifier Samples.answers_half)
           Samples.answers_half
           (Samples.upload Samples.red_pixel (Some App.NouvelleAnalyse))
           Samples.red_pixel Py.f0_5 Py.f0_5 1730678400 Samples.analysed);
    vm_compute; reflexivity.
Defined.

(** X7. On a session that is not complete, a click on the analysis
    button with a classifier that fails with a non-empty message shows
    that message in an error box and stores nothing: the run ends
    normally with the analysis fields cleared, and the invocation is
    counted. *)
Theorem reported_failure_stores_nothing (models : App.models_status)
    (model : App.Classifier) (inp : App.inputs) (image : App.Image) (msg : string)
    (w : App.world) :
  App.detection_model models = Some model ->
  App.uploaded_file inp = Some (Py.Ok image) ->
  App.analysis_done (App.session w) = false ->
  App.st_button inp App.Analyser = true ->
  model image = Py.Raise msg -> msg <> ""%string ->
  App.detection_page models inp w
  = (App.Done tt,
     {| App.session := Spec.cleared (App.session w);
        App.inferences := App.inferences w ++ [image];
        App.ui := App.ui w ++ [App.UiError ("❌ Erreur lors de l'analyse: " ++ msg)] |}).
Proof.
  intros Hm Hup Hdone Hbtn Hmodel Hmsg.
  rewrite (detection_page_model models model inp Hm).
  rewrite (detection_page_uploaded model inp image w _ Hup
             (submit_image_other image w (or_introl Hdone))).
  unfold App.try_except. cbn [App.session Spec.cleared App.analysis_done negb].
  rewrite Hbtn, (run_analysis_reported _ _ _ _ _ _ Hmodel Hmsg). reflexivity.
Qed.

Lemma reported_failure_stores_nothing_witness :
  App.detection_page (Spec.with_classifier Samples.fails_loudly)
    (Samples.upload Samples.red_pixel (Some App.Analyser)) Samples.fresh
  = (App.Done tt,
     {| App.session := Spec.cleared (App.session Samples.fresh);
        App.inferences := App.inferences Samples.fresh ++ [Samples.red_pixel];
        App.ui := App.ui Samples.fresh
                  ++ [App.UiError ("❌ Erreur lors de l'analyse: " ++ "out of memory")] |}).
Proof.
  apply (reported_failure_stores_nothing (Spec.with_classifier Samples.fails_loudly)
           Samples.fails_loudly (Samples.upload Samples.red_pixel (Some App.Analyser))
           Samples.red_pixel "out of memory" Samples.fresh);
    try reflexivity. discriminate.
Defined.

(** X8. A session marked complete with no stored score is stuck for its
    image: with that image uploaded, every run, whatever is clicked, ends
    in the error box of the comparison of [None] with a float, changes
    nothing in the session and never invokes the classifier. *)
Theorem complete_without_score_is_stuck (models : App.models_status)
    (model : App.Classifier) (inp : App.inputs) (image : App.Image) (w : App.world) :
  App.detection_model models = Some model ->
  App.uploaded_file inp = Some (Py.Ok image) ->
  App.analysis_done (App.session w) = true ->
  App.analyzed_image_hash (App.session w) = Some (App.get_image_hash image) ->
  App.prediction_result (App.session w) = None ->
  App.detection_page models inp w
  = (App.Done tt,
     {| App.session := App.session w;
        App.inferences := App.inferences w;
        App.ui := App.ui w
                  ++ [App.UiError ("❌ Erreur lors du traitement de l'image: "
                                   ++ Facts.none_comparison)] |}).
Proof.
  intros Hm Hup Hdone Hhash Hp.
  rewrite (detection_page_model models model inp Hm).
  rewrite (detection_page_uploaded model inp image w w Hup
             (submit_image_same image w Hdone Hhash)).
  rewrite Hdone. cbn [negb].
  unfold App.try_except, App.show_results, App.mbind, App.get_session, App.not_none.
  rewrite Hp. reflexivity.
Qed.

Lemma complete_without_score_is_stuck_witness :
  App.detection_page (Spec.with_classifier Samples.answers_half)
    (Samples.upload Samples.red_pixel (Some App.NouvelleAnalyse)) Facts.broken
  = (App.Done tt,
     {| App.session := App.session Facts.broken;
        App.inferences := App.inferences Facts.broken;
        App.ui := App.ui Facts.broken
                  ++ [App.UiError ("❌ Erreur lors du traitement de l'image: "
                                   ++ Facts.none_comparison)] |}).
Proof.
  apply (complete_without_score_is_stuck (Spec.with_classifier Samples.answers_half)
           Samples.answers_half
           (Samples.upload Samples.red_pixel (Some App.NouvelleAnalyse))
           Samples.red_pixel Facts.broken); vm_compute; reflexivity.
Defined.

(** X9. The fingerprint does not see the size of an image: once an
    image is analysed, an image of any size with the same pixel bytes is
    taken for it. The run shows the stored verdict, score and gauge for
    the new image, keeps the session as it is and does not invoke the
    classifier. *)
Theorem same_bytes_same_analysis (models : App.models_status) (model : App.Classifier)
    (inp : App.inputs) (a b : App.Image) (p c : spec_float) (t : App.datetime)
    (w : App.world) :
  App.detection_model models = Some model ->
  App.tobytes a = App.tobytes b ->
  App.uploaded_file inp = Some (Py.Ok b) ->
  App.st_button inp App.NouvelleAnalyse = false ->
  App.analysis_done (App.session w) = true ->
  App.analyzed_image_hash (App.session w) = Some (App.get_image_hash a) ->
  App.prediction_result (App.session w) = Some p ->
  App.confidence_score (App.session w) = Some c ->
  App.analysis_timestamp (App.session w) = Some t ->
  App.detection_page models inp w
  = (App.Done tt,
     {| App.session := App.session w;
        App.inferences := App.inferences w;
        App.ui := App.ui w ++ [App.UiDetection (Py.fleb Py.f0_5 p) p; App.UiGauge c] |}).
Proof.
  intros Hm Hbytes Hup Hbtn Hdone Hhash Hp Hc Ht.
  rewrite (detection_page_model models model inp Hm).
  assert (Hhash' : App.analyzed_image_hash (App.session w) = Some (App.get_image_hash b)).
  { rewrite Hhash. unfold App.get_image_hash. rewrite Hbytes. reflexivity. }
  rewrite (detection_page_uploaded model inp b w w Hup
             (submit_image_same b w Hdone Hhash')).
  rewrite Hdone. cbn [negb].
  unfold App.try_except, App.show_results, App.mbind, App.get_session, App.not_none,
    App.show, App.ret.
  rewrite Hp, Ht. cbn [App.session App.inferences App.ui]. rewrite Hc, Hbtn.
  cbn [App.session App.inferences App.ui]. rewrite <- app_assoc. reflexivity.
Qed.

Lemma same_bytes_same_analysis_witness :
  App.detection_page (Spec.with_classifier Samples.answers_half)
    (Samples.upload Samples.one_by_two None) Facts.analysed_two_by_one
  = (App.Done tt,
     {| App.session := App.session Facts.analysed_two_by_one;
        App.inferences := App.inferences Facts.analysed_two_by_one;
        App.ui := App.ui Facts.analysed_two_by_one
                  ++ [App.UiDetection (Py.fleb Py.f0_5 Py.f0_5) Py.f0_5;
                      App.UiGauge Py.f0_5] |}).
Proof.
  apply (same_bytes_same_analysis (Spec.with_classifier Samples.answers_half)
           Samples.answers_half (Samples.upload Samples.one_by_two None)
           Samples.two_by_one Samples.one_by_two Py.f0_5 Py.f0_5 1730678400
           Facts.analysed_two_by_one);
    vm_compute; reflexivity.
Defined.

(* ===================================================================== *)
(** * Further properties: confidence and verdict *)
(* ===================================================================== *)

Section Verdict.
Import Py App.

Lemma binary_round_aux_keep (s : bool) (M : positive) (e : Z) :
  fexp prec emax (Z.pos (digits2_pos M) + e) <= e -> e <= 971 ->
  binary_round_aux prec emax s (Z.pos M) e loc_Exact = S754_finite s M e.
Proof.
  intros Hkeep He. unfold binary_round_aux.
  rewrite (shr_fexp_keep M e Hkeep).
  cbn [shr_m loc_of_shr_record round_nearest_even].
  rewrite (shr_fexp_keep M e Hkeep). cbn [shr_m].
  destruct (Z.leb_spec e (emax - prec)); [reflexivity|unfold emax, prec in *; lia].
Qed.

Lemma digits_aligned (M k : positive) :
  Z.pos k = 53 - Z.pos (digits2_pos M) ->
  Z.pos (digits2_pos (Pos.iter xO M k)) = 53.
Proof.
  intros Hk. pose proof (digits2_pos_bounds M) as [HMlo HMhi].
  set (d := Z.pos (digits2_pos M)) in *.
  apply digits2_pos_unique. rewrite iter_xO.
  assert (E1 : 2 ^ (53 - 1) = 2 ^ (d - 1) * 2 ^ Z.pos k)
    by (rewrite <- Z.pow_add_r by lia; f_equal; lia).
  assert (E2 : 2 ^ 53 = 2 ^ d * 2 ^ Z.pos k)
    by (rewrite <- Z.pow_add_r by lia; f_equal; lia).
  rewrite E1, E2.
  assert (0 < 2 ^ Z.pos k) by (apply Z.pow_pos_nonneg; lia).
  split; [apply Z.mul_le_mono_nonneg_r|apply Z.mul_lt_mono_pos_r]; assumption || lia.
Qed.

(** For a score [p] of at least 1/2, [1 - p] is exact and at most [p]. *)
Lemma one_minus_upper_half (m : positive) :
  4503599627370496 <= Z.pos m < 9007199254740992 ->
  exists mq eq,
    fsub f1_0 (S754_finite false m (-53)) = S754_finite false mq eq
    /\ (eq < -53 \/ (eq = -53 /\ Z.pos mq = 9007199254740992 - Z.pos m)).
Proof.
  intros Hm. destruct (one_minus m (-53)) as (M & HM & ->); [lia|lia|].
  change (2 ^ (- -53)) with 9007199254740992 in HM.
  assert (Hd : Z.pos (digits2_pos M) <= 53).
  { apply digits2_pos_le. change (2 ^ 53) with 9007199254740992. lia. }
  pose proof (Pos2Z.is_pos (digits2_pos M)) as Hd1.
  unfold binary_round. rewrite fexp_normal by lia.
  set (d := Z.pos (digits2_pos M)) in *.
  unfold shl_align. replace (d + -53 - 53 - -53) with (d - 53) by lia.
  destruct (d - 53) as [|np|k] eqn:Hn; [|lia|].
  - exists M, (-53). split; [|right; lia].
    apply binary_round_aux_keep; [fold d; rewrite fexp_eq|]; lia.
  - exists (Pos.iter xO M k), (d + -53 - 53). split; [|left; lia].
    apply binary_round_aux_keep; [|lia].
    rewrite (digits_aligned M k) by (fold d; lia). rewrite fexp_eq. lia.
Qed.

Lemma confidence_upper_half (m : positive) :
  4503599627370496 <= Z.pos m < 9007199254740992 ->
  confidence (S754_finite false m (-53)) = S754_finite false m (-53).
Proof.
  intros Hm. destruct (one_minus_upper_half m Hm) as (mq & eq & Hq & Hshape).
  unfold confidence. change (float_of_int 1) with f1_0. rewrite Hq. unfold fmax.
  destruct (fltb (S754_finite false m (-53)) (S754_finite false mq eq)) eqn:Hlt;
    [|reflexivity].
  apply fltb_finite in Hlt. lia.
Qed.

Lemma confidence_lower_half (m : positive) (e : Z) :
  e < -53 -> Z.pos m < 9007199254740992 ->
  (-1074 < e -> 4503599627370496 <= Z.pos m) ->
  confidence (S754_finite false m e) = fsub f1_0 (S754_finite false m e).
Proof.
  intros He Hm Hnormal.
  destruct (one_minus_shape m e ltac:(lia) Hm Hnormal) as (mq & eq & Hq & Hshape).
  unfold confidence. change (float_of_int 1) with f1_0. rewrite Hq. unfold fmax.
  assert (Hlt : fltb (S754_finite false m e) (S754_finite false mq eq) = true)
    by (apply fltb_finite; lia).
  rewrite Hlt. reflexivity.
Qed.

End Verdict.

(** X10. The confidence is the share of the displayed verdict: for every
    score between 0 and 1, it is the score itself when the verdict is
    positive (score >= 0.5) and [1 - score] when it is negative. *)
Theorem confidence_is_share_of_verdict (p : spec_float) :
  Py.is_float p = true ->
  Py.fleb (Py.float_of_int 0) p = true ->
  Py.fleb p Py.f1_0 = true ->
  App.confidence p
  = if Py.fleb Py.f0_5 p then p else Py.fsub (Py.float_of_int 1) p.
Proof.
  intros Hvalid Hlo Hhi.
  destruct (unit_interval p Hvalid Hlo Hhi)
    as [[s ->]|[->|(m & e & -> & He & Hm & Hnormal)]].
  - destruct s; reflexivity.
  - reflexivity.
  - change (Py.float_of_int 1) with Py.f1_0.
    destruct (Z.eq_dec e (-53)) as [->|Hne].
    + specialize (Hnormal ltac:(lia)).
      assert (Hpos : Py.fleb Py.f0_5 (S754_finite false m (-53)) = true)
        by (apply fleb_finite; lia).
      rewrite Hpos. apply confidence_upper_half. lia.
    + assert (Hneg : Py.fleb Py.f0_5 (S754_finite false m e) = false).
      { destruct (Py.fleb Py.f0_5 (S754_finite false m e)) eqn:Hle; [|reflexivity].
        apply fleb_finite in Hle. lia. }
      rewrite Hneg. apply confidence_lower_half; [lia|assumption|assumption].
Qed.

Lemma confidence_is_share_of_verdict_witness :
  App.confidence Samples.tiny_score
  = if Py.fleb Py.f0_5 Samples.tiny_score then Samples.tiny_score
    else Py.fsub (Py.float_of_int 1) Samples.tiny_score.
Proof.
  apply (confidence_is_share_of_verdict Samples.tiny_score); vm_compute; reflexivity.
Defined.

(* ===================================================================== *)
(** * Further properties: the forecast page *)
(* ===================================================================== *)

Section ForecastRuns.
Import Py App.

(** The outcome of the computation inside the [try] of the forecast
    button: the stored count, or the message of the exception. *)
Lemma forecast_button_outcome (model : Regressor) (r : request) (now : datetime) (w : world) :
  forecast_button model r now w
  = match bind (encode r) (fun input_data =>
          bind (model input_data) (fun base_prediction =>
          final_prediction base_prediction (population r) (healthcare_index r))) with
    | Ok n =>
        (Rerun,
         {| session :=
              {| analysis_done := analysis_done (session w);
                 prediction_result := prediction_result (session w);
                 confidence_score := confidence_score (session w);
                 analyzed_image_hash := analyzed_image_hash (session w);
                 analysis_timestamp := analysis_timestamp (session w);
                 current_tab := current_tab (session w);
                 forecast_done := true;
                 forecast_result :=
                   Some {| result_prediction := n;
                           result_city := city r;
                           result_country := country r;
                           result_month := month r;
                           result_timestamp := now |};
                 models_loaded := models_loaded (session w) |};
            inferences := inferences w;
            ui := ui w |})
    | Raise msg =>
        (Done tt,
         {| session := session w;
            inferences := inferences w;
            ui := ui w ++ [UiError ("❌ Erreur lors de la prévision: " ++ msg)] |})
    end.
Proof.
  unfold forecast_button, try_except, generate_forecast, mbind, lift, bind.
  destruct (encode r) as [input_data|msg]; [|reflexivity].
  destruct (model input_data) as [base_prediction|msg]; [|reflexivity].
  destruct (final_prediction base_prediction (population r) (healthcare_index r));
    reflexivity.
Qed.

Lemma final_prediction_nonneg (base : spec_float) (pop : string) (hi n : Z) :
  final_prediction base pop hi = Ok n -> 0 <= n.
Proof.
  unfold final_prediction, bind, getitem.
  destruct (population_factors !! pop); [|discriminate].
  destruct (int_of_float _); [|discriminate].
  intros [= <-]. lia.
Qed.

(** The widgets always yield a request; its keys are options of the
    select boxes. *)
Lemma read_request_options (inp : inputs) :
  exists r pi ci j mi cities,
    (forall w, read_request inp w = (Done r, w))
    /\ populations !! pi = Some (population r)
    /\ countries !! ci = Some (country r)
    /\ city_options !! country r = Some cities
    /\ cities !! j = Some (city r)
    /\ months !! mi = Some (month r)
    /\ healthcare_index r = slider_healthcare_index inp.
Proof.
  destruct (st_selectbox_elem populations (pick_population inp)) as (p & pi & Hp & Hpi);
    [discriminate|].
  destruct (st_selectbox_elem countries (pick_country inp)) as (c & ci & Hc & Hci);
    [discriminate|].
  destruct (city_options_countries ci c Hci) as (cities & Hopts & Hne).
  destruct (st_selectbox_elem cities (pick_city inp) Hne) as (cy & j & Hcy & Hj).
  destruct (st_selectbox_elem months (pick_month inp)) as (m & mi & Hm & Hmi);
    [discriminate|].
  eexists _, pi, ci, j, mi, cities. split.
  { intros w. unfold read_request, mbind, not_none, lift, getitem, ret.
    rewrite Hp, Hc, Hopts, Hcy, Hm. reflexivity. }
  cbn [population country city month healthcare_index]. auto 7.
Qed.

Lemma show_forecast_detection (inp : inputs) (r : request) (w : world) :
  Facts.same_detection (session w) (session (show_forecast inp r w).2)
  /\ inferences (show_forecast inp r w).2 = inferences w.
Proof.
  unfold show_forecast, mbind, get_session, show, ret, Facts.same_detection.
  destruct (forecast_done (session w)); [|cbn; auto 6].
  destruct (forecast_result (session w)); [|cbn; auto 6].
  cbn [session inferences ui].
  destruct (st_button inp NouvellePrevision); cbn; auto 6.
Qed.

Lemma show_forecast_invariant (inp : inputs) (r : request) (w : world) :
  Facts.forecast_invariant (session w) ->
  Facts.forecast_invariant (session (show_forecast inp r w).2).
Proof.
  unfold show_forecast, mbind, get_session, show, ret.
  intros Hinv.
  destruct (forecast_done (session w)) eqn:Hd; [|exact Hinv].
  destruct (forecast_result (session w)) eqn:Hr; [|exact Hinv].
  cbn [session inferences ui].
  destruct (st_button inp NouvellePrevision); [|exact Hinv].
  unfold Facts.forecast_invariant. cbn.
  split; [discriminate|]. intros [x Hx]. discriminate.
Qed.

Lemma forecast_button_detection (model : Regressor) (r : request) (now : datetime) (w : world) :
  Facts.same_detection (session w) (session (forecast_button model r now w).2)
  /\ inferences (forecast_button model r now w).2 = inferences w.
Proof.
  rewrite forecast_button_outcome. unfold Facts.same_detection.
  destruct (bind _ _); cbn; auto 6.
Qed.

Lemma forecast_button_invariant (model : Regressor) (r : request) (now : datetime) (w : world) :
  Facts.forecast_invariant (session w) ->
  Facts.forecast_invariant (session (forecast_button model r now w).2).
Proof.
  rewrite forecast_button_outcome. unfold Facts.forecast_invariant. intros Hinv.
  destruct (bind _ _); cbn; [|exact Hinv].
  split; [eauto|reflexivity].
Qed.

(** The forecast page after its widgets are read. *)
Lemma forecast_page_read (model : Regressor) (inp : inputs) (r : request) (w : world) :
  (forall w0, read_request inp w0 = (Done r, w0)) ->
  forecast_page (Spec.with_regressor model) inp w
  = mbind (if st_button inp GenererPrevision then forecast_button model r (now inp)
           else ret tt)
      (fun _ => show_forecast inp r) w.
Proof.
  intros Hr. unfold forecast_page, Spec.with_regressor. cbn [forecast_model].
  unfold mbind at 1. rewrite Hr. reflexivity.
Qed.

Lemma forecast_page_model (models : models_status) (model : Regressor) (inp : inputs) :
  forecast_model models = Some model ->
  forecast_page models inp = forecast_page (Spec.with_regressor model) inp.
Proof. intros Hm. unfold forecast_page, Spec.with_regressor. cbn. rewrite Hm. reflexivity. Qed.

Lemma same_detection_trans (a b c : session_state) :
  Facts.same_detection a b -> Facts.same_detection b c -> Facts.same_detection a c.
Proof. unfold Facts.same_detection. intuition congruence. Qed.

Lemma same_detection_refl (a : session_state) : Facts.same_detection a a.
Proof. unfold Facts.same_detection. auto 6. Qed.

(** A run of the forecast page: detection fields, invocations and the
    forecast invariant. *)
Lemma forecast_page_keeps (models : models_status) (inp : inputs) (w : world) :
  Facts.same_detection (session w) (session (forecast_page models inp w).2)
  /\ inferences (forecast_page models inp w).2 = inferences w
  /\ (Facts.forecast_invariant (session w) ->
      Facts.forecast_invariant (session (forecast_page models inp w).2)).
Proof.
  destruct (forecast_model models) as [model|] eqn:Hm.
  2:{ unfold forecast_page. rewrite Hm. cbn. split; [apply same_detection_refl|auto]. }
  rewrite (forecast_page_model models model inp Hm).
  destruct (read_request_options inp) as (r & _ & _ & _ & _ & _ & Hr & _).
  rewrite (forecast_page_read model inp r w Hr). unfold mbind.
  destruct (st_button inp GenererPrevision).
  - pose proof (forecast_button_detection model r (now inp) w) as [Hd Hi].
    pose proof (forecast_button_invariant model r (now inp) w) as Hf.
    destruct (forecast_button model r (now inp) w) as [[a|m| |] w1]; cbn [snd] in *;
      try (split; [exact Hd|split; [exact Hi|exact Hf]]).
    pose proof (show_forecast_detection inp r w1) as [Hd' Hi'].
    pose proof (show_forecast_invariant inp r w1) as Hf'.
    split; [eapply same_detection_trans; eassumption|].
    split; [congruence|auto].
  - unfold ret.
    pose proof (show_forecast_detection inp r w) as [Hd' Hi'].
    pose proof (show_forecast_invariant inp r w) as Hf'.
    auto.
Qed.

End ForecastRuns.

Section PagesApart.
Import Py App.

Lemma same_forecast_refl (a : session_state) : Facts.same_forecast a a.
Proof. unfold Facts.same_forecast. auto. Qed.

Lemma same_forecast_trans (a b c : session_state) :
  Facts.same_forecast a b -> Facts.same_forecast b c -> Facts.same_forecast a c.
Proof. unfold Facts.same_forecast. intuition congruence. Qed.

Lemma run_analysis_forecast (image : Image) (h : string) (model : Classifier)
    (inp : inputs) (w : world) :
  Facts.same_forecast (session w) (session (run_analysis image h model inp w).2).
Proof.
  unfold run_analysis, process_image_prediction, mbind, invoke, Facts.same_forecast.
  destruct (model image) as [p|msg]; [cbn; auto|].
  destruct msg as [|c msg]; cbn; auto.
Qed.

Lemma show_results_forecast (inp : inputs) (w : world) :
  Facts.same_forecast (session w) (session (show_results inp w).2).
Proof.
  unfold show_results, mbind, get_session, not_none, show, ret, Facts.same_forecast.
  destruct (prediction_result (session w)); [|cbn; auto].
  destruct (analysis_timestamp (session w)); [|cbn; auto].
  cbn [session inferences ui].
  destruct (confidence_score (session w)); [|cbn; auto].
  destruct (st_button inp NouvelleAnalyse); cbn; auto.
Qed.

Lemma detection_page_forecast (models : models_status) (inp : inputs) (w : world) :
  Facts.same_forecast (session w) (session (detection_page models inp w).2).
Proof.
  destruct (detection_model models) as [model|] eqn:Hm;
    [|unfold detection_page; rewrite Hm; apply same_forecast_refl].
  rewrite (detection_page_model models model inp Hm).
  destruct (uploaded_file inp) as [[image|msg]|] eqn:Hup;
    [| unfold detection_page; cbn; rewrite Hup; apply same_forecast_refl
     | unfold detection_page; cbn; rewrite Hup; apply same_forecast_refl].
  assert (Hsub : exists w1, submit_image image w = (Done (get_image_hash image), w1)
                            /\ Facts.same_forecast (session w) (session w1)).
  { destruct (submit_image_cases image w) as [(_ & _ & H)|H]; eexists; split;
      try exact H; [apply same_forecast_refl|unfold Facts.same_forecast; cbn; auto]. }
  destruct Hsub as (w1 & Hsub & Hsame).
  rewrite (detection_page_uploaded model inp image w w1 Hup Hsub).
  apply same_forecast_trans with (1 := Hsame).
  unfold try_except.
  destruct (analysis_done (session w1)); cbn [negb].
  - pose proof (show_results_forecast inp w1) as Hshow.
    destruct (show_results inp w1) as [[a|m| |] w2]; exact Hshow.
  - destruct (st_button inp Analyser); [|apply same_forecast_refl].
    pose proof (run_analysis_forecast image (get_image_hash image) model inp w1) as Hrun.
    destruct (run_analysis image (get_image_hash image) model inp w1) as [[a|m| |] w2];
      exact Hrun.
Qed.

Lemma one_click (inp : inputs) (a b : button) :
  st_button inp a = true -> st_button inp b = true -> a = b.
Proof.
  unfold st_button. destruct (clicked inp) as [c|]; [|discriminate].
  destruct a, b, c; intros; congruence.
Qed.


End PagesApart.

(** X11. The two pages keep to their own session: a run of the
    detection page never changes the forecast fields, and a run of the
    forecast page never changes the detection fields nor invokes the
    classifier. *)
Theorem pages_keep_to_their_session (models : App.models_status) (inp : App.inputs)
    (w : App.world) :
  Facts.same_forecast (App.session w) (App.session (App.detection_page models inp w).2)
  /\ Facts.same_detection (App.session w) (App.session (App.forecast_page models inp w).2)
  /\ App.inferences (App.forecast_page models inp w).2 = App.inferences w.
Proof.
  split; [apply detection_page_forecast|].
  destruct (forecast_page_keeps models inp w) as (Hd & Hi & _). auto.
Qed.

(** X12. Every run of the script, whatever the page, the widgets and the
    models, keeps the forecast session consistent: it is marked done
    exactly when it holds a result. *)
Theorem forecast_invariant_kept (models : App.models_status) (inp : App.inputs)
    (w : App.world) :
  Facts.forecast_invariant (App.session w) ->
  Facts.forecast_invariant (App.session (App.run_script models inp w).2).
Proof.
  intros Hinv. unfold App.run_script.
  destruct (App.selected_feature inp).
  - destruct (detection_page_forecast models inp w) as (Hd & Hr & _).
    unfold Facts.forecast_invariant in *. rewrite Hd, Hr. exact Hinv.
  - destruct (forecast_page_keeps models inp w) as (_ & _ & Hf). auto.
  - exact Hinv.
Qed.

Lemma forecast_invariant_kept_witness :
  Facts.forecast_invariant
    (App.session (App.run_script (Spec.with_regressor Samples.thirty_cases)
                    (Facts.forecast_inputs (Some App.GenererPrevision)) Samples.fresh).2).
Proof.
  apply (forecast_invariant_kept (Spec.with_regressor Samples.thirty_cases)
           (Facts.forecast_inputs (Some App.GenererPrevision)) Samples.fresh).
  split; [discriminate|]. intros [x Hx]. discriminate.
Defined.



Section ForecastCycle.
Import Py App.


End ForecastCycle.



(** X15. On a complete forecast session, a click on the new-forecast
    button shows the stored forecast once more, then clears it (the
    session is no longer done and holds no result) and asks for a rerun;
    the detection fields are untouched. *)
Theorem new_forecast_resets (models : App.models_status) (model : App.Regressor)
    (inp : App.inputs) (record : App.forecast_record) (w : App.world) :
  App.forecast_model models = Some model ->
  App.st_button inp App.NouvellePrevision = true ->
  App.forecast_done (App.session w) = true ->
  App.forecast_result (App.session w) = Some record ->
  exists w1,
    App.forecast_page models inp w = (App.Rerun, w1)
    /\ App.forecast_done (App.session w1) = false
    /\ App.forecast_result (App.session w1) = None
    /\ Facts.same_detection (App.session w) (App.session w1)
    /\ App.ui w1 = App.ui w ++ [App.UiForecast (App.result_prediction record)
                                  (App.risk_level (App.result_prediction record))].
Proof.
  intros Hm Hbtn Hdone Hres. rewrite (forecast_page_model models model inp Hm).
  destruct (read_request_options inp) as (r & _ & _ & _ & _ & _ & Hr & _).
  rewrite (forecast_page_read model inp r w Hr). unfold App.mbind at 1.
  assert (Hgen : App.st_button inp App.GenererPrevision = false).
  { destruct (App.st_button inp App.GenererPrevision) eqn:Hg; [|reflexivity].
    discriminate (one_click inp _ _ Hbtn Hg). }
  rewrite Hgen. unfold App.ret.
  unfold App.show_forecast, App.mbind, App.get_session, App.show.
  rewrite Hdone, Hres. cbn [App.session App.inferences App.ui]. rewrite Hbtn.
  eexists. split; [reflexivity|]. cbn. unfold Facts.same_detection. cbn. auto 8.
Qed.

Lemma new_forecast_resets_witness :
  exists w1,
    App.forecast_page (Spec.with_regressor Samples.thirty_cases)
      (Facts.forecast_inputs (Some App.NouvellePrevision)) Facts.forecast_stored
    = (App.Rerun, w1)
    /\ App.forecast_done (App.session w1) = false
    /\ App.forecast_result (App.session w1) = None
    /\ Facts.same_detection (App.session Facts.forecast_stored) (App.session w1)
    /\ App.ui w1
       = App.ui Facts.forecast_stored
         ++ [App.UiForecast (App.result_prediction Facts.stored_record)
               (App.risk_level (App.result_prediction Facts.stored_record))].
Proof.
  apply (new_forecast_resets (Spec.with_regressor Samples.thirty_cases)
           Samples.thirty_cases (Facts.forecast_inputs (Some App.NouvellePrevision))
           Facts.stored_record Facts.forecast_stored); reflexivity.
Defined.

(** X16. Without a click on one of its two buttons, a run of the
    forecast page changes nothing in the session, whatever the sliders
    and select boxes show: a stored forecast stays as it was computed,
    also when the widgets no longer show the values it was computed
    from. *)
Theorem forecast_page_without_click (models : App.models_status) (inp : App.inputs)
    (w : App.world) :
  App.st_button inp App.GenererPrevision = false ->
  App.st_button inp App.NouvellePrevision = false ->
  App.session (App.forecast_page models inp w).2 = App.session w
  /\ App.inferences (App.forecast_page models inp w).2 = App.inferences w.
Proof.
  intros Hgen Hnew.
  destruct (App.forecast_model models) as [model|] eqn:Hm;
    [|unfold App.forecast_page; rewrite Hm; split; reflexivity].
  rewrite (forecast_page_model models model inp Hm).
  destruct (read_request_options inp) as (r & _ & _ & _ & _ & _ & Hr & _).
  rewrite (forecast_page_read model inp r w Hr). unfold App.mbind at 1.
  rewrite Hgen. unfold App.ret.
  unfold App.show_forecast, App.mbind, App.get_session, App.show, App.ret.
  destruct (App.forecast_done (App.session w)); [|split; reflexivity].
  destruct (App.forecast_result (App.session w)); [|split; reflexivity].
  cbn [App.session App.inferences App.ui]. rewrite Hnew. split; reflexivity.
Qed.

Lemma forecast_page_without_click_witness :
  App.session (App.forecast_page (Spec.with_regressor Samples.thirty_cases)
                 (Facts.forecast_inputs None) Facts.forecast_stored).2
  = App.session Facts.forecast_stored
  /\ App.inferences (App.forecast_page (Spec.with_regressor Samples.thirty_cases)
                       (Facts.forecast_inputs None) Facts.forecast_stored).2
     = App.inferences Facts.forecast_stored.
Proof.
  apply (forecast_page_without_click (Spec.with_regressor Samples.thirty_cases)
           (Facts.forecast_inputs None) Facts.forecast_stored); reflexivity.
Defined.

(* ===================================================================== *)
(** * Further properties: encoding and post-processing *)
(* ===================================================================== *)

Section Keys.
Import Py App.

Lemma country_map_known c :
  c ∈ countries -> exists i, country_map !! c = Some i
                             /\ countries !! Z.to_nat i = Some c /\ 0 <= i < 5.
Proof.
  intros Hc. unfold countries in Hc.
  repeat (apply elem_of_cons in Hc as [->|Hc];
          [eexists; split; [vm_compute; reflexivity|split; [reflexivity|lia]]|]).
  apply elem_of_nil in Hc. contradiction.
Qed.

Lemma city_map_known c :
  c ∈ all_cities -> exists i, city_map !! c = Some i
                              /\ all_cities !! Z.to_nat i = Some c /\ 0 <= i < 20.
Proof.
  intros Hc. unfold all_cities in Hc.
  repeat (apply elem_of_cons in Hc as [->|Hc];
          [eexists; split; [vm_compute; reflexivity|split; [reflexivity|lia]]|]).
  apply elem_of_nil in Hc. contradiction.
Qed.

Lemma month_map_known c :
  c ∈ months -> exists i, month_map !! c = Some i
                          /\ months !! Z.to_nat i = Some c /\ 0 <= i < 6.
Proof.
  intros Hc. unfold months in Hc.
  repeat (apply elem_of_cons in Hc as [->|Hc];
          [eexists; split; [vm_compute; reflexivity|split; [reflexivity|lia]]|]).
  apply elem_of_nil in Hc. contradiction.
Qed.

Lemma country_map_unknown c : c ∉ countries -> country_map !! c = None.
Proof. intros Hc. apply dict_lookup_None. exact Hc. Qed.

Lemma month_map_unknown c : c ∉ months -> month_map !! c = None.
Proof. intros Hc. apply dict_lookup_None. exact Hc. Qed.

Lemma country_map_decode c i :
  country_map !! c = Some i -> countries !! Z.to_nat i = Some c /\ 0 <= i < 5.
Proof.
  intros Hl. destruct (decide (c ∈ countries)) as [Hin|Hout].
  - destruct (country_map_known c Hin) as (i' & Hl' & Hdec). congruence.
  - rewrite (country_map_unknown c Hout) in Hl. discriminate.
Qed.

Lemma city_map_decode c i :
  city_map !! c = Some i -> all_cities !! Z.to_nat i = Some c /\ 0 <= i < 20.
Proof.
  intros Hl. destruct (decide (c ∈ all_cities)) as [Hin|Hout].
  - destruct (city_map_known c Hin) as (i' & Hl' & Hdec). congruence.
  - rewrite (city_map_unknown c Hout) in Hl. discriminate.
Qed.

Lemma month_map_decode c i :
  month_map !! c = Some i -> months !! Z.to_nat i = Some c /\ 0 <= i < 6.
Proof.
  intros Hl. destruct (decide (c ∈ months)) as [Hin|Hout].
  - destruct (month_map_known c Hin) as (i' & Hl' & Hdec). congruence.
  - rewrite (month_map_unknown c Hout) in Hl. discriminate.
Qed.

End Keys.

(** X17. No forecast request fails in the encoder: whatever the widgets
    show, the request the page reads pairs the selected country with one
    of its own four cities, the three dictionary lookups succeed, and the
    row starts with the country's position among the 5 countries, the
    city's position among the 20 cities (4 times the country's, plus the
    city's among the country's) and the month's among the 6 months. *)
Theorem page_requests_are_encoded (inp : App.inputs) (w : App.world) :
  exists r ci j mi cities,
    App.read_request inp w = (App.Done r, w)
    /\ App.countries !! ci = Some (App.country r)
    /\ App.city_options !! App.country r = Some cities
    /\ cities !! j = Some (App.city r)
    /\ length cities = 4%nat
    /\ App.months !! mi = Some (App.month r)
    /\ App.all_cities !! (4 * ci + j)%nat = Some (App.city r)
    /\ App.encode r
       = Py.Ok [[App.Int (Z.of_nat ci); App.Int (Z.of_nat (4 * ci + j));
                 App.Int (Z.of_nat mi);
                 App.Float (App.slider_temperature inp);
                 App.Float (App.slider_humidity inp);
                 App.Float (App.slider_rainfall inp);
                 App.Int (App.slider_previous_cases inp)]].
Proof.
  destruct (read_request_valid inp w) as (r & ci & j & mi & cities & Hr & Hc & Ho & Hj & Hmo).
  destruct (encode_indices r ci j mi cities Hc Ho Hj Hmo) as [Henc Hall].
  exists r, ci, j, mi, cities.
  assert (Hfields : App.temperature r = App.slider_temperature inp
                    /\ App.humidity r = App.slider_humidity inp
                    /\ App.rainfall r = App.slider_rainfall inp
                    /\ App.previous_cases r = App.slider_previous_cases inp).
  { unfold App.read_request, App.mbind, App.not_none, App.lift, App.ret in Hr.
    destruct (App.st_selectbox App.populations _); [|discriminate].
    destruct (App.st_selectbox App.countries _); [|discriminate].
    destruct (Py.getitem App.city_options _); [|discriminate].
    destruct (App.st_selectbox _ (App.pick_city inp)); [|discriminate].
    destruct (App.st_selectbox App.months _); [|discriminate].
    injection Hr as <-. cbn. auto. }
  destruct Hfields as (<- & <- & <- & <-).
  assert (Hlen : length cities = 4%nat).
  { do 5 (destruct ci as [|ci];
          [injection Hc as Hc; rewrite <- Hc in Ho; vm_compute in Ho;
           injection Ho as <-; reflexivity|]).
    discriminate Hc. }
  auto 10.
Qed.

(** X18. The row can be decoded: whenever the encoder returns, its one
    row holds, in this order, the positions of the request's country,
    city and month in the three lists (so they can be read back from the
    row) and the four numeric features unchanged. Two requests with the
    same row agree on all seven fields. *)
Theorem encode_can_be_decoded (r : App.request) (rows : list (list App.num)) :
  App.encode r = Py.Ok rows ->
  exists c k m,
    rows = [[App.Int c; App.Int k; App.Int m;
             App.Float (App.temperature r); App.Float (App.humidity r);
             App.Float (App.rainfall r); App.Int (App.previous_cases r)]]
    /\ App.countries !! Z.to_nat c = Some (App.country r)
    /\ App.all_cities !! Z.to_nat k = Some (App.city r)
    /\ App.months !! Z.to_nat m = Some (App.month r)
    /\ 0 <= c < 5 /\ 0 <= k < 20 /\ 0 <= m < 6
    /\ forall r', App.encode r' = Py.Ok rows ->
         App.country r' = App.country r /\ App.city r' = App.city r
         /\ App.month r' = App.month r
         /\ App.temperature r' = App.temperature r
         /\ App.humidity r' = App.humidity r
         /\ App.rainfall r' = App.rainfall r
         /\ App.previous_cases r' = App.previous_cases r.
Proof.
  unfold App.encode, Py.bind, Py.getitem.
  destruct (App.country_map !! App.country r) as [c|] eqn:Hc; [|discriminate].
  destruct (App.city_map !! App.city r) as [k|] eqn:Hk; [|discriminate].
  destruct (App.month_map !! App.month r) as [m|] eqn:Hm; [|discriminate].
  intros [= <-]. exists c, k, m.
  destruct (country_map_decode _ _ Hc) as [Dc ?], (city_map_decode _ _ Hk) as [Dk ?],
    (month_map_decode _ _ Hm) as [Dm ?].
  do 7 (split; [assumption || reflexivity|]).
  intros r'.
  destruct (App.country_map !! App.country r') as [c'|] eqn:Hc'; [|discriminate].
  destruct (App.city_map !! App.city r') as [k'|] eqn:Hk'; [|discriminate].
  destruct (App.month_map !! App.month r') as [m'|] eqn:Hm'; [|discriminate].
  intros [= -> -> -> Ht Hh Hr Hp].
  destruct (country_map_decode _ _ Hc') as [Dc' _], (city_map_decode _ _ Hk') as [Dk' _],
    (month_map_decode _ _ Hm') as [Dm' _].
  repeat split; congruence.
Qed.

Lemma encode_can_be_decoded_witness :
  exists c k m,
    [[App.Int 1; App.Int 6; App.Int 3;
      App.Float (Py.float_of_int 30); App.Float (Py.float_of_int 70);
      App.Float (Py.float_of_int 120); App.Int 20]]
    = [[App.Int c; App.Int k; App.Int m;
        App.Float (App.temperature Samples.kayes_in_august);
        App.Float (App.humidity Samples.kayes_in_august);
        App.Float (App.rainfall Samples.kayes_in_august);
        App.Int (App.previous_cases Samples.kayes_in_august)]]
    /\ App.countries !! Z.to_nat c = Some (App.country Samples.kayes_in_august)
    /\ App.all_cities !! Z.to_nat k = Some (App.city Samples.kayes_in_august)
    /\ App.months !! Z.to_nat m = Some (App.month Samples.kayes_in_august)
    /\ 0 <= c < 5 /\ 0 <= k < 20 /\ 0 <= m < 6
    /\ forall r',
         App.encode r'
         = Py.Ok [[App.Int 1; App.Int 6; App.Int 3;
                   App.Float (Py.float_of_int 30); App.Float (Py.float_of_int 70);
                   App.Float (Py.float_of_int 120); App.Int 20]] ->
         App.country r' = App.country Samples.kayes_in_august
         /\ App.city r' = App.city Samples.kayes_in_august
         /\ App.month r' = App.month Samples.kayes_in_august
         /\ App.temperature r' = App.temperature Samples.kayes_in_august
         /\ App.humidity r' = App.humidity Samples.kayes_in_august
         /\ App.rainfall r' = App.rainfall Samples.kayes_in_august
         /\ App.previous_cases r' = App.previous_cases Samples.kayes_in_august.
Proof.
  apply (encode_can_be_decoded Samples.kayes_in_august). vm_compute. reflexivity.
Defined.

Section Signs.
Import Py App.






End Signs.



(** X20. Over the range of the healthcare slider (1 to 10) the
    healthcare factor is positive and strictly decreasing in the index:
    a better index gives a smaller factor, from [1.2 - 1/10] down to
    [1.2 - 10/10], which is just below 0.2. *)
Theorem healthcare_factor_decreases (healthcare_index : Z) :
  1 <= healthcare_index <= 10 ->
  Py.fltb (Py.float_of_int 0) (App.healthcare_factor healthcare_index) = true
  /\ (healthcare_index < 10 ->
      Py.fltb (App.healthcare_factor (healthcare_index + 1))
              (App.healthcare_factor healthcare_index) = true)
  /\ Py.fleb (App.healthcare_factor healthcare_index) (App.healthcare_factor 1) = true
  /\ Py.fleb (App.healthcare_factor 10) (App.healthcare_factor healthcare_index) = true
  /\ Py.fltb (App.healthcare_factor 10) (Py.int_truediv 2 10) = true.
Proof.
  intros Hh.
  assert (Hcases : healthcare_index = 1 \/ healthcare_index = 2 \/ healthcare_index = 3
                   \/ healthcare_index = 4 \/ healthcare_index = 5 \/ healthcare_index = 6
                   \/ healthcare_index = 7 \/ healthcare_index = 8 \/ healthcare_index = 9
                   \/ healthcare_index = 10) by lia.
  repeat (destruct Hcases as [->|Hcases];
          [vm_compute; repeat split; intros; reflexivity|]).
  subst. vm_compute. repeat split; intros; reflexivity.
Qed.

Lemma healthcare_factor_decreases_witness :
  Py.fltb (Py.float_of_int 0) (App.healthcare_factor 9) = true
  /\ (9 < 10 ->
      Py.fltb (App.healthcare_factor (9 + 1)) (App.healthcare_factor 9) = true)
  /\ Py.fleb (App.healthcare_factor 9) (App.healthcare_factor 1) = true
  /\ Py.fleb (App.healthcare_factor 10) (App.healthcare_factor 9) = true
  /\ Py.fltb (App.healthcare_factor 10) (Py.int_truediv 2 10) = true.
Proof. apply (healthcare_factor_decreases 9). lia. Defined.

(* ===================================================================== *)
(** * Further properties: start-up and the progress animation *)
(* ===================================================================== *)

(** X21. The two models are loaded independently: each is loaded exactly
    when its own load does not raise, whatever happens to the other; the
    error list is empty exactly when both are loaded. When the detection
    model failed to load, every run of the detection page ends after an
    error box, with the session untouched and no classifier call, while
    the forecast page runs as if the detection model had loaded. *)
Theorem load_failures_are_independent (load_model : Py.result App.Classifier)
    (joblib_load : Py.result App.Regressor) :
  (App.detection_loaded (Startup.load_ai_models load_model joblib_load) = true
   <-> exists model, load_model = Py.Ok model)
  /\ (App.forecast_loaded (Startup.load_ai_models load_model joblib_load) = true
      <-> exists model, joblib_load = Py.Ok model)
  /\ (App.errors (Startup.load_ai_models load_model joblib_load) = []
      <-> App.detection_loaded (Startup.load_ai_models load_model joblib_load) = true
          /\ App.forecast_loaded (Startup.load_ai_models load_model joblib_load) = true)
  /\ (forall e inp w,
        load_model = Py.Raise e ->
        (exists msg,
           App.detection_page (Startup.load_ai_models load_model joblib_load) inp w
           = (App.Stop, {| App.session := App.session w;
                           App.inferences := App.inferences w;
                           App.ui := App.ui w ++ [App.UiError msg] |}))
        /\ In ("Détection: " ++ e)%string
              (App.errors (Startup.load_ai_models load_model joblib_load))
        /\ forall model,
             App.forecast_page (Startup.load_ai_models load_model joblib_load) inp w
             = App.forecast_page (Startup.load_ai_models (Py.Ok model) joblib_load) inp w).
Proof.
  destruct load_model as [dm|de], joblib_load as [fm|fe];
    cbn [Startup.load_ai_models App.detection_loaded App.forecast_loaded
         App.detection_model App.forecast_model App.errors app];
    (split; [split; [intros H; try discriminate; eauto|intros [m Hm]; try discriminate; reflexivity]|]);
    (split; [split; [intros H; try discriminate; eauto|intros [m Hm]; try discriminate; reflexivity]|]);
    (split; [split; [intros H; try discriminate; auto|intros [H1 H2]; try discriminate; reflexivity]|]);
    intros e inp w He; try discriminate; injection He as <-;
    (split; [eexists; reflexivity|]); (split; [cbn; auto|]); intros model; reflexivity.
Qed.

Section Animation.
Import Py Startup.

Lemma step_of_tick (i : Z) :
  0 <= i < 100 ->
  i / 20 = 0 \/ i / 20 = 1 \/ i / 20 = 2 \/ i / 20 = 3 \/ i / 20 = 4.
Proof.
  intros Hi.
  assert (0 <= i / 20) by (apply Z.div_pos; lia).
  assert (i / 20 < 5) by (apply Z.div_lt_upper_bound; lia).
  lia.
Qed.

End Animation.

(** X22. The progress loop stays within bounds: for each of its 100
    iterations the value given to the progress bar is between 1 and 100,
    the clamp of the step index is never needed ([i // 20] is already a
    valid index) and the message exists, so no [IndexError] is raised;
    over the whole loop the bar goes from 1 to 100 and each of the five
    messages is shown 20 times, in order. *)
Theorem progress_ticks_are_valid (i : Z) :
  0 <= i < 100 ->
  1 <= (Startup.tick i).1 <= 100
  /\ Startup.step_idx i = i / 20
  /\ (exists text,
        (Startup.tick i).2 = Py.Ok text
        /\ Startup.processing_steps !! Z.to_nat (i / 20) = Some text)
  /\ map fst Startup.ticks = map Z.of_nat (seq 1 100)
  /\ map snd Startup.ticks
     = flat_map (fun text => repeat (Py.Ok text) 20) Startup.processing_steps.
Proof.
  intros Hi. unfold Startup.tick. cbn [fst snd].
  split; [lia|].
  assert (Hstep : Startup.step_idx i = i / 20).
  { unfold Startup.step_idx. cbn [length Startup.processing_steps].
    pose proof (step_of_tick i Hi). lia. }
  split; [exact Hstep|]. rewrite Hstep.
  split; [|split; vm_compute; reflexivity].
  destruct (step_of_tick i Hi) as [->|[->|[->|[->| ->]]]]; eexists; split; reflexivity.
Qed.

Lemma progress_ticks_are_valid_witness :
  1 <= (Startup.tick 99).1 <= 100
  /\ Startup.step_idx 99 = 99 / 20
  /\ (exists text,
        (Startup.tick 99).2 = Py.Ok text
        /\ Startup.processing_steps !! Z.to_nat (99 / 20) = Some text)
  /\ map fst Startup.ticks = map Z.of_nat (seq 1 100)
  /\ map snd Startup.ticks
     = flat_map (fun text => repeat (Py.Ok text) 20) Startup.processing_steps.
Proof. apply (progress_ticks_are_valid 99). lia. Defined.
